(** * XPENSEA back office: report eligibility, approval and wallet accounting

    A shallow embedding of the user controller (createReport, updateReport,
    updateApproval, getWallet) over an explicit document store, followed by
    the properties of the report/expense workflow.

    Conventions of the embedding:
    - a collection is the list of its documents in natural (insertion) order;
      a query is a filter over that list;
    - ObjectIds and statuses are strings, as they travel in the requests; a
      query casts the ids it is given, and an id that is no ObjectId makes it
      throw ([castable]);
    - amounts are integers ([Z]): whole currency units inside the range where
      JavaScript number addition and comparison are exact;
    - strings hold ASCII characters ([asciiOnly]): on these [toLowerCase] and
      [capitalize] are JavaScript's, and the statements that rest on letter
      case say so;
    - the totals object of [createReport] is a JavaScript object: the
      properties it inherits are modelled ([inheritedKeys]); its entries are
      kept in insertion order, the order of [Object.entries] for titles that
      are not array indices;
    - a handler is a state transformer that either runs to its end, answers
      early with [responseHandler], or throws; the [catch] block of every
      handler turns a throw into a 500 answer and keeps the writes made so
      far. *)

From Stdlib Require Import ZArith Lia List Bool Ascii String Sorted.
From stdpp Require Import base tactics strings pretty.
Import ListNotations.

Local Open Scope string_scope.
Local Open Scope list_scope.
Local Open Scope Z_scope.

(** ** JavaScript helpers *)

(** [if (s)] on a string: every string but the empty one is truthy. *)
Definition truthy (s : string) : bool :=
  match s with EmptyString => false | String _ _ => true end.

(** [if (n)] on a number: every number but zero is truthy. *)
Definition truthyNum (n : Z) : bool := negb (n =? 0).

Definition lowerChar (c : ascii) : ascii :=
  let n := nat_of_ascii c in
  if ((65 <=? n)%nat && (n <=? 90)%nat)%bool then ascii_of_nat (n + 32) else c.

(** A string of ASCII characters. *)
Fixpoint asciiOnly (s : string) : bool :=
  match s with
  | EmptyString => true
  | String c rest => (nat_of_ascii c <? 128)%nat && asciiOnly rest
  end.

(** [String.prototype.toLowerCase] on a string of ASCII characters: only the
    letters [A] to [Z] change.  On other strings JavaScript follows the
    Unicode tables, which are not modelled. *)
Fixpoint toLowerCase (s : string) : string :=
  match s with
  | EmptyString => EmptyString
  | String c rest => String (lowerChar c) (toLowerCase rest)
  end.

Fixpoint repeatChar (n : nat) (c : ascii) : string :=
  match n with O => EmptyString | S k => String c (repeatChar k c) end.

(** [s.padStart(width, c)] for a one-character filler. *)
Definition padStart (width : nat) (c : ascii) (s : string) : string :=
  repeatChar (width - String.length s) c +:+ s.

(** [xs.includes(x)] on an array of strings. *)
Definition includes (xs : list string) (x : string) : bool :=
  existsb (String.eqb x) xs.

(** [`Rep#${n.toString().padStart(3, "0")}`] *)
Definition formatReportId (n : nat) : string :=
  "Rep#" +:+ padStart 3 "0" (pretty n).

(** *** ObjectIds *)

Definition isHexDigit (c : ascii) : bool :=
  let n := nat_of_ascii c in
  ((48 <=? n)%nat && (n <=? 57)%nat)
  || ((65 <=? n)%nat && (n <=? 70)%nat)
  || ((97 <=? n)%nat && (n <=? 102)%nat).

Fixpoint allHex (s : string) : bool :=
  match s with
  | EmptyString => true
  | String c rest => isHexDigit c && allHex rest
  end.

(** The text of an ObjectId as the driver reads it: 24 hexadecimal digits.
    (Drivers before BSON 5 also read any string of 12 characters as the bytes
    of an ObjectId; the statements below about ids that do not cast leave
    strings of that length out.) *)
Definition isObjectId (id : string) : bool :=
  (String.length id =? 24)%nat && allHex id.

Definition quote : string := String (ascii_of_nat 34) EmptyString.

(** The message of the [CastError] that Mongoose throws for an id. *)
Definition castError (value path model : string) : string :=
  "Cast to ObjectId failed for value " +:+ quote +:+ value +:+ quote
  +:+ " (type string) at path " +:+ quote +:+ path +:+ quote
  +:+ " for model " +:+ quote +:+ model +:+ quote.

(** ** Documents *)

Module Category.
Record t := mk { title : string; maxAmount : Z; status : bool }.
End Category.

Module Tier.
Record t := mk { _id : string; categories : list Category.t; totalAmount : Z }.
End Tier.

(** A user document carries an approver reference, and a tier reference
    unless it was stored without one. *)
Module User.
Record t := mk { _id : string; approver : string; tier : option string }.
End User.

Module Expense.
Record t := mk {
  _id : string; user : string; title : string;
  category : string; amount : Z; status : string }.
Definition setStatus (st : string) (e : t) : t :=
  mk (_id e) (user e) (title e) (category e) (amount e) st.
End Expense.

Module Event.
Record t := mk { _id : string; type : string }.
End Event.

Module Report.
Record t := mk {
  _id : string; reportId : option string; user : string;
  event : option string; expenses : list string; title : string;
  status : string; reportDate : Z; reason : list string;
  approver : option string }.
End Report.

Module Notification.
Record t := mk { content : string; user : string; status : string }.
End Notification.

Module Transaction.
Record t := mk {
  _id : string; sender : option string; receiver : string;
  amount : Z; status : string; createdAt : Z }.
End Transaction.

(** [deductBy] is the reference to whoever deducted, as it is stored. *)
Module Deduction.
Record t := mk {
  _id : string; user : string; amount : Z; deductBy : string;
  deductOn : Z; report : string; mode : string; status : bool }.
End Deduction.

(** The store: one list per collection. *)
Record DB := mkDB {
  tiers : list Tier.t;
  users : list User.t;
  expenses : list Expense.t;
  events : list Event.t;
  reports : list Report.t;
  notifications : list Notification.t;
  transactions : list Transaction.t;
  deductions : list Deduction.t }.

(** The ObjectIds that a store holds: the ids of its documents and the
    expense and event references of its reports. *)
Definition objectIds (s : DB) : list string :=
  map Tier._id (tiers s) ++ map User._id (users s)
  ++ map Expense._id (expenses s) ++ map Event._id (events s)
  ++ flat_map (λ r, Report._id r :: Report.expenses r
                    ++ match Report.event r with
                       | Some eventId => [eventId]
                       | None => []
                       end)
              (reports s)
  ++ map Transaction._id (transactions s) ++ map Deduction._id (deductions s).

(** Whether [new ObjectId(id)] succeeds, the cast that a query makes of an
    id it is given as a string.  The ids that a store holds are ObjectIds,
    under whatever name the scenarios write them; any other string casts
    when it is the text of an ObjectId.  On a store whose ids are 24
    hexadecimal digits, as every stored ObjectId is written, this is
    [isObjectId]. *)
Definition castable (s : DB) (id : string) : bool :=
  includes (objectIds s) id || isObjectId id.

(** An id that no driver casts: it does not cast here and is not twelve
    characters long. *)
Definition malformed (s : DB) (id : string) : bool :=
  negb (castable s id) && negb (String.length id =? 12)%nat.

Definition withExpenses (f : list Expense.t → list Expense.t) (s : DB) : DB :=
  mkDB (tiers s) (users s) (f (expenses s)) (events s) (reports s)
       (notifications s) (transactions s) (deductions s).

Definition withReports (f : list Report.t → list Report.t) (s : DB) : DB :=
  mkDB (tiers s) (users s) (expenses s) (events s) (f (reports s))
       (notifications s) (transactions s) (deductions s).

Definition withNotifications
    (f : list Notification.t → list Notification.t) (s : DB) : DB :=
  mkDB (tiers s) (users s) (expenses s) (events s) (reports s)
       (f (notifications s)) (transactions s) (deductions s).

(** ** Answers

    One constructor per [responseHandler] call site of the four handlers;
    [statusCode] and [message] give the HTTP status and the text the source
    sends there.  The constructor names follow the error names of the
    specification. *)

Module Wallet.
Record entry := mkEntry {
  _id : string; amount : Z; date : Z; mode : string; admin : string }.
Record t := mk {
  totalAmount : Z; totalExpenses : Z; balanceAmount : Z;
  expenses : list entry }.
End Wallet.

Inductive response :=
  | InvalidInput (details : string)
  | ExpensesRequired
  | EventNotFound
  | AlreadyMapped (title : string)
  | CategoryNotAllowed (title : string)
  | CategoryDisabled (title : string)
  | CategoryLimitExceeded (title : string)
  | ExpenseAlreadyReported (reportTitle : string)
  | TierLimitExceeded (limit : Z)
  | ReportCreated (newReport : Report.t)
  | ReportCreationFailed
  | ReportIdRequired
  | ReportNotFound
  | ReportUpdated (updatedReport : option Report.t)
  | ApprovalIdRequired
  | ApprovalNotFound
  | InvalidTransition
  | ExpenseMismatch
  | ApprovalFailed (newStatus : string)
  | ApprovalDone (newStatus : string)
  | UserNotFound
  | WalletDetails (wallet : Wallet.t)
  | InternalError (errorMessage : string).

Definition statusCode (r : response) : Z :=
  match r with
  | ReportCreated _ | ReportUpdated _ | ApprovalDone _ | WalletDetails _ => 200
  | EventNotFound | ReportNotFound | ApprovalNotFound | InvalidTransition
  | UserNotFound => 404
  | InternalError _ => 500
  | _ => 400
  end.

Definition message (r : response) : string :=
  match r with
  | InvalidInput details => "Invalid input: " +:+ details
  | ExpensesRequired => "Expenses are required"
  | EventNotFound => "Event not found"
  | AlreadyMapped title =>
      "Expense with title " +:+ title +:+ " is already mapped."
  | CategoryNotAllowed title => "Category " +:+ title +:+ " not found."
  | CategoryDisabled title => "Category " +:+ title +:+ " is disabled."
  | CategoryLimitExceeded title =>
      "Total amount for category " +:+ title +:+ " exceeds the maximum allowed."
  | ExpenseAlreadyReported reportTitle =>
      reportTitle +:+ " is already included some expenses you mapped."
  | TierLimitExceeded limit =>
      "The total amount of existing reports within the last 30 days exceeds your tier limit of "
      +:+ pretty limit +:+ "."
  | ReportCreated _ => "Report created successfully..!"
  | ReportCreationFailed => "Report creation failed...!"
  | ReportIdRequired => "Report ID is required"
  | ReportNotFound => "Report not found"
  | ReportUpdated _ => "Report updated successfully"
  | ApprovalIdRequired => "Approval ID is required"
  | ApprovalNotFound => "Approval not found"
  | InvalidTransition => "Approval has already done"
  | ExpenseMismatch => "Expenses do not match"
  | ApprovalFailed newStatus => "Approval " +:+ newStatus +:+ " failed"
  | ApprovalDone newStatus => "Approval " +:+ newStatus +:+ " successfully"
  | UserNotFound => "User not found"
  | WalletDetails _ => "Wallet details retrieved successfully"
  | InternalError errorMessage => "Internal Server Error " +:+ errorMessage
  end.

(** ** Handlers as state transformers with early answers and throws *)

Inductive outcome (A : Type) :=
  | Next (a : A)
  | Answer (r : response)
  | Throw (errorMessage : string).
Arguments Next {A} a.
Arguments Answer {A} r.
Arguments Throw {A} errorMessage.

Definition handler (A : Type) : Type := DB → outcome A * DB.

Definition ret {A} (a : A) : handler A := λ s, (Next a, s).

Definition bind {A B} (m : handler A) (k : A → handler B) : handler B :=
  λ s, match m s with
       | (Next a, s') => k a s'
       | (Answer r, s') => (Answer r, s')
       | (Throw e, s') => (Throw e, s')
       end.

Notation "x <- m ;; k" := (bind m (λ x, k))
  (at level 62, m at next level, right associativity, only parsing).
Notation "m ;;; k" := (bind m (λ _, k))
  (at level 62, right associativity, only parsing).

(** [return responseHandler(res, ...)] *)
Definition answer {A} (r : response) : handler A := λ s, (Answer r, s).

(** A thrown [TypeError]. *)
Definition throw {A} (e : string) : handler A := λ s, (Throw e, s).

(** A pure loop result replayed in the handler. *)
Definition lift {A} (o : outcome A) : handler A := λ s, (o, s).

(** A read of the store. *)
Definition query {A} (f : DB → A) : handler A := λ s, (Next (f s), s).

(** A write to the store. *)
Definition write (f : DB → DB) : handler unit := λ s, (Next tt, f s).

(** [obj.field] on a value that may be [null]. *)
Definition prop {A B} (field : A → B) (name : string) (obj : option A)
    : handler B :=
  match obj with
  | Some o => ret (field o)
  | None => throw ("Cannot read properties of null (reading '" +:+ name +:+ "')")
  end.

(** The casts of the ids of one query against [model], in the order of the
    ids: the message of the first cast that fails, if one does.  [casts] is
    the cast of the driver. *)
Definition castFailure (casts : string → bool) (model : string)
    (ids : list string) : option string :=
  option_map (λ id, castError id "_id" model)
             (find (λ id, negb (casts id)) ids).

(** A query's casts: a failing cast throws before the query runs. *)
Definition cast (casts : string → bool) (model : string)
    (ids : list string) : handler unit :=
  match castFailure casts model ids with
  | Some e => throw e
  | None => ret tt
  end.

(** [try { ... } catch (error) { return responseHandler(res, 500, ...) }] *)
Definition tryCatch (h : handler response) (s : DB) : response * DB :=
  match h s with
  | (Next r, s') => (r, s')
  | (Answer r, s') => (r, s')
  | (Throw e, s') => (InternalError e, s')
  end.

(** ** Queries and writes of the models *)

Definition inIds (ids : list string) (id : string) : bool := includes ids id.

(** [Expense.find({ _id: { $in: ids } })] *)
Definition Expense_find (ids : list string) (s : DB) : list Expense.t :=
  List.filter (λ e, inIds ids (Expense._id e)) (expenses s).

(** [Expense.updateMany({ _id: { $in: ids } }, { status })] for ids that
    cast; the handlers make the casts ([cast]) before they write. *)
Definition Expense_updateMany (ids : list string) (st : string) (s : DB) : DB :=
  withExpenses
    (map (λ e, if inIds ids (Expense._id e) then Expense.setStatus st e else e))
    s.

Definition User_findById (id : string) (s : DB) : option User.t :=
  find (λ u, String.eqb (User._id u) id) (users s).

Definition Tier_findById (id : string) (s : DB) : option Tier.t :=
  find (λ t, String.eqb (Tier._id t) id) (tiers s).

(** [User.findOne({ _id }).populate("tier")]: the user document together
    with its tier document, [None] where the reference does not resolve. *)
Definition User_findOne_populate (id : string) (s : DB)
    : option (User.t * option Tier.t) :=
  match User_findById id s with
  | Some u =>
      Some (u, match User.tier u with
               | Some tierId => Tier_findById tierId s
               | None => None
               end)
  | None => None
  end.

(** [Event.findOne({ _id: id })] and [Event.findById(id)] for an id that
    casts. *)
Definition Event_findOne (id : string) (s : DB) : option Event.t :=
  find (λ e, String.eqb (Event._id e) id) (events s).

Definition Report_countDocuments (s : DB) : nat := length (reports s).

(** [Report.findById(id)] for an id that casts. *)
Definition Report_findById (id : string) (s : DB) : option Report.t :=
  find (λ r, String.eqb (Report._id r) id) (reports s).

Definition Report_create (doc : Report.t) : DB → DB :=
  withReports (λ rs, rs ++ [doc]).

Definition Notification_create (doc : Notification.t) : DB → DB :=
  withNotifications (λ ns, ns ++ [doc]).

Definition approvedOrReimbursed (st : string) : bool :=
  includes ["approved"; "reimbursed"] st.

(** [Report.findOne({ expenses: { $in: ids },
                      status: { $in: ["approved", "reimbursed"] } })] *)
Definition Report_findOne_overlap (ids : list string) (s : DB)
    : option Report.t :=
  find (λ r, existsb (inIds ids) (Report.expenses r)
             && approvedOrReimbursed (Report.status r))%bool
       (reports s).

(** [Report.find({ reportDate: { $gte: from, $lte: to },
                   status: { $in: ["approved", "reimbursed"] } })] *)
Definition Report_find_between (from to : Z) (s : DB) : list Report.t :=
  List.filter (λ r, (from <=? Report.reportDate r)
                    && (Report.reportDate r <=? to)
                    && approvedOrReimbursed (Report.status r))%bool
              (reports s).

(** ** createReport *)

(** The request body after [createReportSchema]; fields that the workflow
    never reads are left out.  The schema is missing: the ids of a body that
    it accepts are taken to be ids that cast, so the queries of
    [createReport] make no cast of their own here. *)
Module Body.
Record t := mk {
  title : string; reportDate : Z;
  event : option string; expenses : list string }.
End Body.

(** What one call receives: the authenticated user, the body, the clock
    reading and the ObjectId the driver gives to the document it inserts. *)
Module Request.
Record t := mk { userId : string; body : Body.t; now : Z; newId : string }.
End Request.

(** Modelled from the spec: the report model's schema is missing, and with it
    the default of [status]; the specification takes the status of a report
    right after its creation to be [pending]. *)
Definition Report_defaultStatus : string := "pending".

(** A value of [categoryTotals]: a number, or the text that [+=] makes of
    a property the object inherits (a function followed by the digits of the
    amounts). *)
Inductive total :=
  | Num (n : Z)
  | Text.

(** [categoryTotals]: the object's own entries, in insertion order (the
    order of [Object.entries] for titles that are not array indices). *)
Definition totals := list (string * total).

Fixpoint getTotal (ts : totals) (k : string) : option total :=
  match ts with
  | [] => None
  | (k', v) :: rest => if String.eqb k' k then Some v else getTotal rest k
  end.

(** [categoryTotals[k] = v]: overwrite in place, or append a new entry. *)
Fixpoint setTotal (ts : totals) (k : string) (v : total) : totals :=
  match ts with
  | [] => [(k, v)]
  | (k', v') :: rest =>
      if String.eqb k' k then (k', v) :: rest else (k', v') :: setTotal rest k v
  end.

(** The properties that [categoryTotals = {}] inherits from
    [Object.prototype], each a function, and [__proto__], the prototype
    itself. *)
Definition inheritedKeys : list string :=
  ["constructor"; "hasOwnProperty"; "isPrototypeOf"; "propertyIsEnumerable";
   "toLocaleString"; "toString"; "valueOf"; "__defineGetter__";
   "__defineSetter__"; "__lookupGetter__"; "__lookupSetter__"].

(** The body of the first loop after the status test.  The object has no
    entry yet for a category: an inherited property is read as truthy, so
    [+=] stores a text under that name; [__proto__] is read as truthy too,
    and the text assigned to it is dropped, so it never gets an entry. *)
Definition addExpense (ts : totals) (expense : Expense.t) : totals :=
  let category := Expense.category expense in
  if String.eqb category "__proto__" then ts else
  match getTotal ts category with
  | Some (Num v) =>
      if truthyNum v
      then setTotal ts category (Num (v + Expense.amount expense))
      else setTotal ts category (Num (Expense.amount expense))
  | Some Text => setTotal ts category Text
  | None =>
      if includes inheritedKeys category
      then setTotal ts category Text
      else setTotal ts category (Num (Expense.amount expense))
  end.

(** [value > maxAmount]: a text is not a number and compares [false]. *)
Definition exceeds (value : total) (maxAmount : Z) : bool :=
  match value with
  | Num v => v >? maxAmount
  | Text => false
  end.

(** [for (let expense of expenses) { ... }] *)
Fixpoint aggregate (exps : list Expense.t) (ts : totals) : outcome totals :=
  match exps with
  | [] => Next ts
  | expense :: rest =>
      if String.eqb (Expense.status expense) "mapped"
      then Answer (AlreadyMapped (Expense.title expense))
      else aggregate rest (addExpense ts expense)
  end.

(** [user.tier.categories.find((cat) => cat.title.toLowerCase() === lowerCaseTitle)] *)
Definition findCategory (cats : list Category.t) (title : string)
    : option Category.t :=
  find (λ cat, String.eqb (toLowerCase (Category.title cat)) (toLowerCase title))
       cats.

(** The tier of the populated user, as [user.tier] is read inside the loop
    and after it: a [null] user or tier throws. *)
Definition tierOf (user : option (User.t * option Tier.t)) (field : string)
    : outcome Tier.t :=
  match user with
  | None => Throw "Cannot read properties of null (reading 'tier')"
  | Some (_, None) =>
      Throw ("Cannot read properties of null (reading '" +:+ field +:+ "')")
  | Some (_, Some tier) => Next tier
  end.

(** [for (const [title, value] of Object.entries(categoryTotals)) { ... }] *)
Fixpoint checkCategories (user : option (User.t * option Tier.t))
    (entries : totals) : outcome unit :=
  match entries with
  | [] => Next tt
  | (title, value) :: rest =>
      match tierOf user "categories" with
      | Next tier =>
          match findCategory (Tier.categories tier) title with
          | None => Answer (CategoryNotAllowed title)
          | Some tierCategory =>
              if negb (Category.status tierCategory)
              then Answer (CategoryDisabled title)
              else if exceeds value (Category.maxAmount tierCategory)
              then Answer (CategoryLimitExceeded title)
              else checkCategories user rest
          end
      | Answer r => Answer r
      | Throw e => Throw e
      end
  end.

(** The two nested loops that add up [existingTotalAmount]. *)
Definition sumExisting (existingReports : list Report.t) (s : DB) : Z :=
  fold_left
    (λ total report,
       fold_left (λ acc expense, acc + Expense.amount expense)
                 (Expense_find (Report.expenses report) s) total)
    existingReports 0.

Section Controller.

(** [createReportSchema.validate]: [Some details] is a validation error. *)
Variable createReportSchema : Body.t → option string.

(** [moment().startOf("month")] and [moment().endOf("month")] as functions
    of the clock, in the server's time zone and in UTC. *)
Variables startOfMonth endOfMonth : Z → Z.
Variables utcStartOfMonth utcEndOfMonth : Z → Z.

(** [populate("deductBy", "name")]: the name of the document that a
    [deductBy] reference resolves to, [None] where it resolves to none.  The
    deduction model and the model its reference points to are missing. *)
Variable deductByName : string → option string.

(** The inner function [createNewReport]. *)
Definition createNewReport (req : Request.t) (reportId : string)
    (user : option (User.t * option Tier.t)) : handler response :=
  let newReport :=
    Report.mk (Request.newId req) (Some reportId) (Request.userId req)
              (Body.event (Request.body req))
              (Body.expenses (Request.body req))
              (Body.title (Request.body req))
              Report_defaultStatus
              (Body.reportDate (Request.body req)) [] None in
  write (Report_create newReport) ;;;
  write (Notification_create
           (Notification.mk (Report._id newReport) (Request.userId req)
                            (Report.status newReport))) ;;;
  approver <- prop (λ u, User.approver (fst u)) "approver" user ;;
  write (Notification_create
           (Notification.mk (Report._id newReport) approver
                            (Report.status newReport))) ;;;
  answer (ReportCreated newReport).

(** [if (req.body.event) { ... }] *)
Definition eventGate (req : Request.t) (reportId : string)
    (user : option (User.t * option Tier.t)) : handler unit :=
  match Body.event (Request.body req) with
  | Some eventId =>
      if truthy eventId then
        event <- query (Event_findOne eventId) ;;
        type <- prop Event.type "type" event ;;
        if String.eqb type "Admin" then
          write (Expense_updateMany (Body.expenses (Request.body req)) "mapped") ;;;
          r <- createNewReport req reportId user ;;
          answer r
        else
          match event with
          | None => answer EventNotFound
          | Some _ => ret tt
          end
      else ret tt
  | None => ret tt
  end.

(** Lines 262-345: the eligibility checks, then the writes. *)
Definition policyChecks (req : Request.t) (reportId : string)
    (exps : list Expense.t) (user : option (User.t * option Tier.t))
    : handler response :=
  let expenseIds := Body.expenses (Request.body req) in
  categoryTotals <- lift (aggregate exps []) ;;
  lift (checkCategories user categoryTotals) ;;;
  existingReport <- query (Report_findOne_overlap expenseIds) ;;
  match existingReport with
  | Some report => answer (ExpenseAlreadyReported (Report.title report))
  | None =>
      existingReports <-
        query (Report_find_between (startOfMonth (Request.now req))
                                   (endOfMonth (Request.now req))) ;;
      existingTotalAmount <- query (sumExisting existingReports) ;;
      tier <- lift (tierOf user "totalAmount") ;;
      if existingTotalAmount >? Tier.totalAmount tier
      then answer (TierLimitExceeded (Tier.totalAmount tier))
      else
        write (Expense_updateMany expenseIds "mapped") ;;;
        createNewReport req reportId user
  end.

Definition createReport_body (req : Request.t) : handler response :=
  match createReportSchema (Request.body req) with
  | Some details => answer (InvalidInput details)
  | None =>
      reportCount <- query Report_countDocuments ;;
      let nextReportNumber := (reportCount + 1)%nat in
      let reportId := formatReportId nextReportNumber in
      let expenseIds := Body.expenses (Request.body req) in
      if (length expenseIds =? 0)%nat then answer ExpensesRequired else
      exps <- query (Expense_find expenseIds) ;;
      user <- query (User_findOne_populate (Request.userId req)) ;;
      eventGate req reportId user ;;;
      policyChecks req reportId exps user
  end.

Definition createReport (req : Request.t) (s : DB) : response * DB :=
  tryCatch (createReport_body req) s.

(** *** getWallet *)

(** [transaction.find({ createdAt: { $gte, $lte },
      "requestedBy.receiver": userId, status: "completed" })] *)
Definition transaction_find (from to : Z) (userId : string) (s : DB)
    : list Transaction.t :=
  List.filter (λ t, (from <=? Transaction.createdAt t)
                    && (Transaction.createdAt t <=? to)
                    && String.eqb (Transaction.receiver t) userId
                    && String.eqb (Transaction.status t) "completed")%bool
              (transactions s).

(** [Deduction.find({ deductOn: { $gte, $lte }, mode: "wallet",
      status: true, user: userId })] *)
Definition Deduction_find (from to : Z) (userId : string) (s : DB)
    : list Deduction.t :=
  List.filter (λ d, (from <=? Deduction.deductOn d)
                    && (Deduction.deductOn d <=? to)
                    && String.eqb (Deduction.mode d) "wallet"
                    && Deduction.status d
                    && String.eqb (Deduction.user d) userId)%bool
              (deductions s).

(** [`#transaction_${String(id).slice(0, 6)}`] *)
Definition displayId (id : string) : string :=
  "#transaction_" +:+ substring 0 6 id.

(** [expenses.map((exp) => ({ ..., admin: exp.deductBy.name }))]: the
    populated [deductBy] is [null] where the reference did not resolve, and
    reading [name] off it throws. *)
Fixpoint debitEntries (exps : list Deduction.t)
    : option (list Wallet.entry) :=
  match exps with
  | [] => Some []
  | exp :: rest =>
      match deductByName (Deduction.deductBy exp), debitEntries rest with
      | Some name, Some entries =>
          Some (Wallet.mkEntry (displayId (Deduction._id exp))
                  (Deduction.amount exp) (Deduction.deductOn exp)
                  "debit" name :: entries)
      | _, _ => None
      end
  end.

(** The user's [tier] is an unpopulated reference here: the [categories]
    read off it is [undefined] and is left out of the payload, and the read
    throws when the user has no tier. *)
Definition getWallet_body (userId : string) (now : Z) : handler response :=
  user <- query (User_findById userId) ;;
  match user with
  | None => answer UserNotFound
  | Some user =>
      let startOfMonth := utcStartOfMonth now in
      let endOfMonth := utcEndOfMonth now in
      advances <- query (transaction_find startOfMonth endOfMonth userId) ;;
      let mappedAdvances :=
        map (λ advance,
               Wallet.mkEntry (displayId (Transaction._id advance))
                 (Transaction.amount advance) (Transaction.createdAt advance)
                 "credit"
                 (match Transaction.sender advance with
                  | Some name => name
                  | None => "User"
                  end))
            advances in
      let totalAmount :=
        fold_left (λ acc advance, acc + Transaction.amount advance)
                  advances 0 in
      exps <- query (Deduction_find startOfMonth endOfMonth userId) ;;
      let totalExpenses :=
        fold_left (λ acc exp, acc + Deduction.amount exp) exps 0 in
      let balanceAmount := totalAmount - totalExpenses in
      mappedData <- prop (λ entries, entries) "name" (debitEntries exps) ;;
      match User.tier user with
      | None =>
          throw "Cannot read properties of undefined (reading 'categories')"
      | Some _ =>
          let finalMappedData := mappedAdvances ++ mappedData in
          answer (WalletDetails
                    (Wallet.mk totalAmount totalExpenses balanceAmount
                               finalMappedData))
      end
  end.

Definition getWallet (userId : string) (now : Z) (s : DB) : response * DB :=
  tryCatch (getWallet_body userId now) s.

End Controller.

(** ** updateReport *)

(** The patch of [updateReport]: the fields of the body that the report
    model stores; an absent field is [None]. *)
Module Patch.
Record t := mk {
  expenses : option (list string); reportId : option string;
  title : option string; status : option string; reportDate : option Z }.
Definition setReportId (label : string) (p : t) : t :=
  mk (expenses p) (Some label) (title p) (status p) (reportDate p).
End Patch.

(** The update document [req.body] applied to a report. *)
Definition applyPatch (p : Patch.t) (r : Report.t) : Report.t :=
  Report.mk (Report._id r)
    (match Patch.reportId p with Some l => Some l | None => Report.reportId r end)
    (Report.user r) (Report.event r)
    (default (Report.expenses r) (Patch.expenses p))
    (default (Report.title r) (Patch.title p))
    (default (Report.status r) (Patch.status p))
    (default (Report.reportDate r) (Patch.reportDate p))
    (Report.reason r) (Report.approver r).

Fixpoint updateFirst (id : string) (f : Report.t → Report.t)
    (rs : list Report.t) : list Report.t :=
  match rs with
  | [] => []
  | r :: rest =>
      if String.eqb (Report._id r) id then f r :: rest
      else r :: updateFirst id f rest
  end.

(** [Report.findByIdAndUpdate(id, update, { new: true })]: the first
    document with that id is updated and returned as it is afterwards. *)
Definition Report_findByIdAndUpdate (id : string) (f : Report.t → Report.t)
    : handler (option Report.t) :=
  λ s, (Next (option_map f (Report_findById id s)),
        withReports (updateFirst id f) s).

(** [casts] is the cast that the queries make of the ids they are given. *)
Definition updateReport_body (casts : string → bool) (id : string)
    (body : Patch.t) : handler response :=
  if negb (truthy id) then answer ReportIdRequired else
  cast casts "Report" [id] ;;;
  findReport <- query (Report_findById id) ;;
  match findReport with
  | None => answer ReportNotFound
  | Some findReport =>
      let reportExpenses := Report.expenses findReport in
      let requestExpenses := default [] (Patch.expenses body) in
      (if (0 <? length requestExpenses)%nat then
         let expensesOnlyInRequest :=
           List.filter (λ expense, negb (includes reportExpenses expense))
                       requestExpenses in
         let expensesOnlyInReport :=
           List.filter (λ expense, negb (includes requestExpenses expense))
                       reportExpenses in
         (if (0 <? length expensesOnlyInRequest)%nat
          then cast casts "Expense" expensesOnlyInRequest ;;;
               write (Expense_updateMany expensesOnlyInRequest "mapped")
          else ret tt) ;;;
         (if (0 <? length expensesOnlyInReport)%nat
          then write (Expense_updateMany expensesOnlyInReport "draft")
          else ret tt)
       else ret tt) ;;;
      body' <-
        match Report.reportId findReport with
        | None =>
            reportCount <- query Report_countDocuments ;;
            let nextReportNumber := (reportCount + 1)%nat in
            ret (Patch.setReportId (formatReportId nextReportNumber) body)
        | Some _ => ret body
        end ;;
      updatedReport <- Report_findByIdAndUpdate id (applyPatch body') ;;
      answer (ReportUpdated updatedReport)
  end.

Definition updateReport (id : string) (body : Patch.t) (s : DB)
    : response * DB :=
  tryCatch (updateReport_body (castable s) id body) s.

(** The ids of a patch that the stored report does not hold: the ids whose
    cast the diff depends on. *)
Definition onlyInRequest (body : Patch.t) (report : Report.t) : list string :=
  List.filter (λ expense, negb (includes (Report.expenses report) expense))
              (default [] (Patch.expenses body)).

(** ** updateApproval *)

(** One approval decision: the route parameters [id] and [action], the
    body's [expenses] and [reason], and the approver who decides. *)
Module Decision.
Record t := mk {
  id : string; action : string; expenses : list string;
  reason : string; userId : string }.
End Decision.

(** The update document of the decision: status, approver and the pushed
    reason. *)
Definition decide_update (newStatus userId reason : string) (r : Report.t)
    : Report.t :=
  Report.mk (Report._id r) (Report.reportId r) (Report.user r)
    (Report.event r) (Report.expenses r) (Report.title r) newStatus
    (Report.reportDate r) (Report.reason r ++ [reason]) (Some userId).

(** [casts] is the cast that the queries make of the ids they are given:
    of the route's id at the lookup, and of the listed ids at the first
    [updateMany], which comes after the report is written.  The remaining
    ids are the report's own references. *)
Definition updateApproval_body (casts : string → bool) (req : Decision.t)
    : handler response :=
  let expenses := Decision.expenses req in
  if (length expenses =? 0)%nat then answer ExpensesRequired else
  if negb (truthy (Decision.id req)) then answer ApprovalIdRequired else
  cast casts "Report" [Decision.id req] ;;;
  findApproval <- query (Report_findById (Decision.id req)) ;;
  match findApproval with
  | None => answer ApprovalNotFound
  | Some findApproval =>
      if negb (String.eqb (Report.status findApproval) "pending")
      then answer InvalidTransition else
      let isApproveAction := String.eqb (Decision.action req) "approve" in
      let newStatus := if isApproveAction then "approved" else "rejected" in
      (if isApproveAction then
         let findApprovalExpensesIds := Report.expenses findApproval in
         if (negb (length findApprovalExpensesIds =? length expenses)%nat
             || negb (forallb (λ expenseId,
                                 includes findApprovalExpensesIds expenseId)
                              expenses))%bool
         then answer ExpenseMismatch
         else ret tt
       else ret tt) ;;;
      updateApproval <-
        Report_findByIdAndUpdate (Decision.id req)
          (decide_update newStatus (Decision.userId req) (Decision.reason req)) ;;
      match updateApproval with
      | None => answer (ApprovalFailed newStatus)
      | Some updateApproval =>
          write (Notification_create
                   (Notification.mk (Report._id updateApproval)
                      (Report.user updateApproval)
                      (Report.status updateApproval))) ;;;
          (if isApproveAction then
             cast casts "Expense" expenses ;;;
             write (Expense_updateMany expenses newStatus)
           else
             cast casts "Expense" expenses ;;;
             write (Expense_updateMany expenses "rejected") ;;;
             let remainingExpenses :=
               List.filter (λ id, negb (includes expenses id))
                           (Report.expenses findApproval) in
             write (Expense_updateMany remainingExpenses "approved")) ;;;
          answer (ApprovalDone newStatus)
      end
  end.

Definition updateApproval (req : Decision.t) (s : DB) : response * DB :=
  tryCatch (updateApproval_body (castable s) req) s.

(** ** Vocabulary of the statements *)

(** The candidate expenses of a call: the documents its ids resolve to. *)
Definition candidates (req : Request.t) (s : DB) : list Expense.t :=
  Expense_find (Body.expenses (Request.body req)) s.

(** The event gate takes the Admin shortcut: the body names an event that
    resolves to a stored event of type [Admin]. *)
Definition adminBypass (req : Request.t) (s : DB) : bool :=
  match Body.event (Request.body req) with
  | Some eventId =>
      truthy eventId
      && match Event_findOne eventId s with
         | Some event => String.eqb (Event.type event) "Admin"
         | None => false
         end
  | None => false
  end.

(** The body names an event that does not resolve to a stored event. *)
Definition eventMissing (req : Request.t) (s : DB) : bool :=
  match Body.event (Request.body req) with
  | Some eventId =>
      truthy eventId
      && match Event_findOne eventId s with Some _ => false | None => true end
  | None => false
  end.

(** No expense of the list has status [mapped]. *)
Definition noneMapped (exps : list Expense.t) : bool :=
  forallb (λ e, negb (String.eqb (Expense.status e) "mapped")) exps.

(** The answers of the category check. *)
Definition categoryError (r : response) : Prop :=
  match r with
  | CategoryNotAllowed _ | CategoryDisabled _ | CategoryLimitExceeded _ => True
  | _ => False
  end.

(** The sum of the expense amounts of the approved or reimbursed reports
    dated within [from, to]. *)
Definition monthTotal (from to : Z) (s : DB) : Z :=
  fold_right Z.add 0
    (map (λ report,
            fold_right Z.add 0
              (map Expense.amount (Expense_find (Report.expenses report) s)))
         (Report_find_between from to s)).

(** The total amount of the candidate expenses of a call. *)
Definition newTotal (req : Request.t) (s : DB) : Z :=
  fold_right Z.add 0 (map Expense.amount (candidates req s)).

(** The totals object as the first loop leaves it when no expense is mapped. *)
Definition categoryTotalsOf (exps : list Expense.t) : totals :=
  fold_left addExpense exps [].

(** ** Scenarios *)

(** A tier with category [Travel] capped at 200 and two drafted Travel
    expenses of 120 and 90, bundled by their owner without an event. *)
Module TravelScenario.
Definition tier : Tier.t :=
  Tier.mk "tier1" [Category.mk "Travel" 200 true] 1000.
Definition user : User.t := User.mk "staff1" "approver1" (Some "tier1").
Definition store : DB :=
  mkDB [tier] [user]
       [Expense.mk "exp1" "staff1" "Taxi" "Travel" 120 "drafted";
        Expense.mk "exp2" "staff1" "Train" "Travel" 90 "drafted"]
       [] [] [] [] [].
Definition request : Request.t :=
  Request.mk "staff1" (Body.mk "Trip" 0 None ["exp1"; "exp2"]) 0 "rep1".
End TravelScenario.

(** The same tier and two drafted expenses of 120 and 90 filed under
    [Travel] and [travel], bundled by their owner without an event. *)
Module CaseScenario.
Definition store : DB :=
  mkDB [TravelScenario.tier] [TravelScenario.user]
       [Expense.mk "exp1" "staff1" "Taxi" "Travel" 120 "drafted";
        Expense.mk "exp2" "staff1" "Train" "travel" 90 "drafted"]
       [] [] [] [] [].
Definition request : Request.t := TravelScenario.request.
Definition created : Report.t :=
  Report.mk "rep1" (Some "Rep#001") "staff1" None ["exp1"; "exp2"] "Trip"
            "pending" 0 [] None.
End CaseScenario.

(** The total that a tier category is charged with when categories are the
    same up to letter case, as the specification matches them: the sum of the
    amounts of the expenses whose category is the title of [tierCategory] up
    to letter case. *)
Definition tierCategoryTotal (exps : list Expense.t)
    (tierCategory : Category.t) : Z :=
  fold_right Z.add 0
    (map Expense.amount
         (List.filter
            (λ e, String.eqb (toLowerCase (Expense.category e))
                             (toLowerCase (Category.title tierCategory)))
            exps)).

(** A tier whose overall cap is 250 and one drafted Travel expense of 300
    under a Travel cap of 500; no report exists yet. *)
Module TierScenario.
Definition tier : Tier.t :=
  Tier.mk "tier1" [Category.mk "Travel" 500 true] 250.
Definition user : User.t := User.mk "staff1" "approver1" (Some "tier1").
Definition store : DB :=
  mkDB [tier] [user]
       [Expense.mk "exp1" "staff1" "Flight" "Travel" 300 "drafted"]
       [] [] [] [] [].
Definition request : Request.t :=
  Request.mk "staff1" (Body.mk "Trip" 5 None ["exp1"]) 5 "rep1".
Definition created : Report.t :=
  Report.mk "rep1" (Some "Rep#001") "staff1" None ["exp1"] "Trip"
            "pending" 5 [] None.
End TierScenario.

(** The tier check as the specification words it: the call fails with
    [TierLimitExceeded] exactly when the month's approved and reimbursed
    total plus the total of the new report is above the tier's cap. *)
Definition tierCheckAsSpecified
    (createReportSchema : Body.t → option string)
    (startOfMonth endOfMonth : Z → Z)
    (req : Request.t) (s : DB) (tier : Tier.t) : Prop :=
  (∃ limit, fst (createReport createReportSchema startOfMonth endOfMonth req s)
            = TierLimitExceeded limit)
  ↔ monthTotal (startOfMonth (Request.now req)) (endOfMonth (Request.now req)) s
    + newTotal req s > Tier.totalAmount tier.

(** A rejected Travel expense of 50, well within the caps, bundled again. *)
Module RejectedScenario.
Definition tier : Tier.t :=
  Tier.mk "tier1" [Category.mk "Travel" 200 true] 1000.
Definition user : User.t := User.mk "staff1" "approver1" (Some "tier1").
Definition store : DB :=
  mkDB [tier] [user]
       [Expense.mk "exp1" "staff1" "Taxi" "Travel" 50 "rejected"]
       [] [] [] [] [].
Definition request : Request.t :=
  Request.mk "staff1" (Body.mk "Again" 5 None ["exp1"]) 5 "rep2".
Definition created : Report.t :=
  Report.mk "rep2" (Some "Rep#001") "staff1" None ["exp1"] "Again"
            "pending" 5 [] None.
End RejectedScenario.

(** A status that is [mapped] or later in the expense lifecycle. *)
Definition mappedOrLater (st : string) : bool :=
  includes ["mapped"; "approved"; "rejected"; "reimbursed"] st.

(** The exclusivity check as the specification words it: a candidate whose
    status is mapped or later makes the call fail with [AlreadyMapped] and
    leaves the store as it was. *)
Definition alreadyMappedAsSpecified
    (createReportSchema : Body.t → option string)
    (startOfMonth endOfMonth : Z → Z) (req : Request.t) (s : DB) : Prop :=
  existsb (λ e, mappedOrLater (Expense.status e)) (candidates req s) = true →
  ∃ title, createReport createReportSchema startOfMonth endOfMonth req s
           = (AlreadyMapped title, s).

(** A Travel expense of 50 that is already mapped. *)
Module MappedScenario.
Definition store : DB :=
  mkDB [RejectedScenario.tier] [RejectedScenario.user]
       [Expense.mk "exp1" "staff1" "Taxi" "Travel" 50 "mapped"]
       [] [] [] [] [].
Definition request : Request.t := RejectedScenario.request.
End MappedScenario.

(** The travel request attached to an event that is not stored. *)
Module MissingEventScenario.
Definition store : DB := TravelScenario.store.
Definition request : Request.t :=
  Request.mk "staff1" (Body.mk "Trip" 0 (Some "event9") ["exp1"; "exp2"])
             0 "rep1".
End MissingEventScenario.

(** A pending report over two mapped expenses, and the same report once
    approved. *)
Module ApprovalScenario.
Definition report : Report.t :=
  Report.mk "rep1" (Some "Rep#001") "staff1" None ["exp1"; "exp2"] "Trip"
            "pending" 5 [] None.
Definition approved : Report.t :=
  Report.mk "rep1" (Some "Rep#001") "staff1" None ["exp1"; "exp2"] "Trip"
            "approved" 5 ["fine"] (Some "approver1").
Definition exps : list Expense.t :=
  [Expense.mk "exp1" "staff1" "Taxi" "Travel" 120 "mapped";
   Expense.mk "exp2" "staff1" "Train" "Travel" 90 "mapped"].
Definition store : DB := mkDB [] [] exps [] [report] [] [] [].
Definition decided : DB := mkDB [] [] exps [] [approved] [] [] [].
Definition decision (action : string) (ids : list string) : Decision.t :=
  Decision.mk "rep1" action ids "fine" "approver1".
End ApprovalScenario.

(** Two id lists that hold the same ids, whatever the order. *)
Definition sameSet (xs ys : list string) : Prop := ∀ x, In x xs ↔ In x ys.

(** Every id of [xs] is in [ys], and some id of [ys] is not in [xs]. *)
Definition strictSubset (xs ys : list string) : Prop :=
  incl xs ys ∧ ¬ incl ys xs.

(** The approval guard as the specification words it: on a pending report,
    an approve call whose ids are not the stored set fails with
    [ExpenseMismatch] and changes nothing. *)
Definition expenseMismatchAsSpecified (req : Decision.t) (s : DB) : Prop :=
  ∀ report,
    Decision.action req = "approve" →
    Report_findById (Decision.id req) s = Some report →
    Report.status report = "pending" →
    ¬ sameSet (Decision.expenses req) (Report.expenses report) →
    updateApproval req s = (ExpenseMismatch, s).

(** What a rejection leaves behind: the report is rejected, the listed
    expenses are rejected, the other expenses of the report are approved, and
    none of the report's expenses is mapped. *)
Definition rejectedOutcome (req : Decision.t) (report : Report.t) (s' : DB)
    : Prop :=
  (∃ report', Report_findById (Decision.id req) s' = Some report'
              ∧ Report.status report' = "rejected")
  ∧ ∀ e, In e (expenses s') → In (Expense._id e) (Report.expenses report) →
      (In (Expense._id e) (Decision.expenses req) →
       Expense.status e = "rejected")
      ∧ (¬ In (Expense._id e) (Decision.expenses req) →
         Expense.status e = "approved")
      ∧ Expense.status e ≠ "mapped".

(** The rejection as the specification words it. *)
Definition rejectAsSpecified (req : Decision.t) (s : DB) : Prop :=
  ∀ report,
    Decision.action req = "reject" →
    Report_findById (Decision.id req) s = Some report →
    Report.status report = "pending" →
    strictSubset (Decision.expenses req) (Report.expenses report) →
    rejectedOutcome req report (snd (updateApproval req s)).

(** The transition guard as the specification words it: a decision on a
    report that is not pending fails with [InvalidTransition] and changes
    nothing. *)
Definition invalidTransitionAsSpecified (req : Decision.t) (s : DB) : Prop :=
  ∀ report,
    Report_findById (Decision.id req) s = Some report →
    Report.status report ≠ "pending" →
    updateApproval req s = (InvalidTransition, s).




(** The store after the two [updateMany] calls of the diff. *)
Definition diffed (requestExpenses reportExpenses : list string) (s : DB)
    : DB :=
  if (0 <? length requestExpenses)%nat then
    Expense_updateMany
      (List.filter (λ expense, negb (includes requestExpenses expense))
                   reportExpenses)
      "draft"
      (Expense_updateMany
         (List.filter (λ expense, negb (includes reportExpenses expense))
                      requestExpenses)
         "mapped" s)
  else s.

(** The body after the label backfill of lines 936-943. *)
Definition backfilled (report : Report.t) (body : Patch.t) (s : DB) : Patch.t :=
  match Report.reportId report with
  | None => Patch.setReportId (formatReportId (length (reports s) + 1)) body
  | Some _ => body
  end.

(** The sum of [f] over the documents of [l] that satisfy [P]. *)
Definition sumWhere {A} (P : A → bool) (f : A → Z) (l : list A) : Z :=
  fold_right (λ x acc, if P x then f x + acc else acc) 0 l.

Definition within (from to t : Z) : bool := (from <=? t) && (t <=? to).

(** The completed transactions received by the user within [from, to]. *)
Definition completedReceived (from to : Z) (userId : string) (s : DB) : Z :=
  sumWhere (λ t, String.eqb (Transaction.status t) "completed"
                 && String.eqb (Transaction.receiver t) userId
                 && within from to (Transaction.createdAt t))
           Transaction.amount (transactions s).

(** The user's deductions with mode [wallet] and status [true] within
    [from, to]. *)
Definition walletDeducted (from to : Z) (userId : string) (s : DB) : Z :=
  sumWhere (λ d, String.eqb (Deduction.user d) userId
                 && String.eqb (Deduction.mode d) "wallet"
                 && Deduction.status d
                 && within from to (Deduction.deductOn d))
           Deduction.amount (deductions s).

(** One completed transaction of 500 and two wallet deductions of 120 and
    30 in the month [0, 100], next to documents that do not count: a pending
    transaction, a transaction to someone else, a transaction of another
    month, a bank deduction, a deduction with status [false] and a deduction
    of another month. *)
Module WalletScenario.
Definition user : User.t := User.mk "staff1" "approver1" (Some "tier1").
Definition transactions : list Transaction.t :=
  [Transaction.mk "tx0001" (Some "Admin A") "staff1" 500 "completed" 10;
   Transaction.mk "tx0002" (Some "Admin A") "staff1" 200 "pending" 20;
   Transaction.mk "tx0003" None "staff2" 70 "completed" 30;
   Transaction.mk "tx0004" None "staff1" 900 "completed" 101].
Definition store : DB :=
  mkDB [] [user] [] [] [] [] transactions
    [Deduction.mk "de0001" "staff1" 120 "admin1" 15 "rep1" "wallet" true;
     Deduction.mk "de0002" "staff1" 30 "admin1" 100 "rep1" "wallet" true;
     Deduction.mk "de0003" "staff1" 40 "admin2" 40 "rep1" "bank" true;
     Deduction.mk "de0004" "staff1" 10 "admin2" 50 "rep1" "wallet" false;
     Deduction.mk "de0005" "staff1" 60 "admin2" (-1) "rep1" "wallet" true].
(** The two admins that the [deductBy] references resolve to. *)
Definition admins (id : string) : option string :=
  if String.eqb id "admin1" then Some "Admin A"
  else if String.eqb id "admin2" then Some "Admin B"
  else None.
(** The same transactions when the wallet deduction of 30 was made by
    [admin9], to whom no document answers. *)
Definition unresolved : DB :=
  mkDB [] [user] [] [] [] [] transactions
    [Deduction.mk "de0001" "staff1" 120 "admin1" 15 "rep1" "wallet" true;
     Deduction.mk "de0002" "staff1" 30 "admin9" 100 "rep1" "wallet" true].
(** The first store when the user was stored without a tier. *)
Definition tierless : DB :=
  mkDB [] [User.mk "staff1" "approver1" None] [] [] [] [] transactions
       (deductions store).
End WalletScenario.

(** ** Sequences of operations *)

(** The operations that assign report labels. *)
Inductive op :=
  | Create (req : Request.t)
  | Update (id : string) (body : Patch.t).

Section Sequences.

Variable createReportSchema : Body.t → option string.
Variables startOfMonth endOfMonth : Z → Z.

Definition step (o : op) (s : DB) : DB :=
  match o with
  | Create req =>
      snd (createReport createReportSchema startOfMonth endOfMonth req s)
  | Update id body => snd (updateReport id body s)
  end.

Definition run (ops : list op) (s : DB) : DB :=
  fold_left (λ s o, step o s) ops s.

(** The labels of the report documents that the creations of a sequence
    insert, in the order of their insertion. *)
Fixpoint createdLabels (ops : list op) (s : DB) : list (option string) :=
  match ops with
  | [] => []
  | o :: rest =>
      match o with
      | Create _ =>
          map Report.reportId
              (skipn (length (reports s)) (reports (step o s)))
      | Update _ _ => []
      end ++ createdLabels rest (step o s)
  end.

End Sequences.

(** The labels that the stored reports carry. *)
Definition labels (s : DB) : list string :=
  flat_map (λ r, match Report.reportId r with Some l => [l] | None => [] end)
           (reports s).

(** A store whose only report has no label, as [getReport] inserts them for
    an event (lines 728-737) and as reports older than the labels are; its
    label is backfilled and then a report is created. *)
Module LegacyScenario.
Definition store : DB :=
  mkDB [RejectedScenario.tier] [RejectedScenario.user]
       [Expense.mk "exp1" "staff1" "Taxi" "Travel" 50 "drafted"]
       []
       [Report.mk "rep0" None "staff1" (Some "event1") [] "Offsite"
                  "drafted" 5 [] None]
       [] [] [].
Definition emptyPatch : Patch.t := Patch.mk None None None None None.
Definition request : Request.t :=
  Request.mk "staff1" (Body.mk "Trip" 5 None ["exp1"]) 5 "rep1".
Definition ops : list op := [Update "rep0" emptyPatch; Create request].
End LegacyScenario.

(** The uniqueness of labels as the specification words it: after any
    sequence of creations and backfills no two reports carry the same label. *)
Definition labelsUniqueAsSpecified
    (createReportSchema : Body.t → option string)
    (startOfMonth endOfMonth : Z → Z) (ops : list op) (s : DB) : Prop :=
  List.NoDup (labels (run createReportSchema startOfMonth endOfMonth ops s)).

(** The report collection after a call that inserts at most one report
    labelled [label]. *)
Definition grew (label : string) (s s' : DB) : Prop :=
  reports s' = reports s
  ∨ ∃ r, reports s' = reports s ++ [r] ∧ Report.reportId r = Some label.

(** The store once the report of a decision is written and its owner is
    notified, before the expenses are touched. *)
Definition noted (req : Decision.t) (report : Report.t) (s : DB) : DB :=
  let approve := String.eqb (Decision.action req) "approve" in
  let newStatus := if approve then "approved" else "rejected" in
  Notification_create
    (Notification.mk (Report._id report) (Report.user report) newStatus)
    (withReports
       (updateFirst (Decision.id req)
          (decide_update newStatus (Decision.userId req) (Decision.reason req)))
       s).

(** The store after a decision that went through. *)
Definition decided (req : Decision.t) (report : Report.t) (s : DB) : DB :=
  let approve := String.eqb (Decision.action req) "approve" in
  let s2 := noted req report s in
  if approve then Expense_updateMany (Decision.expenses req) "approved" s2
  else
    Expense_updateMany
      (List.filter (λ id, negb (includes (Decision.expenses req) id))
                   (Report.expenses report))
      "approved"
      (Expense_updateMany (Decision.expenses req) "rejected" s2).

(** The approve guard of lines 1116-1120. *)
Definition mismatch (req : Decision.t) (report : Report.t) : bool :=
  String.eqb (Decision.action req) "approve"
  && (negb (length (Report.expenses report) =? length (Decision.expenses req))%nat
      || negb (forallb (λ expenseId,
                          includes (Report.expenses report) expenseId)
                       (Decision.expenses req))).

(** ** The other handlers of the controller

    The handlers below answer with [responseHandler(res, code, text, data)]
    directly; their answers are kept as the status code, the text and the
    data.  They are written over any store type, since the sign-in handlers
    work on the user documents alone. *)

Module Reply.
Record t (D : Type) := mk { code : Z; text : string; data : option D }.
Arguments mk {D} code text data.
Arguments code {D} _.
Arguments text {D} _.
Arguments data {D} _.
End Reply.

(** [responseHandler(res, code, text)] *)
Definition respond {D} (code : Z) (text : string) : Reply.t D :=
  Reply.mk code text None.

(** [responseHandler(res, code, text, data)] *)
Definition respondWith {D} (code : Z) (text : string) (data : D) : Reply.t D :=
  Reply.mk code text (Some data).

Inductive flow (R A : Type) :=
  | Go (a : A)
  | Stop (r : R)
  | Raise (errorMessage : string).
Arguments Go {R A} a.
Arguments Stop {R A} r.
Arguments Raise {R A} errorMessage.

Definition act (S R A : Type) : Type := S → flow R A * S.

Definition go {S R A} (a : A) : act S R A := λ s, (Go a, s).

Definition andThen {S R A B} (m : act S R A) (k : A → act S R B)
    : act S R B :=
  λ s, match m s with
       | (Go a, s') => k a s'
       | (Stop r, s') => (Stop r, s')
       | (Raise e, s') => (Raise e, s')
       end.

Notation "x <~ m ;; k" := (andThen m (λ x, k))
  (at level 62, m at next level, right associativity, only parsing).
Notation "m ;;~ k" := (andThen m (λ _, k))
  (at level 62, right associativity, only parsing).

(** [return responseHandler(...)] *)
Definition stop {S R A} (r : R) : act S R A := λ s, (Stop r, s).

(** A thrown error. *)
Definition raise {S R A} (e : string) : act S R A := λ s, (Raise e, s).

Definition reading {S R A} (f : S → A) : act S R A := λ s, (Go (f s), s).

Definition writing {S R} (f : S → S) : act S R unit := λ s, (Go tt, f s).

(** [obj.field] on a value that may be [null]. *)
Definition field {S R A B} (f : A → B) (name : string) (obj : option A)
    : act S R B :=
  match obj with
  | Some o => go (f o)
  | None =>
      raise ("Cannot read properties of null (reading '" +:+ name +:+ "')")
  end.

(** A query's casts: a failing cast throws before the query runs. *)
Definition casting {S R} (casts : string → bool) (model : string)
    (ids : list string) : act S R unit :=
  match castFailure casts model ids with
  | Some e => raise e
  | None => go tt
  end.

(** [try { ... } catch (error) { return responseHandler(res, 500, ...) }],
    with the text that the handler puts before [error.message]. *)
Definition caught {S D} (prefix : string)
    (h : act S (Reply.t D) (Reply.t D)) (s : S) : Reply.t D * S :=
  match h s with
  | (Go r, s') => (r, s')
  | (Stop r, s') => (r, s')
  | (Raise e, s') => (respond 500 (prefix +:+ e), s')
  end.

Definition withEvents (f : list Event.t → list Event.t) (s : DB) : DB :=
  mkDB (tiers s) (users s) (expenses s) (f (events s)) (reports s)
       (notifications s) (transactions s) (deductions s).


Definition withDeductions
    (f : list Deduction.t → list Deduction.t) (s : DB) : DB :=
  mkDB (tiers s) (users s) (expenses s) (events s) (reports s)
       (notifications s) (transactions s) (f (deductions s)).

(** [Report.findByIdAndUpdate(id, update, { new: true })] for these
    handlers. *)
Definition Report_update {R} (id : string) (f : Report.t → Report.t)
    : act DB R (option Report.t) :=
  λ s, (Go (option_map f (Report_findById id s)),
        withReports (updateFirst id f) s).

(** *** reimburseReport *)

(** One reimbursement: the route parameter [id], the body's
    [descriptionFinance] and [amount] (absent is [None]), the finance user
    who acts, the clock and the id of the deduction that may be inserted. *)
Module Reimbursement.
Record t := mk {
  id : string; descriptionFinance : string; amount : option Z;
  userId : string; now : Z; newId : string }.
End Reimbursement.

(** The update document of the reimbursement on the fields of the report
    record: the status.  [descriptionFinance], [reimburserModel] and
    [reimburser] are fields that the record does not carry. *)
Definition reimburse_update (r : Report.t) : Report.t :=
  Report.mk (Report._id r) (Report.reportId r) (Report.user r)
    (Report.event r) (Report.expenses r) (Report.title r) "reimbursed"
    (Report.reportDate r) (Report.reason r) (Report.approver r).

(** [amount > 0] on a number that may be absent. *)
Definition amountGiven (amount : option Z) : bool :=
  match amount with Some a => a >? 0 | None => false end.

Section Finance.

(** The default of the deduction model's [status]: the deduction model is
    missing. *)
Variable Deduction_defaultStatus : bool.

Definition bankDeduction (req : Reimbursement.t) (fetchReport : Report.t)
    : Deduction.t :=
  Deduction.mk (Reimbursement.newId req) (Report.user fetchReport)
    (default 0 (Reimbursement.amount req))
    (Reimbursement.userId req) (Reimbursement.now req)
    (Reimbursement.id req) "bank" Deduction_defaultStatus.

Definition reimburseReport_body (casts : string → bool)
    (req : Reimbursement.t) : act DB (Reply.t unit) (Reply.t unit) :=
  let id := Reimbursement.id req in
  if negb (truthy id) then stop (respond 400 "Approval ID is required") else
  casting casts "Report" [id] ;;~
  fetchReport <~ reading (Report_findById id) ;;
  match fetchReport with
  | None => stop (respond 400 "Report not found")
  | Some fetchReport =>
      (if amountGiven (Reimbursement.amount req)
       then writing (withDeductions
                       (λ ds, ds ++ [bankDeduction req fetchReport]))
       else go tt) ;;~
      reimburse <~ Report_update id reimburse_update ;;
      notice <~ field (λ r, Notification.mk (Report._id r) (Report.user r)
                                             (Report.status r))
                      "_id" reimburse ;;
      writing (Notification_create notice) ;;~
      match reimburse with
      | None => stop (respond 400 "Reimbursed failed")
      | Some _ => stop (respond 200 "Reimbursed successfully")
      end
  end.

Definition reimburseReport (req : Reimbursement.t) (s : DB)
    : Reply.t unit * DB :=
  caught "Internal Server Error " (reimburseReport_body (castable s) req) s.

End Finance.

(** *** getCategory *)

Definition upperChar (c : ascii) : ascii :=
  let n := nat_of_ascii c in
  if ((97 <=? n)%nat && (n <=? 122)%nat)%bool then ascii_of_nat (n - 32) else c.

(** [title.charAt(0).toUpperCase() + title.slice(1)] on the ASCII letters. *)
Definition capitalize (title : string) : string :=
  match title with
  | EmptyString => EmptyString
  | String c rest => String (upperChar c) rest
  end.

Definition getCategory_body (userId : string)
    : act DB (Reply.t (list string)) (Reply.t (list string)) :=
  user <~ reading (User_findOne_populate userId) ;;
  match user with
  | None => stop (respond 404 "User not found")
  | Some (_, tier) =>
      categories <~ field Tier.categories "categories" tier ;;
      let mappedData :=
        map (λ item, capitalize (Category.title item))
            (List.filter (λ item, Category.status item) categories) in
      stop (respondWith 200 "Categories found" mappedData)
  end.

Definition getCategory (userId : string) (s : DB)
    : Reply.t (list string) * DB :=
  caught "Internal Server Error " (getCategory_body userId) s.

(** *** createEvent and updateEvent *)

(** The patch of [updateEvent] on the fields of the event record. *)
Module EventPatch.
Record t := mk { type : option string }.
End EventPatch.



Section Events.

(** The body of [createEvent], of which the event record keeps nothing (its
    [type] is overwritten), and [createUserEventSchema.validate]. *)
Variable EventBody : Type.
Variable createUserEventSchema : EventBody → option string.

Definition createEvent_body (body : EventBody) (userId newId : string)
    : act DB (Reply.t Event.t) (Reply.t Event.t) :=
  match createUserEventSchema body with
  | Some details => stop (respond 400 ("Invalid input: " +:+ details))
  | None =>
      let newEvent := Event.mk newId "User" in
      writing (withEvents (λ es, es ++ [newEvent])) ;;~
      stop (respondWith 200 "Event created successfully..!" newEvent)
  end.

Definition createEvent (body : EventBody) (userId newId : string) (s : DB)
    : Reply.t Event.t * DB :=
  caught "Internal Server Error " (createEvent_body body userId newId) s.

End Events.



(** *** createtransaction *)

(** The body of [createtransaction] on the fields of the transaction
    record: [requestedBy.sender], [requestedBy.receiver], [amount] and the
    optional [status]. *)
Module TransactionBody.
Record t := mk {
  sender : string; receiver : string; amount : Z; status : option string }.
End TransactionBody.


Section Transactions.

(** [createTransactionSchema.validate], and the name that
    [populate("requestedBy.sender", "name")] resolves for a sender id. *)
Variable createTransactionSchema : TransactionBody.t → option string.
Variable senderName : string → option string.



End Transactions.

(** *** getReport *)

(** The data of [getReport]; [expenses] holds the populated expense
    documents that the answer lists. *)
Module ReportView.
Record t := mk {
  _id : string; reportId : option string; title : string; status : string;
  totalAmount : Z; expenseCount : nat; Event : option string;
  eventStatus : option string; expenses : list Expense.t; date : string;
  reason : list string }.
End ReportView.

(** One call of [getReport]: the route parameter [id], the query's
    [isEvent] (absent is [None]), the caller, the clock and the id of the
    report that may be inserted. *)
Module ReportQuery.
Record t := mk {
  id : string; isEvent : option string; userId : string;
  now : Z; newId : string }.
End ReportQuery.

(** [populate("expenses")]: the documents of the ids that resolve, in the
    order of the ids. *)
Definition populateExpenses (ids : list string) (s : DB) : list Expense.t :=
  flat_map (λ id, match find (λ e, String.eqb (Expense._id e) id) (expenses s)
                  with Some e => [e] | None => [] end)
           ids.

(** [Report.findOne({ _id: id, user }).populate("expenses")] for an id that
    casts. *)
Definition Report_findOne_owned (id user : string) (s : DB)
    : option (Report.t * list Expense.t) :=
  option_map (λ r, (r, populateExpenses (Report.expenses r) s))
    (find (λ r, String.eqb (Report._id r) id && String.eqb (Report.user r) user)
          (reports s)).

(** [Report.findOne({ event: id, user }).populate("expenses")] *)
Definition Report_findOne_event (id user : string) (s : DB)
    : option (Report.t * list Expense.t) :=
  option_map (λ r, (r, populateExpenses (Report.expenses r) s))
    (find (λ r, match Report.event r with
                | Some eventId => String.eqb eventId id
                | None => false
                end && String.eqb (Report.user r) user)
          (reports s)).

(** [`${isEvent}`] in the text of the 404. *)
Definition shown (isEvent : option string) : string :=
  match isEvent with Some flag => flag | None => "undefined" end.

Section Reports.

(** The fields of the event model that the event record does not carry,
    read off the document, and [moment(date).format("MMM DD YYYY")]. *)
Variable eventName : Event.t → string.
Variable staffs : Event.t → list string.
Variable statusOf : Event.t → string.
Variable formatDate : Z → string.

(** [Event.findOne({ _id: id, staffs: { $in: [user] } })] *)
Definition Event_findOne_staff (id user : string) (s : DB) : option Event.t :=
  find (λ e, String.eqb (Event._id e) id && includes (staffs e) user) (events s).

(** Lines 720-741: the report of the call, with its populated expenses. *)
Definition fetchReport (q : ReportQuery.t)
    : act DB (Reply.t ReportView.t) (option (Report.t * list Expense.t)) :=
  let id := ReportQuery.id q in
  let user := ReportQuery.userId q in
  match ReportQuery.isEvent q with
  | None => reading (Report_findOne_owned id user)
  | Some flag =>
      if truthy flag then
        report <~ reading (Report_findOne_event id user) ;;
        match report with
        | Some found => go (Some found)
        | None =>
            event <~ reading (Event_findOne_staff id user) ;;
            title <~ field eventName "eventName" event ;;
            let created :=
              Report.mk (ReportQuery.newId q) None user (Some id) [] title
                        "drafted" (ReportQuery.now q) [] None in
            writing (Report_create created) ;;~
            go (Some (created, []))
        end
      else reading (Report_findOne_owned id user)
  end.

(** Whichever branch is taken, its first query casts [id]. *)
Definition getReport_body (casts : string → bool) (q : ReportQuery.t)
    : act DB (Reply.t ReportView.t) (Reply.t ReportView.t) :=
  let id := ReportQuery.id q in
  if negb (truthy id) then stop (respond 404 "Report ID is required") else
  casting casts "Report" [id] ;;~
  report <~ fetchReport q ;;
  match report with
  | None =>
      stop (respond 404 (id +:+ " " +:+ shown (ReportQuery.isEvent q)
                         +:+ " Report not found"))
  | Some (report, exps) =>
      eventStatus <~
        match Report.event report with
        | Some eventId =>
            eventDetails <~ reading (Event_findOne eventId) ;;
            go (option_map statusOf eventDetails)
        | None => go None
        end ;;
      stop (respondWith 200 "Report found"
              (ReportView.mk (Report._id report) (Report.reportId report)
                 (Report.title report) (Report.status report)
                 (fold_left (λ acc exp, acc + Expense.amount exp) exps 0)
                 (length exps) (Report.event report) eventStatus exps
                 (formatDate (Report.reportDate report))
                 (Report.reason report)))
  end.

Definition getReport (q : ReportQuery.t) (s : DB)
    : Reply.t ReportView.t * DB :=
  caught "Internal Server Error " (getReport_body (castable s) q) s.

(** The data that answers for a fetched report and its populated expenses
    in store [s]. *)
Definition viewOf (report : Report.t) (exps : list Expense.t) (s : DB)
    : ReportView.t :=
  ReportView.mk (Report._id report) (Report.reportId report)
    (Report.title report) (Report.status report)
    (fold_left (λ acc exp, acc + Expense.amount exp) exps 0)
    (length exps) (Report.event report)
    (match Report.event report with
     | Some eventId => option_map statusOf (Event_findOne eventId s)
     | None => None
     end)
    exps (formatDate (Report.reportDate report)) (Report.reason report).

(** The report that [getReport] inserts for an event. *)
Definition eventDraft (q : ReportQuery.t) (event : Event.t) : Report.t :=
  Report.mk (ReportQuery.newId q) None (ReportQuery.userId q)
            (Some (ReportQuery.id q)) [] (eventName event) "drafted"
            (ReportQuery.now q) [] None.

End Reports.

(** *** getExpense *)


Section Expenses.

(** The [userType] of a user document, a field the user record does not
    carry. *)
Variable userType : User.t → string.



End Expenses.

(** *** sendOtp, verifyUser and mpinHandler

    The sign-in handlers work on the user documents alone, seen through the
    fields they read and write.  The stored [otp] is a number or [null], as
    [verifyUser] reads it when it compares it with [Number(otp)]. *)

Module Account.
Record t := mk {
  _id : string; email : string; name : string; employeeId : string;
  userType : string; otp : option Z; isVerified : bool; status : bool;
  mpin : option string }.
Definition setOtp (o : option Z) (a : t) : t :=
  mk (_id a) (email a) (name a) (employeeId a) (userType a) o
     (isVerified a) (status a) (mpin a).
Definition verified (a : t) : t :=
  mk (_id a) (email a) (name a) (employeeId a) (userType a) None true true
     (mpin a).
Definition setMpin (m : string) (a : t) : t :=
  mk (_id a) (email a) (name a) (employeeId a) (userType a) (otp a)
     (isVerified a) (status a) (Some m).
End Account.

(** [User.findOne({ email })] *)
Definition Account_findOne (email : string) (accounts : list Account.t)
    : option Account.t :=
  find (λ a, String.eqb (Account.email a) email) accounts.

(** [user.save()]: the document with the id of [user] is replaced. *)
Fixpoint Account_save (user : Account.t) (accounts : list Account.t)
    : list Account.t :=
  match accounts with
  | [] => []
  | a :: rest =>
      if String.eqb (Account._id a) (Account._id user) then user :: rest
      else a :: Account_save user rest
  end.

(** In the three handlers [user.save()] returns the saved document, so the
    answers for a failed save are out of reach and left out.

    [sendOtp]: [otp] is the number that [generateOTP(4)] draws and
    [mailStatus] the [status] of what [sendMail] returns. *)
Definition sendOtp_body (email : string) (otp : Z) (mailStatus : string)
    : act (list Account.t) (Reply.t unit) (Reply.t unit) :=
  if negb (truthy email) then stop (respond 400 "Email is required") else
  user <~ reading (Account_findOne email) ;;
  match user with
  | None => stop (respond 404 "User not found")
  | Some user =>
      if String.eqb mailStatus "failure"
      then stop (respond 400 "OTP sent failed")
      else
        writing (Account_save (Account.setOtp (Some otp) user)) ;;~
        stop (respond 200 "OTP sent successfully")
  end.

Definition sendOtp (email : string) (otp : Z) (mailStatus : string)
    (accounts : list Account.t) : Reply.t unit * list Account.t :=
  caught "Internal Server Error " (sendOtp_body email otp mailStatus) accounts.

(** [user.otp !== Number(otp)] on a stored number or [null]. *)
Definition otpDiffers (stored : option Z) (otp : Z) : bool :=
  match stored with Some o => negb (o =? otp) | None => true end.

(** [verifyUser], for a body whose [otp] is a number. *)
Definition verifyUser_body (otp : Z) (email : string)
    : act (list Account.t) (Reply.t unit) (Reply.t unit) :=
  if negb (truthyNum otp) then stop (respond 400 "OTP is required") else
  if negb (truthy email) then stop (respond 400 "Email is required") else
  user <~ reading (Account_findOne email) ;;
  match user with
  | None => stop (respond 404 "User not found")
  | Some user =>
      if otpDiffers (Account.otp user) otp
      then stop (respond 400 "Invalid OTP")
      else
        writing (Account_save (Account.verified user)) ;;~
        stop (respond 200 "User verified successfully")
  end.

Definition verifyUser (otp : Z) (email : string)
    (accounts : list Account.t) : Reply.t unit * list Account.t :=
  caught "Internal Server Error " (verifyUser_body otp email) accounts.

(** The data of a login. *)
Module Login.
Record t := mk {
  _id : string; token : string; userType : string; username : string;
  employeeId : string }.
End Login.

Section SignIn.

(** [hashPassword] and [comparePasswords] of the bcrypt helper and
    [generateToken]: the helpers are missing. *)
Variable hashPassword : string → string.
Variable comparePasswords : string → string → bool.
Variable generateToken : string → string → string.

(** [if (user.mpin)] *)
Definition storedMpin (user : Account.t) : option string :=
  match Account.mpin user with
  | Some m => if truthy m then Some m else None
  | None => None
  end.

Definition mpinHandler_body (email mpin : string)
    : act (list Account.t) (Reply.t Login.t) (Reply.t Login.t) :=
  if negb (truthy email) then stop (respond 400 "Email is required") else
  if negb (truthy mpin) then stop (respond 400 "MPIN is required") else
  user <~ reading (Account_findOne email) ;;
  match user with
  | None => stop (respond 404 "User not found")
  | Some user =>
      match storedMpin user with
      | Some stored =>
          if negb (comparePasswords mpin stored)
          then stop (respond 401 "Invalid MPIN")
          else
            let token :=
              generateToken (Account._id user) (Account.userType user) in
            stop (respondWith 200 "Login successfull..!"
                    (Login.mk (Account._id user) token
                       (Account.userType user) (Account.name user)
                       (Account.employeeId user)))
      | None =>
          let hashedPassword := hashPassword mpin in
          writing (Account_save (Account.setMpin hashedPassword user)) ;;~
          stop (respond 200 "User MPIN added successfully..!")
      end
  end.

Definition mpinHandler (email mpin : string) (accounts : list Account.t)
    : Reply.t Login.t * list Account.t :=
  caught "Internal Server Error " (mpinHandler_body email mpin) accounts.

End SignIn.

(** ** Facts about the category totals *)

(** The first loop: it answers at the first mapped expense, and otherwise
    folds [addExpense] over the list. *)
Lemma aggregate_noneMapped exps : ∀ ts,
  noneMapped exps = true → aggregate exps ts = Next (fold_left addExpense exps ts).
Proof.
  induction exps as [|e exps IH]; intros ts H; simpl in *; [reflexivity|].
  apply andb_prop in H as [He H].
  apply negb_true_iff in He. rewrite He. auto.
Qed.

Lemma aggregate_someMapped exps : ∀ ts,
  noneMapped exps = false →
  ∃ e, In e exps ∧ Expense.status e = "mapped"
       ∧ aggregate exps ts = Answer (AlreadyMapped (Expense.title e)).
Proof.
  induction exps as [|e exps IH]; intros ts H; simpl in *; [discriminate|].
  destruct (String.eqb_spec (Expense.status e) "mapped") as [Heq|Hne]; simpl in H.
  - exists e. auto.
  - destruct (IH (addExpense ts e) H) as (e' & Hin & Hst & Hagg).
    exists e'. auto.
Qed.

(** ** Facts about createReport *)

Ltac unfold_handler :=
  unfold tryCatch, bind, query, lift, answer, write, ret, throw, prop in *.

Lemma eventGate_pass req reportId user s :
  adminBypass req s = false → eventMissing req s = false →
  eventGate req reportId user s = (Next tt, s).
Proof.
  unfold adminBypass, eventMissing, eventGate.
  destruct (Body.event (Request.body req)) as [eventId|]; [|reflexivity].
  destruct (truthy eventId); [|reflexivity]. simpl.
  unfold_handler.
  destruct (Event_findOne eventId s) as [event|]; [|discriminate].
  simpl. intros -> _. reflexivity.
Qed.

Lemma eventGate_missing req reportId user s :
  eventMissing req s = true →
  ∃ e, eventGate req reportId user s = (Throw e, s).
Proof.
  unfold eventMissing, eventGate.
  destruct (Body.event (Request.body req)) as [eventId|]; [|discriminate].
  destruct (truthy eventId); [|discriminate]. simpl.
  unfold_handler.
  destruct (Event_findOne eventId s) as [event|]; [discriminate|].
  intros _. eexists. reflexivity.
Qed.

Section CreateReportFacts.

Variable createReportSchema : Body.t → option string.
Variables startOfMonth endOfMonth : Z → Z.

(** A valid call that gets past the event gate runs the eligibility
    checks on its candidate expenses and the populated user. *)
Lemma createReport_reaches_checks req s :
  createReportSchema (Request.body req) = None →
  (0 < length (Body.expenses (Request.body req)))%nat →
  adminBypass req s = false → eventMissing req s = false →
  createReport createReportSchema startOfMonth endOfMonth req s
  = tryCatch
      (policyChecks startOfMonth endOfMonth req
         (formatReportId (length (reports s) + 1))
         (candidates req s)
         (User_findOne_populate (Request.userId req) s)) s.
Proof.
  intros Hschema Hlen Hby Hmiss.
  unfold createReport, createReport_body. rewrite Hschema.
  destruct (Body.expenses (Request.body req)) as [|id ids] eqn:Hids;
    [simpl in Hlen; lia|].
  unfold tryCatch, bind at 1 2 3 4, query. simpl.
  rewrite (eventGate_pass _ _ _ _ Hby Hmiss).
  unfold candidates, Report_countDocuments. rewrite Hids. reflexivity.
Qed.

End CreateReportFacts.

(** ** The category policy (C1) *)

(** C1. The claim's own scenario is turned down: two Travel expenses of 120
    and 90 against a Travel cap of 200 fail with [CategoryLimitExceeded] and
    nothing changes.  But the totals are kept per spelling of the category,
    and only the lookup in the tier ignores letter case: filed under [Travel]
    and [travel], the same two expenses charge the tier's Travel category
    with 210, above its cap of 200, and yet each spelling has a total of its
    own within the cap, so the report is created and both expenses are
    mapped. *)
Theorem createReport_category_case :
  (∀ startOfMonth endOfMonth,
     createReport (λ _, None) startOfMonth endOfMonth
       TravelScenario.request TravelScenario.store
     = (CategoryLimitExceeded "Travel", TravelScenario.store))
  ∧ tierCategoryTotal
      (candidates CaseScenario.request CaseScenario.store)
      (Category.mk "Travel" 200 true)
    = 210
  ∧ findCategory (Tier.categories TravelScenario.tier) "travel"
    = Some (Category.mk "Travel" 200 true)
  ∧ (∀ startOfMonth endOfMonth,
       createReport (λ _, None) startOfMonth endOfMonth
         CaseScenario.request CaseScenario.store
       = (ReportCreated CaseScenario.created,
          mkDB [TravelScenario.tier] [TravelScenario.user]
               [Expense.mk "exp1" "staff1" "Taxi" "Travel" 120 "mapped";
                Expense.mk "exp2" "staff1" "Train" "travel" 90 "mapped"]
               [] [CaseScenario.created]
               [Notification.mk "rep1" "staff1" "pending";
                Notification.mk "rep1" "approver1" "pending"]
               [] [])).
Proof.
  split; [reflexivity|]. split; [reflexivity|]. split; reflexivity.
Qed.

(** ** The tier limit (C2) *)

Lemma fold_left_sum {A} (f : A → Z) (l : list A) : ∀ a,
  fold_left (λ acc x, acc + f x) l a = a + fold_right Z.add 0 (map f l).
Proof.
  induction l as [|x l IH]; intros a; simpl; [lia|]. rewrite IH. lia.
Qed.

Lemma sumExisting_monthTotal from to s :
  sumExisting (Report_find_between from to s) s = monthTotal from to s.
Proof.
  unfold sumExisting, monthTotal.
  generalize (Report_find_between from to s) as rs.
  assert (H : ∀ rs a,
    fold_left
      (λ total report,
         fold_left (λ acc expense, acc + Expense.amount expense)
                   (Expense_find (Report.expenses report) s) total) rs a
    = a + fold_right Z.add 0
            (map (λ report,
                    fold_right Z.add 0
                      (map Expense.amount
                           (Expense_find (Report.expenses report) s))) rs)).
  { induction rs as [|r rs IH]; intros a; simpl; [lia|].
    rewrite IH, fold_left_sum. lia. }
  intros rs. rewrite H. lia.
Qed.

(** A test of the counterexample's input: the report is created although
    the existing total plus the new report is above the cap. *)
Lemma tierScenario_created :
  createReport (λ _, None) (λ _, 0) (λ _, 10)
    TierScenario.request TierScenario.store
  = (ReportCreated TierScenario.created,
     mkDB [TierScenario.tier] [TierScenario.user]
          [Expense.mk "exp1" "staff1" "Flight" "Travel" 300 "mapped"]
          [] [TierScenario.created]
          [Notification.mk "rep1" "staff1" "pending";
           Notification.mk "rep1" "approver1" "pending"]
          [] []).
Proof. reflexivity. Qed.

(** C2, counterexample. With nothing approved this month, a cap of 250 and
    a new report of 300, the sum 0 + 300 is above the cap and yet the call
    does not fail with [TierLimitExceeded]: it creates the report. *)
Lemma tier_check_counterexample :
  ¬ tierCheckAsSpecified (λ _, None) (λ _, 0) (λ _, 10)
      TierScenario.request TierScenario.store TierScenario.tier.
Proof.
  intros [_ H]. destruct H as [limit Hlimit].
  - vm_compute. reflexivity.
  - rewrite tierScenario_created in Hlimit. discriminate.
Qed.

(** C2, amended. For a createReport call that reaches the tier check (valid,
    past the event gate without the Admin shortcut, no candidate mapped, every
    category within policy, no candidate in an approved or reimbursed
    report), the call fails with [TierLimitExceeded] exactly when the sum of
    the expense amounts of the approved and reimbursed reports dated in the
    current month is above the tier's [totalAmount]; the amounts of the new
    report are not added.  On that failure the store is unchanged; otherwise
    the candidates are mapped and the report is created. *)
Theorem createReport_tier_limit
    (createReportSchema : Body.t → option string)
    (startOfMonth endOfMonth : Z → Z) req s u tier :
  createReportSchema (Request.body req) = None →
  (0 < length (Body.expenses (Request.body req)))%nat →
  adminBypass req s = false → eventMissing req s = false →
  noneMapped (candidates req s) = true →
  User_findOne_populate (Request.userId req) s = Some (u, Some tier) →
  checkCategories (Some (u, Some tier)) (categoryTotalsOf (candidates req s))
  = Next tt →
  Report_findOne_overlap (Body.expenses (Request.body req)) s = None →
  let existing :=
    monthTotal (startOfMonth (Request.now req)) (endOfMonth (Request.now req)) s in
  let result := createReport createReportSchema startOfMonth endOfMonth req s in
  ((∃ limit, fst result = TierLimitExceeded limit)
   ↔ existing > Tier.totalAmount tier)
  ∧ (existing > Tier.totalAmount tier →
     result = (TierLimitExceeded (Tier.totalAmount tier), s))
  ∧ (existing ≤ Tier.totalAmount tier →
     ∃ newReport,
       fst result = ReportCreated newReport
       ∧ expenses (snd result)
         = expenses (Expense_updateMany (Body.expenses (Request.body req))
                                        "mapped" s)
       ∧ reports (snd result) = reports s ++ [newReport]).
Proof.
  intros Hschema Hlen Hby Hmiss Hmapped Huser Hcheck Hoverlap existing result.
  assert (Hresult :
    result
    = if existing >? Tier.totalAmount tier
      then (TierLimitExceeded (Tier.totalAmount tier), s)
      else tryCatch
             (createNewReport req (formatReportId (length (reports s) + 1))
                (Some (u, Some tier)))
             (Expense_updateMany (Body.expenses (Request.body req)) "mapped" s)).
  { unfold result. rewrite createReport_reaches_checks by assumption.
    unfold policyChecks. rewrite Huser.
    unfold tryCatch, bind at 1 2 3 4 5 6, lift, query.
    rewrite (aggregate_noneMapped _ _ Hmapped).
    fold (categoryTotalsOf (candidates req s)). rewrite Hcheck, Hoverlap.
    rewrite sumExisting_monthTotal. fold existing. simpl.
    destruct (existing >? Tier.totalAmount tier); [reflexivity|].
    unfold createNewReport. unfold_handler. reflexivity. }
  destruct (Z.gtb_spec existing (Tier.totalAmount tier)) as [Hgt|Hle].
  - rewrite Hresult. simpl. split; [|split].
    + split; [intros _; lia|eauto].
    + reflexivity.
    + intros Hle. lia.
  - rewrite Hresult. unfold createNewReport. unfold_handler. simpl.
    split; [|split].
    + split; [intros [limit Hlimit]; discriminate|lia].
    + intros Hgt. lia.
    + intros _. eexists. split; [reflexivity|]. split; reflexivity.
Qed.

Lemma createReport_tier_limit_witness :
  let existing := monthTotal 0 10 TierScenario.store in
  let result :=
    createReport (λ _, None) (λ _, 0) (λ _, 10)
      TierScenario.request TierScenario.store in
  ((∃ limit, fst result = TierLimitExceeded limit)
   ↔ existing > Tier.totalAmount TierScenario.tier)
  ∧ (existing > Tier.totalAmount TierScenario.tier →
     result
     = (TierLimitExceeded (Tier.totalAmount TierScenario.tier),
        TierScenario.store))
  ∧ (existing ≤ Tier.totalAmount TierScenario.tier →
     ∃ newReport,
       fst result = ReportCreated newReport
       ∧ expenses (snd result)
         = expenses (Expense_updateMany ["exp1"] "mapped" TierScenario.store)
       ∧ reports (snd result) = reports TierScenario.store ++ [newReport]).
Proof.
  apply (createReport_tier_limit (λ _, None) (λ _, 0) (λ _, 10)
           TierScenario.request TierScenario.store
           TierScenario.user TierScenario.tier).
  - reflexivity.
  - simpl. lia.
  - reflexivity.
  - reflexivity.
  - reflexivity.
  - reflexivity.
  - reflexivity.
  - reflexivity.
Defined.

(** ** Exclusivity of mapped expenses (C6) *)

Lemma checkCategories_answer user entries r :
  checkCategories user entries = Answer r → categoryError r.
Proof.
  induction entries as [|[title value] rest IH]; simpl; [discriminate|].
  destruct (tierOf user "categories") as [tier|r'|e] eqn:Htier.
  - destruct (findCategory (Tier.categories tier) title) as [tc|];
      [|intros [= <-]; exact I].
    destruct (negb (Category.status tc)); [intros [= <-]; exact I|].
    destruct (exceeds value (Category.maxAmount tc)); [intros [= <-]; exact I|].
    exact IH.
  - unfold tierOf in Htier. destruct user as [[? [?|]]|]; discriminate.
  - discriminate.
Qed.

Lemma candidates_inIds req s e :
  In e (candidates req s) →
  inIds (Body.expenses (Request.body req)) (Expense._id e) = true.
Proof. unfold candidates, Expense_find. intros H. apply filter_In in H. tauto. Qed.

Lemma overlap_none ids s :
  Report_findOne_overlap ids s = None →
  ∀ report id, In report (reports s) →
    approvedOrReimbursed (Report.status report) = true →
    In id (Report.expenses report) → inIds ids id = false.
Proof.
  unfold Report_findOne_overlap. intros Hnone report id Hin Hst Hid.
  pose proof (find_none _ _ Hnone report Hin) as H. simpl in H.
  rewrite Hst, andb_true_r in H.
  destruct (inIds ids id) eqn:Hids; [|reflexivity].
  assert (existsb (inIds ids) (Report.expenses report) = true)
    by (apply existsb_exists; eauto).
  congruence.
Qed.

(** A test of the counterexample's input: the rejected expense is mapped
    into a new report. *)
Lemma rejectedScenario_created :
  createReport (λ _, None) (λ _, 0) (λ _, 10)
    RejectedScenario.request RejectedScenario.store
  = (ReportCreated RejectedScenario.created,
     mkDB [RejectedScenario.tier] [RejectedScenario.user]
          [Expense.mk "exp1" "staff1" "Taxi" "Travel" 50 "mapped"]
          [] [RejectedScenario.created]
          [Notification.mk "rep2" "staff1" "pending";
           Notification.mk "rep2" "approver1" "pending"]
          [] []).
Proof. reflexivity. Qed.

(** C6, counterexample. An expense whose status is [rejected], which is
    later than [mapped], does not make the call fail: the report is created
    and the expense is mapped again. *)
Lemma already_mapped_counterexample :
  ¬ alreadyMappedAsSpecified (λ _, None) (λ _, 0) (λ _, 10)
      RejectedScenario.request RejectedScenario.store.
Proof.
  intros H. destruct H as [title Htitle]; [reflexivity|].
  rewrite rejectedScenario_created in Htitle. discriminate.
Qed.

(** C6, amended. Among the createReport calls that do not take the Admin
    shortcut: a valid call that gets past the event gate and has a candidate
    whose status is exactly [mapped] fails with [AlreadyMapped], naming the
    first such expense, and changes nothing; and whenever a call creates a
    report, none of its candidates was mapped and none of them belonged to
    an approved or reimbursed report.  Nothing is promised for candidates
    whose status is approved, rejected or reimbursed outside such a report. *)
Theorem createReport_excludes_mapped
    (createReportSchema : Body.t → option string)
    (startOfMonth endOfMonth : Z → Z) req s :
  adminBypass req s = false →
  let result := createReport createReportSchema startOfMonth endOfMonth req s in
  (createReportSchema (Request.body req) = None →
   (0 < length (Body.expenses (Request.body req)))%nat →
   eventMissing req s = false →
   noneMapped (candidates req s) = false →
   ∃ e, In e (candidates req s) ∧ Expense.status e = "mapped"
        ∧ result = (AlreadyMapped (Expense.title e), s))
  ∧ (∀ newReport, fst result = ReportCreated newReport →
     ∀ e, In e (candidates req s) →
       Expense.status e ≠ "mapped"
       ∧ ∀ report, In report (reports s) →
           approvedOrReimbursed (Report.status report) = true →
           ¬ In (Expense._id e) (Report.expenses report)).
Proof.
  intros Hby result. split.
  - intros Hschema Hlen Hmiss Hmapped.
    destruct (aggregate_someMapped _ [] Hmapped) as (e & Hin & Hst & Hagg).
    exists e. split; [exact Hin|]. split; [exact Hst|].
    unfold result. rewrite createReport_reaches_checks by assumption.
    unfold policyChecks, tryCatch, bind, lift. rewrite Hagg. reflexivity.
  - intros newReport Hcreated e Hin. unfold result in Hcreated.
    destruct (createReportSchema (Request.body req)) as [details|] eqn:Hschema.
    { unfold createReport, createReport_body in Hcreated.
      rewrite Hschema in Hcreated. discriminate. }
    destruct (Body.expenses (Request.body req)) as [|id ids] eqn:Hids.
    { unfold createReport, createReport_body in Hcreated.
      rewrite Hschema, Hids in Hcreated. discriminate. }
    destruct (eventMissing req s) eqn:Hmiss.
    { destruct (eventGate_missing req
                  (formatReportId (Report_countDocuments s + 1))
                  (User_findOne_populate (Request.userId req) s) s Hmiss)
        as [msg Hgate].
      unfold createReport, createReport_body in Hcreated.
      rewrite Hschema, Hids in Hcreated.
      unfold tryCatch, bind at 1 2 3 4, query in Hcreated. simpl in Hcreated.
      rewrite Hgate in Hcreated. discriminate. }
    rewrite createReport_reaches_checks in Hcreated
      by (try assumption; rewrite Hids; simpl; lia).
    unfold policyChecks, tryCatch, bind at 1 2 3 4 5 6, lift, query in Hcreated.
    destruct (noneMapped (candidates req s)) eqn:Hmapped.
    2:{ destruct (aggregate_someMapped _ [] Hmapped) as (e' & _ & _ & Hagg).
        rewrite Hagg in Hcreated. discriminate. }
    rewrite (aggregate_noneMapped _ _ Hmapped) in Hcreated.
    destruct (checkCategories _ _) as [[]|r|msg] eqn:Hcheck.
    2:{ apply checkCategories_answer in Hcheck. simpl in Hcreated.
        subst r. destruct Hcheck. }
    2:{ discriminate. }
    rewrite Hids in Hcreated.
    destruct (Report_findOne_overlap (id :: ids) s) as [report|] eqn:Hover;
      [discriminate|].
    split.
    + unfold noneMapped in Hmapped.
      pose proof (proj1 (forallb_forall _ _) Hmapped e Hin) as He.
      apply negb_true_iff in He. intros Heq. rewrite Heq in He. discriminate.
    + intros report Hrep Hst Hid.
      pose proof (overlap_none _ _ Hover report _ Hrep Hst Hid) as Hno.
      pose proof (candidates_inIds req s e Hin) as Hyes.
      rewrite Hids in Hyes. congruence.
Qed.

Lemma createReport_excludes_mapped_witness :
  ∃ e, In e (candidates MappedScenario.request MappedScenario.store)
       ∧ Expense.status e = "mapped"
       ∧ createReport (λ _, None) (λ _, 0) (λ _, 10)
           MappedScenario.request MappedScenario.store
         = (AlreadyMapped (Expense.title e), MappedScenario.store).
Proof.
  apply (proj1 (createReport_excludes_mapped (λ _, None) (λ _, 0) (λ _, 10)
                  MappedScenario.request MappedScenario.store eq_refl)).
  - reflexivity.
  - simpl. lia.
  - reflexivity.
  - reflexivity.
Defined.

(** ** The event gate (C10) *)

Lemma aggregate_answer exps : ∀ ts r,
  aggregate exps ts = Answer r → ∃ title, r = AlreadyMapped title.
Proof.
  induction exps as [|e exps IH]; intros ts r; simpl; [discriminate|].
  destruct (String.eqb (Expense.status e) "mapped"); [|apply IH].
  intros [= <-]. eauto.
Qed.

Lemma createNewReport_outcome req reportId user s :
  match fst (createNewReport req reportId user s) with
  | Next r | Answer r => ∃ newReport, r = ReportCreated newReport
  | Throw _ => True
  end.
Proof.
  unfold createNewReport. unfold_handler.
  destruct user as [[u t]|]; simpl; eauto.
Qed.

Lemma eventGate_outcome req reportId user s :
  match fst (eventGate req reportId user s) with
  | Next _ => True
  | Answer r => ∃ newReport, r = ReportCreated newReport
  | Throw _ => True
  end.
Proof.
  unfold eventGate.
  destruct (Body.event (Request.body req)) as [eventId|]; [|exact I].
  destruct (truthy eventId); [|exact I].
  unfold bind at 1 2, query, prop.
  destruct (Event_findOne eventId s) as [event|]; simpl; [|exact I].
  destruct (String.eqb (Event.type event) "Admin"); [|exact I].
  unfold bind at 1 2, write.
  pose proof (createNewReport_outcome req reportId user
    (Expense_updateMany (Body.expenses (Request.body req)) "mapped" s)) as H.
  destruct (createNewReport _ _ _ _) as [[r|r|e] s']; simpl in *; auto.
Qed.

Lemma policyChecks_outcome startOfMonth endOfMonth req reportId exps user s :
  fst (tryCatch (policyChecks startOfMonth endOfMonth req reportId exps user) s)
  ≠ EventNotFound.
Proof.
  unfold policyChecks, createNewReport. unfold_handler.
  destruct (aggregate exps []) as [ts|r|e] eqn:Hagg; simpl; [| |discriminate].
  2:{ apply aggregate_answer in Hagg as [title ->]. discriminate. }
  destruct (checkCategories user ts) as [[]|r|e] eqn:Hcheck; simpl;
    [| |discriminate].
  2:{ apply checkCategories_answer in Hcheck. destruct r; try destruct Hcheck;
      discriminate. }
  destruct (Report_findOne_overlap _ s); simpl; [discriminate|].
  destruct user as [[u [tier|]]|]; simpl; try discriminate.
  destruct (_ >? _); simpl; discriminate.
Qed.

(** C10. A valid createReport call whose body names an event that does not
    resolve to a stored event is answered with an internal error (status
    500) and changes nothing: reading [type] off the missing event throws
    before the existence test runs.  And no createReport call at all is ever
    answered with [EventNotFound], the 404 of that test. *)
Theorem createReport_missing_event :
  (∀ (createReportSchema : Body.t → option string)
     (startOfMonth endOfMonth : Z → Z) req s eventId,
     createReportSchema (Request.body req) = None →
     (0 < length (Body.expenses (Request.body req)))%nat →
     Body.event (Request.body req) = Some eventId →
     truthy eventId = true →
     Event_findOne eventId s = None →
     ∃ e, createReport createReportSchema startOfMonth endOfMonth req s
          = (InternalError e, s)
          ∧ statusCode (InternalError e) = 500)
  ∧ (∀ (createReportSchema : Body.t → option string)
       (startOfMonth endOfMonth : Z → Z) req s,
       fst (createReport createReportSchema startOfMonth endOfMonth req s)
       ≠ EventNotFound).
Proof.
  split.
  - intros schema som eom req s eventId Hschema Hlen Hevent Htruthy Hfind.
    assert (Hmiss : eventMissing req s = true).
    { unfold eventMissing. rewrite Hevent, Htruthy, Hfind. reflexivity. }
    destruct (eventGate_missing req
                (formatReportId (Report_countDocuments s + 1))
                (User_findOne_populate (Request.userId req) s) s Hmiss)
      as [e Hgate].
    exists e. split; [|reflexivity].
    unfold createReport, createReport_body. rewrite Hschema.
    destruct (Body.expenses (Request.body req)) as [|id ids];
      [simpl in Hlen; lia|].
    unfold tryCatch, bind at 1 2 3 4, query. simpl.
    rewrite Hgate. reflexivity.
  - intros schema som eom req s.
    unfold createReport, createReport_body.
    destruct (schema (Request.body req)); [discriminate|].
    destruct (Body.expenses (Request.body req)) as [|id ids] eqn:Hids;
      [discriminate|].
    unfold tryCatch at 1, bind at 1 2 3 4, query. simpl.
    pose proof (eventGate_outcome req
      (formatReportId (Report_countDocuments s + 1))
      (User_findOne_populate (Request.userId req) s) s) as Hgate.
    destruct (eventGate _ _ _ s) as [[[]|r|e] s'] eqn:Heq; simpl in *.
    + pose proof (policyChecks_outcome som eom req
        (formatReportId (Report_countDocuments s + 1))
        (Expense_find (id :: ids) s)
        (User_findOne_populate (Request.userId req) s) s') as H.
      unfold tryCatch in H.
      destruct (policyChecks _ _ _ _ _ _ s') as [[r|r|e] s'']; exact H.
    + destruct Hgate as [newReport ->]. discriminate.
    + discriminate.
Qed.

Lemma createReport_missing_event_witness :
  ∃ e, createReport (λ _, None) (λ _, 0) (λ _, 10)
         MissingEventScenario.request MissingEventScenario.store
       = (InternalError e, MissingEventScenario.store)
       ∧ statusCode (InternalError e) = 500.
Proof.
  apply (proj1 createReport_missing_event (λ _, None) (λ _, 0) (λ _, 10)
           MissingEventScenario.request MissingEventScenario.store "event9").
  - reflexivity.
  - simpl. lia.
  - reflexivity.
  - reflexivity.
  - reflexivity.
Defined.

(** ** Facts about the store *)

Lemma includes_In xs x : includes xs x = true ↔ In x xs.
Proof.
  unfold includes. rewrite existsb_exists. split.
  - intros (y & Hin & Heq). apply String.eqb_eq in Heq. subst. exact Hin.
  - intros Hin. exists x. split; [exact Hin|apply String.eqb_refl].
Qed.

Lemma includes_not_In xs x : includes xs x = false ↔ ¬ In x xs.
Proof.
  rewrite <- includes_In. destruct (includes xs x); split; intros H;
    congruence || (exfalso; apply H; reflexivity).
Qed.

Lemma Report_findById_Some id s r :
  Report_findById id s = Some r → In r (reports s) ∧ Report._id r = id.
Proof.
  unfold Report_findById. intros H. apply find_some in H as [Hin Heq].
  apply String.eqb_eq in Heq. auto.
Qed.

Lemma find_updateFirst_same id f rs r :
  (∀ r, Report._id (f r) = Report._id r) →
  find (λ r, String.eqb (Report._id r) id) rs = Some r →
  find (λ r, String.eqb (Report._id r) id) (updateFirst id f rs) = Some (f r).
Proof.
  intros Hid. induction rs as [|r0 rs IH]; simpl; [discriminate|].
  destruct (String.eqb (Report._id r0) id) eqn:Heq.
  - intros [= <-]. simpl. rewrite Hid, Heq. reflexivity.
  - intros H. simpl. rewrite Heq. auto.
Qed.

Lemma find_updateFirst_other id id' f rs :
  (∀ r, Report._id (f r) = Report._id r) → id' ≠ id →
  find (λ r, String.eqb (Report._id r) id') (updateFirst id f rs)
  = find (λ r, String.eqb (Report._id r) id') rs.
Proof.
  intros Hid Hne. induction rs as [|r0 rs IH]; simpl; [reflexivity|].
  destruct (String.eqb_spec (Report._id r0) id) as [Heq|Hneq]; simpl.
  - rewrite Hid.
    destruct (String.eqb_spec (Report._id r0) id'); [congruence|reflexivity].
  - destruct (String.eqb (Report._id r0) id'); [reflexivity|exact IH].
Qed.

Lemma length_updateFirst id f rs : length (updateFirst id f rs) = length rs.
Proof.
  induction rs as [|r rs IH]; simpl; [reflexivity|].
  destruct (String.eqb (Report._id r) id); simpl; congruence.
Qed.

Lemma In_updateMany ids st s e' :
  In e' (expenses (Expense_updateMany ids st s)) ↔
  ∃ e, In e (expenses s)
       ∧ e' = if inIds ids (Expense._id e) then Expense.setStatus st e else e.
Proof.
  unfold Expense_updateMany. simpl. rewrite in_map_iff.
  split; intros (e & H1 & H2); exists e; auto.
Qed.

Lemma ids_updateMany ids st s :
  map Expense._id (expenses (Expense_updateMany ids st s))
  = map Expense._id (expenses s).
Proof.
  unfold Expense_updateMany. simpl. rewrite map_map. apply map_ext.
  intros e. destruct (inIds ids (Expense._id e)); reflexivity.
Qed.

(** ** Facts about the casts *)

Lemma castFailure_None casts model ids :
  (∀ id, In id ids → casts id = true) → castFailure casts model ids = None.
Proof.
  intros Hall. unfold castFailure.
  destruct (find (λ id, negb (casts id)) ids) as [id|] eqn:Hfind; [|reflexivity].
  apply find_some in Hfind as [Hin Hno]. rewrite (Hall id Hin) in Hno.
  discriminate.
Qed.

Lemma castFailure_Some casts model ids id :
  In id ids → casts id = false → ∃ e, castFailure casts model ids = Some e.
Proof.
  intros Hin Hno. unfold castFailure.
  destruct (find (λ id, negb (casts id)) ids) as [id'|] eqn:Hfind;
    [eexists; reflexivity|].
  pose proof (find_none _ _ Hfind id Hin) as H. simpl in H.
  rewrite Hno in H. discriminate.
Qed.

Lemma castFailure_inv casts model ids :
  castFailure casts model ids = None → ∀ id, In id ids → casts id = true.
Proof.
  unfold castFailure. intros H id Hin.
  destruct (find (λ id, negb (casts id)) ids) as [id'|] eqn:Hfind;
    [discriminate|].
  pose proof (find_none _ _ Hfind id Hin) as Hc. simpl in Hc.
  destruct (casts id); [reflexivity|discriminate].
Qed.

(** On a store whose ids are written as ObjectIds are, the cast is the test
    of the shape. *)
Lemma castable_isObjectId s id :
  (∀ id', In id' (objectIds s) → isObjectId id' = true) →
  castable s id = isObjectId id.
Proof.
  intros Hall. unfold castable.
  destruct (includes (objectIds s) id) eqn:Hin; [|reflexivity].
  apply includes_In in Hin. rewrite (Hall id Hin). reflexivity.
Qed.

(** The id of a stored report casts, and so does every expense reference
    that a stored report holds. *)
Lemma castable_report s r :
  In r (reports s) → castable s (Report._id r) = true.
Proof.
  intros Hin. unfold castable. apply orb_true_intro. left.
  apply includes_In. unfold objectIds. rewrite !in_app_iff.
  do 4 right. left. apply in_flat_map. exists r. split; [exact Hin|].
  left. reflexivity.
Qed.

Lemma castable_found id s r :
  Report_findById id s = Some r → castable s id = true.
Proof.
  intros H. apply Report_findById_Some in H as [Hin <-].
  apply castable_report. exact Hin.
Qed.

Lemma castable_reference s r id :
  In r (reports s) → In id (Report.expenses r) → castable s id = true.
Proof.
  intros Hin Hid. unfold castable. apply orb_true_intro. left.
  apply includes_In. unfold objectIds. rewrite !in_app_iff.
  do 4 right. left. apply in_flat_map. exists r. split; [exact Hin|].
  right. apply in_app_iff. left. exact Hid.
Qed.

Lemma castFailure_found model id s r :
  Report_findById id s = Some r → castFailure (castable s) model [id] = None.
Proof.
  intros H. apply castFailure_None. intros id' [<-|[]].
  eapply castable_found. exact H.
Qed.

Lemma castFailure_references model id ids s r :
  Report_findById id s = Some r → incl ids (Report.expenses r) →
  castFailure (castable s) model ids = None.
Proof.
  intros H Hincl. apply castFailure_None. intros id' Hin.
  apply Report_findById_Some in H as [Hr _].
  eapply castable_reference; [exact Hr|]. apply Hincl. exact Hin.
Qed.


Lemma castFailure_castable model id s :
  castable s id = true → castFailure (castable s) model [id] = None.
Proof. intros H. apply castFailure_None. intros id' [<-|[]]. exact H. Qed.

(** ** Facts about updateApproval *)

(** The answer and the store of every decision, by cases on its guards. *)
Lemma updateApproval_cases req s :
  updateApproval req s =
  if (length (Decision.expenses req) =? 0)%nat then (ExpensesRequired, s)
  else if negb (truthy (Decision.id req)) then (ApprovalIdRequired, s)
  else match castFailure (castable s) "Report" [Decision.id req] with
       | Some e => (InternalError e, s)
       | None =>
           match Report_findById (Decision.id req) s with
           | None => (ApprovalNotFound, s)
           | Some report =>
               if negb (String.eqb (Report.status report) "pending")
               then (InvalidTransition, s)
               else if mismatch req report then (ExpenseMismatch, s)
               else match castFailure (castable s) "Expense"
                                      (Decision.expenses req) with
                    | Some e => (InternalError e, noted req report s)
                    | None =>
                        (ApprovalDone
                           (if String.eqb (Decision.action req) "approve"
                            then "approved" else "rejected"),
                         decided req report s)
                    end
           end
       end.
Proof.
  unfold updateApproval, updateApproval_body, mismatch, decided, noted.
  destruct (length (Decision.expenses req) =? 0)%nat; [reflexivity|].
  destruct (truthy (Decision.id req)); [|reflexivity]. simpl.
  unfold tryCatch, bind at 1, cast at 1.
  destruct (castFailure (castable s) "Report" [Decision.id req]);
    [reflexivity|].
  unfold ret, bind at 1, query.
  destruct (Report_findById (Decision.id req) s) as [report|] eqn:Hfind;
    [|reflexivity].
  destruct (String.eqb (Report.status report) "pending"); [|reflexivity].
  simpl.
  destruct (String.eqb (Decision.action req) "approve"); simpl.
  - unfold_handler. unfold Report_findByIdAndUpdate, cast.
    destruct (orb _ _); [reflexivity|]. rewrite Hfind. simpl.
    destruct (castFailure (castable s) "Expense" (Decision.expenses req));
      reflexivity.
  - unfold_handler. unfold Report_findByIdAndUpdate, cast. rewrite Hfind.
    simpl.
    destruct (castFailure (castable s) "Expense" (Decision.expenses req));
      reflexivity.
Qed.

(** The same for a decision whose route names a stored report. *)
Lemma updateApproval_found req s report :
  truthy (Decision.id req) = true →
  Report_findById (Decision.id req) s = Some report →
  updateApproval req s =
  if (length (Decision.expenses req) =? 0)%nat then (ExpensesRequired, s)
  else if negb (String.eqb (Report.status report) "pending")
  then (InvalidTransition, s)
  else if mismatch req report then (ExpenseMismatch, s)
  else match castFailure (castable s) "Expense" (Decision.expenses req) with
       | Some e => (InternalError e, noted req report s)
       | None =>
           (ApprovalDone
              (if String.eqb (Decision.action req) "approve"
               then "approved" else "rejected"),
            decided req report s)
       end.
Proof.
  intros Hid Hfind.
  rewrite updateApproval_cases, Hid, (castFailure_found _ _ _ _ Hfind), Hfind.
  reflexivity.
Qed.

(** An approve decision that gets past the guard lists expenses of the
    report. *)
Lemma mismatch_incl req report :
  String.eqb (Decision.action req) "approve" = true →
  mismatch req report = false →
  incl (Decision.expenses req) (Report.expenses report).
Proof.
  unfold mismatch. intros -> H. simpl in H.
  apply orb_false_elim in H as [_ Hall]. apply negb_false_iff in Hall.
  intros y Hy. apply includes_In.
  exact (proj1 (forallb_forall _ _) Hall y Hy).
Qed.

Lemma reports_noted req report s :
  reports (noted req report s)
  = updateFirst (Decision.id req)
      (decide_update
         (if String.eqb (Decision.action req) "approve"
          then "approved" else "rejected")
         (Decision.userId req) (Decision.reason req))
      (reports s).
Proof. reflexivity. Qed.

Lemma reports_decided req report s :
  reports (decided req report s)
  = updateFirst (Decision.id req)
      (decide_update
         (if String.eqb (Decision.action req) "approve"
          then "approved" else "rejected")
         (Decision.userId req) (Decision.reason req))
      (reports s).
Proof.
  unfold decided, noted. destruct (String.eqb (Decision.action req) "approve");
    reflexivity.
Qed.

Lemma includes_filter (keep : string → bool) xs x :
  includes (List.filter keep xs) x = (includes xs x && keep x)%bool.
Proof.
  destruct (includes xs x && keep x)%bool eqn:H.
  - apply andb_prop in H as [Hin Hkeep]. apply includes_In, filter_In.
    split; [apply includes_In; exact Hin|exact Hkeep].
  - apply includes_not_In. intros Hin. apply filter_In in Hin as [Hin Hkeep].
    apply includes_In in Hin. rewrite Hin, Hkeep in H. discriminate.
Qed.

Lemma expenses_decided_reject req report s :
  String.eqb (Decision.action req) "approve" = false →
  expenses (decided req report s)
  = map (λ e,
           if inIds (Decision.expenses req) (Expense._id e)
           then Expense.setStatus "rejected" e
           else if inIds (Report.expenses report) (Expense._id e)
                then Expense.setStatus "approved" e
                else e)
        (expenses s).
Proof.
  intros Hact. unfold decided, noted. rewrite Hact. simpl. rewrite map_map.
  apply map_ext. intros e. unfold inIds. rewrite !includes_filter.
  destruct (includes (Decision.expenses req) (Expense._id e)) eqn:Hsup; simpl.
  - rewrite Hsup, andb_false_r. reflexivity.
  - rewrite Hsup, andb_true_r. reflexivity.
Qed.

(** ** Decisions on reports that are not pending (C5) *)

(** C5, counterexample. A decision with an empty expense list on an approved
    report is turned down by the first guard with "Expenses are required"
    (status 400), not with [InvalidTransition]. *)
Lemma invalid_transition_counterexample :
  ¬ invalidTransitionAsSpecified
      (ApprovalScenario.decision "approve" []) ApprovalScenario.decided.
Proof.
  intros H. specialize (H ApprovalScenario.approved eq_refl).
  assert (Hne : Report.status ApprovalScenario.approved ≠ "pending")
    by discriminate.
  specialize (H Hne). vm_compute in H. discriminate.
Qed.

(** C5, amended. A decision that names a stored report (by the non-empty id
    of its route) whose status is not pending fails and changes nothing: with
    [InvalidTransition] ("Approval has already done") when its expense list
    is not empty, and with "Expenses are required" when it is empty.
    Consequently a decision either leaves the store as it was or moves the
    named report from pending to approved or from pending to rejected, and
    no other report changes.  The move is answered with [ApprovalDone]; a
    rejection that lists an id that does not cast throws after the report is
    written, so it is answered with an internal error, and then no expense
    has changed. *)
Theorem updateApproval_transitions :
  (∀ req s report,
     Report_findById (Decision.id req) s = Some report →
     Report.status report ≠ "pending" →
     truthy (Decision.id req) = true →
     (Decision.expenses req ≠ [] →
      updateApproval req s = (InvalidTransition, s))
     ∧ (Decision.expenses req = [] →
        updateApproval req s = (ExpensesRequired, s)))
  ∧ (∀ req s,
       snd (updateApproval req s) = s
       ∨ ∃ report newStatus,
           Report_findById (Decision.id req) s = Some report
           ∧ Report.status report = "pending"
           ∧ (newStatus = "approved" ∨ newStatus = "rejected")
           ∧ (fst (updateApproval req s) = ApprovalDone newStatus
              ∨ newStatus = "rejected"
                ∧ (∃ e, fst (updateApproval req s) = InternalError e)
                ∧ expenses (snd (updateApproval req s)) = expenses s)
           ∧ Report_findById (Decision.id req) (snd (updateApproval req s))
             = Some (decide_update newStatus (Decision.userId req)
                                   (Decision.reason req) report)
           ∧ ∀ id', id' ≠ Decision.id req →
               Report_findById id' (snd (updateApproval req s))
               = Report_findById id' s).
Proof.
  split.
  - intros req s report Hfind Hst Hid.
    rewrite (updateApproval_found _ _ _ Hid Hfind).
    destruct (String.eqb_spec (Report.status report) "pending") as [Heq|_];
      [contradiction|]. simpl.
    destruct (Decision.expenses req) as [|x xs]; simpl; split; intros H;
      congruence.
  - intros req s. rewrite updateApproval_cases.
    destruct (length (Decision.expenses req) =? 0)%nat; [left; reflexivity|].
    destruct (truthy (Decision.id req)); simpl; [|left; reflexivity].
    destruct (castFailure (castable s) "Report" [Decision.id req]);
      [left; reflexivity|].
    destruct (Report_findById (Decision.id req) s) as [report|] eqn:Hfind;
      [|left; reflexivity].
    destruct (String.eqb_spec (Report.status report) "pending") as [Hst|_];
      simpl; [|left; reflexivity].
    destruct (mismatch req report) eqn:Hguard; [left; reflexivity|].
    right. exists report.
    exists (if String.eqb (Decision.action req) "approve"
            then "approved" else "rejected").
    split; [reflexivity|]. split; [exact Hst|]. split.
    { destruct (String.eqb (Decision.action req) "approve"); auto. }
    destruct (castFailure (castable s) "Expense" (Decision.expenses req))
      as [e|] eqn:Hcast; cbn [fst snd].
    + split.
      * right. destruct (String.eqb (Decision.action req) "approve") eqn:Happ.
        -- rewrite (castFailure_references _ _ _ _ _ Hfind
                      (mismatch_incl _ _ Happ Hguard)) in Hcast.
           discriminate.
        -- split; [reflexivity|]. split; [eauto|reflexivity].
      * unfold Report_findById. rewrite reports_noted. split.
        -- apply find_updateFirst_same; [reflexivity|exact Hfind].
        -- intros id' Hne. apply find_updateFirst_other;
             [reflexivity|exact Hne].
    + split; [left; reflexivity|]. unfold Report_findById.
      rewrite reports_decided. split.
      * apply find_updateFirst_same; [reflexivity|exact Hfind].
      * intros id' Hne. apply find_updateFirst_other; [reflexivity|exact Hne].
Qed.

Lemma updateApproval_transitions_witness :
  updateApproval (ApprovalScenario.decision "reject" ["exp1"])
                 ApprovalScenario.decided
  = (InvalidTransition, ApprovalScenario.decided).
Proof.
  apply (proj1 updateApproval_transitions
           (ApprovalScenario.decision "reject" ["exp1"])
           ApprovalScenario.decided ApprovalScenario.approved).
  - reflexivity.
  - discriminate.
  - reflexivity.
  - discriminate.
Defined.

(** ** Approving the exact expense set (C3) *)

(** C3, counterexample. An approve call with an empty id list on a pending
    report of two expenses does not name the stored set, and it is turned
    down with "Expenses are required", not with [ExpenseMismatch]. *)
Lemma expense_mismatch_counterexample :
  ¬ expenseMismatchAsSpecified
      (ApprovalScenario.decision "approve" []) ApprovalScenario.store.
Proof.
  intros H.
  specialize (H ApprovalScenario.report eq_refl eq_refl eq_refl).
  assert (Hne : ¬ sameSet [] (Report.expenses ApprovalScenario.report)).
  { intros Hsame. apply (proj2 (Hsame "exp1")). left. reflexivity. }
  specialize (H Hne). vm_compute in H. discriminate.
Qed.

(** A test of the guard on an id list with a repetition: the list
    [exp1, exp1] has the length of the stored [exp1, exp2] and only stored
    ids, so the report is approved, [exp1] is approved and [exp2] stays
    mapped. *)
Lemma updateApproval_repeated_id :
  updateApproval (ApprovalScenario.decision "approve" ["exp1"; "exp1"])
                 ApprovalScenario.store
  = (ApprovalDone "approved",
     mkDB [] []
          [Expense.mk "exp1" "staff1" "Taxi" "Travel" 120 "approved";
           Expense.mk "exp2" "staff1" "Train" "Travel" 90 "mapped"]
          [] [ApprovalScenario.approved]
          [Notification.mk "rep1" "staff1" "approved"] [] []).
Proof. reflexivity. Qed.

(** C3, amended. An approve call with an empty id list fails with "Expenses
    are required" and changes nothing.  An approve call on a pending report
    with a non-empty id list without repetitions fails with
    [ExpenseMismatch] and changes nothing whenever its ids are not the stored
    expense set, whatever the order; and such a call is accepted only when
    its ids are exactly the stored set.  Nothing is said about lists that
    repeat an id. *)
Theorem updateApproval_approve_exact :
  (∀ req s, Decision.expenses req = [] →
            updateApproval req s = (ExpensesRequired, s))
  ∧ (∀ req s report,
       Decision.action req = "approve" →
       truthy (Decision.id req) = true →
       Report_findById (Decision.id req) s = Some report →
       Report.status report = "pending" →
       Decision.expenses req ≠ [] →
       List.NoDup (Decision.expenses req) →
       (¬ sameSet (Decision.expenses req) (Report.expenses report) →
        updateApproval req s = (ExpenseMismatch, s))
       ∧ (∀ newStatus, fst (updateApproval req s) = ApprovalDone newStatus →
          sameSet (Decision.expenses req) (Report.expenses report))).
Proof.
  split.
  - intros req s Hnil. rewrite updateApproval_cases, Hnil. reflexivity.
  - intros req s report Hact Hid Hfind Hst Hne Hnodup.
    rewrite (updateApproval_found _ _ _ Hid Hfind), Hst. simpl.
    destruct (Nat.eqb_spec (length (Decision.expenses req)) 0) as [Hz|_].
    { apply length_zero_iff_nil in Hz. contradiction. }
    destruct (mismatch req report) eqn:Hguard.
    + split; [reflexivity|]. intros newStatus. simpl. discriminate.
    + assert (Hsame : sameSet (Decision.expenses req) (Report.expenses report)).
      { unfold mismatch in Hguard.
        rewrite Hact, String.eqb_refl, andb_true_l in Hguard.
        apply orb_false_elim in Hguard as [Hlen Hall].
        apply negb_false_iff in Hlen, Hall. apply Nat.eqb_eq in Hlen.
        assert (Hincl : incl (Decision.expenses req) (Report.expenses report)).
        { intros y Hy. apply includes_In.
          exact (proj1 (forallb_forall _ _) Hall y Hy). }
        intros y. split; [apply Hincl|].
        apply (NoDup_length_incl Hnodup); [lia|exact Hincl]. }
      split; [intros Hno; contradiction|intros _ _; exact Hsame].
Qed.

Lemma updateApproval_approve_exact_witness :
  updateApproval (ApprovalScenario.decision "approve" ["exp1"; "exp3"])
                 ApprovalScenario.store
  = (ExpenseMismatch, ApprovalScenario.store).
Proof.
  apply (proj2 updateApproval_approve_exact
           (ApprovalScenario.decision "approve" ["exp1"; "exp3"])
           ApprovalScenario.store ApprovalScenario.report).
  - reflexivity.
  - reflexivity.
  - reflexivity.
  - reflexivity.
  - discriminate.
  - repeat (constructor; [simpl; intuition discriminate|]). constructor.
  - intros Hsame. destruct (proj1 (Hsame "exp3")) as [H|[H|[]]];
      [simpl; auto|discriminate|discriminate].
Defined.

(** ** Rejecting part of a report (C4) *)

(** C4, counterexample. The empty id list is a strict subset of the stored
    set, and a reject call that carries it is turned down with "Expenses are
    required": the report stays pending and its expenses stay mapped. *)
Lemma reject_counterexample :
  ¬ rejectAsSpecified
      (ApprovalScenario.decision "reject" []) ApprovalScenario.store.
Proof.
  intros H.
  specialize (H ApprovalScenario.report eq_refl eq_refl eq_refl).
  assert (Hsub : strictSubset [] (Report.expenses ApprovalScenario.report)).
  { split; [intros x []|]. intros Hincl. apply (Hincl "exp1"). left. reflexivity. }
  destruct (H Hsub) as [(report' & Hfind & Hst) _].
  vm_compute in Hfind. injection Hfind as <-. discriminate.
Qed.

(** C4, amended. A reject call on a pending report whose id list is not
    empty and is a strict subset of the report's expense set is accepted: the
    report becomes rejected, every listed expense becomes rejected, every
    other expense of the report becomes approved, none of the report's
    expenses is left mapped, and the expense collection holds the same
    documents as before. *)
Theorem updateApproval_reject_partial req s report :
  Decision.action req = "reject" →
  truthy (Decision.id req) = true →
  Report_findById (Decision.id req) s = Some report →
  Report.status report = "pending" →
  Decision.expenses req ≠ [] →
  strictSubset (Decision.expenses req) (Report.expenses report) →
  fst (updateApproval req s) = ApprovalDone "rejected"
  ∧ rejectedOutcome req report (snd (updateApproval req s))
  ∧ map Expense._id (expenses (snd (updateApproval req s)))
    = map Expense._id (expenses s).
Proof.
  intros Hact Hid Hfind Hst Hne [Hincl _].
  assert (Happ : String.eqb (Decision.action req) "approve" = false)
    by (rewrite Hact; reflexivity).
  rewrite (updateApproval_found _ _ _ Hid Hfind), Hst. simpl.
  destruct (Nat.eqb_spec (length (Decision.expenses req)) 0) as [Hz|_].
  { apply length_zero_iff_nil in Hz. contradiction. }
  unfold mismatch. rewrite Happ. simpl.
  rewrite (castFailure_references _ _ _ _ _ Hfind Hincl). cbn [fst snd].
  split; [reflexivity|]. split; [split|].
  - exists (decide_update "rejected" (Decision.userId req)
                          (Decision.reason req) report).
    split; [|reflexivity]. unfold Report_findById.
    rewrite reports_decided, Happ.
    apply find_updateFirst_same; [reflexivity|exact Hfind].
  - intros e He Hstored.
    rewrite (expenses_decided_reject _ _ _ Happ) in He.
    apply in_map_iff in He as (e0 & <- & _).
    assert (Hsame : ∀ (a b : bool) st st',
      Expense._id (if a then Expense.setStatus st e0
                   else if b then Expense.setStatus st' e0 else e0)
      = Expense._id e0) by (intros [] [] ? ?; reflexivity).
    rewrite Hsame in *. clear Hsame.
    apply includes_In in Hstored. unfold inIds. rewrite Hstored.
    destruct (includes (Decision.expenses req) (Expense._id e0)) eqn:Hsup; simpl.
    + split; [reflexivity|]. split; [|discriminate].
      intros Hno. apply includes_In in Hsup. contradiction.
    + split; [|split].
      * intros Hin. apply includes_In in Hin. congruence.
      * reflexivity.
      * discriminate.
  - rewrite (expenses_decided_reject _ _ _ Happ), map_map. apply map_ext.
    intros e. destruct (inIds _ _); [reflexivity|].
    destruct (inIds _ _); reflexivity.
Qed.

Lemma updateApproval_reject_partial_witness :
  fst (updateApproval (ApprovalScenario.decision "reject" ["exp1"])
                      ApprovalScenario.store)
  = ApprovalDone "rejected"
  ∧ rejectedOutcome (ApprovalScenario.decision "reject" ["exp1"])
      ApprovalScenario.report
      (snd (updateApproval (ApprovalScenario.decision "reject" ["exp1"])
                           ApprovalScenario.store))
  ∧ map Expense._id
        (expenses (snd (updateApproval
                          (ApprovalScenario.decision "reject" ["exp1"])
                          ApprovalScenario.store)))
    = map Expense._id (expenses ApprovalScenario.store).
Proof.
  apply (updateApproval_reject_partial
           (ApprovalScenario.decision "reject" ["exp1"])
           ApprovalScenario.store ApprovalScenario.report).
  - reflexivity.
  - reflexivity.
  - reflexivity.
  - reflexivity.
  - discriminate.
  - split.
    + intros x [<-|[]]. simpl. auto.
    + intros Hincl. destruct (Hincl "exp2") as [H|[]]; [simpl; auto|].
      discriminate.
Defined.

(** ** The expense diff of updateReport (C9) *)

Lemma updateMany_guard ids st s :
  (if (0 <? length ids)%nat then Expense_updateMany ids st s else s)
  = Expense_updateMany ids st s.
Proof.
  destruct ids as [|id ids]; [|reflexivity]. simpl.
  destruct s. unfold Expense_updateMany, withExpenses. simpl.
  rewrite map_id. reflexivity.
Qed.

(** The answer and the store of every update, by cases on its guards. *)
Lemma updateReport_cases id body s :
  updateReport id body s =
  if negb (truthy id) then (ReportIdRequired, s)
  else match castFailure (castable s) "Report" [id] with
       | Some e => (InternalError e, s)
       | None =>
           match Report_findById id s with
           | None => (ReportNotFound, s)
           | Some report =>
               match castFailure (castable s) "Expense"
                                 (onlyInRequest body report) with
               | Some e => (InternalError e, s)
               | None =>
                   let s1 :=
                     diffed (default [] (Patch.expenses body))
                            (Report.expenses report) s in
                   let body' := backfilled report body s in
                   (ReportUpdated (Some (applyPatch body' report)),
                    withReports (updateFirst id (applyPatch body')) s1)
               end
           end
       end.
Proof.
  unfold updateReport, updateReport_body, onlyInRequest.
  destruct (truthy id); [|reflexivity]. simpl.
  unfold tryCatch, bind at 1, cast at 1.
  destruct (castFailure (castable s) "Report" [id]); [reflexivity|].
  unfold ret, bind at 1, query.
  destruct (Report_findById id s) as [report|] eqn:Hfind; [|reflexivity].
  assert (Hdiff : ∀ req rep,
    (if (0 <? length req)%nat then
       (if (0 <? length (List.filter (λ x, negb (includes rep x)) req))%nat
        then cast (castable s) "Expense"
                  (List.filter (λ x, negb (includes rep x)) req) ;;;
             write (Expense_updateMany
                      (List.filter (λ x, negb (includes rep x)) req) "mapped")
        else ret tt) ;;;
       (if (0 <? length (List.filter (λ x, negb (includes req x)) rep))%nat
        then write (Expense_updateMany
                      (List.filter (λ x, negb (includes req x)) rep) "draft")
        else ret tt)
     else ret tt) s
    = match castFailure (castable s) "Expense"
                        (List.filter (λ x, negb (includes rep x)) req) with
      | Some e => (Throw e, s)
      | None => (Next tt, diffed req rep s)
      end).
  { intros req rep. unfold diffed.
    set (only := List.filter (λ x, negb (includes rep x)) req).
    set (gone := List.filter (λ x, negb (includes req x)) rep).
    destruct (0 <? length req)%nat eqn:Hreq.
    2:{ destruct req; [reflexivity|discriminate]. }
    rewrite <- (updateMany_guard gone "draft"),
      <- (updateMany_guard only "mapped").
    unfold bind, cast, write, ret, throw.
    destruct (0 <? length only)%nat eqn:Hlen.
    - destruct (castFailure (castable s) "Expense" only); [reflexivity|].
      destruct (0 <? length gone)%nat; reflexivity.
    - destruct only; [|discriminate]. simpl.
      destruct (0 <? length gone)%nat; reflexivity. }
  unfold bind at 1. rewrite Hdiff.
  destruct (castFailure (castable s) "Expense" _); [reflexivity|].
  assert (Hreports : ∀ req rep, reports (diffed req rep s) = reports s).
  { intros req rep. unfold diffed. destruct (0 <? length req)%nat; reflexivity. }
  assert (Hfind' : ∀ req rep, Report_findById id (diffed req rep s) = Some report).
  { intros req rep. unfold Report_findById. rewrite Hreports. exact Hfind. }
  unfold backfilled. destruct (Report.reportId report);
    unfold_handler; unfold Report_findByIdAndUpdate, Report_countDocuments;
    rewrite ?Hfind', ?Hreports; reflexivity.
Qed.

(** The same for an update whose route names a stored report. *)
Lemma updateReport_found id body s report :
  truthy id = true →
  Report_findById id s = Some report →
  updateReport id body s =
  match castFailure (castable s) "Expense" (onlyInRequest body report) with
  | Some e => (InternalError e, s)
  | None =>
      (ReportUpdated (Some (applyPatch (backfilled report body s) report)),
       withReports (updateFirst id (applyPatch (backfilled report body s)))
         (diffed (default [] (Patch.expenses body))
                 (Report.expenses report) s))
  end.
Proof.
  intros Hid Hfind.
  rewrite updateReport_cases, Hid, (castFailure_found _ _ _ _ Hfind), Hfind.
  reflexivity.
Qed.





(** ** The wallet (C8) *)

Lemma sum_filter {A} (P Q : A → bool) (f : A → Z) (l : list A) :
  (∀ x, P x = Q x) →
  fold_right Z.add 0 (map f (List.filter P l)) = sumWhere Q f l.
Proof.
  intros Heq. induction l as [|x l IH]; simpl; [reflexivity|].
  rewrite <- Heq. destruct (P x); simpl; rewrite IH; reflexivity.
Qed.

(** The answer of getWallet by cases on what it reads. *)
Lemma getWallet_cases utcStartOfMonth utcEndOfMonth deductByName userId now s :
  getWallet utcStartOfMonth utcEndOfMonth deductByName userId now s =
  match User_findById userId s with
  | None => (UserNotFound, s)
  | Some user =>
      let advances :=
        transaction_find (utcStartOfMonth now) (utcEndOfMonth now) userId s in
      let exps :=
        Deduction_find (utcStartOfMonth now) (utcEndOfMonth now) userId s in
      match debitEntries deductByName exps with
      | None =>
          (InternalError "Cannot read properties of null (reading 'name')", s)
      | Some mappedData =>
          match User.tier user with
          | None =>
              (InternalError
                 "Cannot read properties of undefined (reading 'categories')",
               s)
          | Some _ =>
              (WalletDetails
                 (Wallet.mk
                    (fold_right Z.add 0 (map Transaction.amount advances))
                    (fold_right Z.add 0 (map Deduction.amount exps))
                    (fold_right Z.add 0 (map Transaction.amount advances)
                     - fold_right Z.add 0 (map Deduction.amount exps))
                    (map (λ advance,
                            Wallet.mkEntry
                              (displayId (Transaction._id advance))
                              (Transaction.amount advance)
                              (Transaction.createdAt advance) "credit"
                              (default "User" (Transaction.sender advance)))
                         advances
                     ++ mappedData)),
               s)
          end
      end
  end.
Proof.
  unfold getWallet, getWallet_body, tryCatch, bind, query, answer, prop,
    throw, ret.
  destruct (User_findById userId s) as [user|]; [|reflexivity].
  destruct (debitEntries deductByName _); [|reflexivity].
  destruct (User.tier user); [|reflexivity].
  rewrite !fold_left_sum, !Z.add_0_l. reflexivity.
Qed.

Lemma completedReceived_find from to userId s :
  fold_right Z.add 0
    (map Transaction.amount (transaction_find from to userId s))
  = completedReceived from to userId s.
Proof.
  unfold transaction_find, completedReceived. apply sum_filter.
  intros t. unfold within.
  destruct (from <=? _), (_ <=? to), (String.eqb _ userId),
    (String.eqb _ "completed"); reflexivity.
Qed.

Lemma walletDeducted_find from to userId s :
  fold_right Z.add 0 (map Deduction.amount (Deduction_find from to userId s))
  = walletDeducted from to userId s.
Proof.
  unfold Deduction_find, walletDeducted. apply sum_filter.
  intros d. unfold within.
  destruct (from <=? _), (_ <=? to), (String.eqb _ "wallet"),
    (Deduction.status d), (String.eqb _ userId); reflexivity.
Qed.

(** C8. On the claim's scenario getWallet answers as the claim says: one
    completed transaction of 500 and two wallet deductions of 120 and 30
    give the totals 500 and 150 and the balance 350.  But the entries of the
    answer read [name] off the populated [deductBy] of each wallet deduction
    without the test that the credit entries make on their sender: on the
    same transactions and deductions, when the deduction of 30 was made by
    someone who does not resolve, the sums the claim speaks of are still 500
    and 150, and the call is answered with an internal error.  The same
    happens to a user stored without a tier, at the read of
    [user.tier.categories]. *)
Theorem getWallet_unguarded_reads :
  (∃ wallet,
     getWallet (λ _, 0) (λ _, 100) WalletScenario.admins "staff1" 50
               WalletScenario.store
     = (WalletDetails wallet, WalletScenario.store)
     ∧ Wallet.totalAmount wallet = 500
     ∧ Wallet.totalExpenses wallet = 150
     ∧ Wallet.balanceAmount wallet = 350)
  ∧ completedReceived 0 100 "staff1" WalletScenario.unresolved = 500
  ∧ walletDeducted 0 100 "staff1" WalletScenario.unresolved = 150
  ∧ getWallet (λ _, 0) (λ _, 100) WalletScenario.admins "staff1" 50
              WalletScenario.unresolved
    = (InternalError "Cannot read properties of null (reading 'name')",
       WalletScenario.unresolved)
  ∧ getWallet (λ _, 0) (λ _, 100) WalletScenario.admins "staff1" 50
              WalletScenario.tierless
    = (InternalError
         "Cannot read properties of undefined (reading 'categories')",
       WalletScenario.tierless).
Proof.
  split.
  - eexists. split; [reflexivity|]. split; [|split]; reflexivity.
  - split; [reflexivity|]. split; [reflexivity|]. split; reflexivity.
Qed.

(** ** Report labels (C7) *)

Lemma pretty_N_char_nonzero x :
  (0 < x < 10)%N → pretty_N_char x ≠ "0"%char.
Proof.
  intros Hx.
  assert (x = 1 ∨ x = 2 ∨ x = 3 ∨ x = 4 ∨ x = 5 ∨ x = 6
          ∨ x = 7 ∨ x = 8 ∨ x = 9)%N as H by lia.
  repeat destruct H as [->|H]; try subst x; discriminate.
Qed.

(** The decimal digits of a positive number do not start with a zero. *)
Lemma pretty_N_go_head x : ∀ s,
  (0 < x)%N → ∃ c rest, pretty_N_go x s = String c rest ∧ c ≠ "0"%char.
Proof.
  induction (N.lt_wf_0 x) as [x _ IH]. intros s Hpos.
  rewrite pretty_N_go_step by exact Hpos.
  destruct (N.eq_dec (x `div` 10)%N 0%N) as [Hz|Hnz].
  - rewrite Hz, pretty_N_go_0. eexists _, _. split; [reflexivity|].
    apply pretty_N_char_nonzero.
    assert (Hlt : (x < 10)%N) by (apply N.div_small_iff in Hz; lia).
    rewrite N.mod_small by exact Hlt. split; assumption.
  - apply IH; [apply N.div_lt; lia|apply N.neq_0_lt_0; exact Hnz].
Qed.

Lemma pretty_nat_head (n : nat) :
  (0 < n)%nat → ∃ c rest, pretty n = String c rest ∧ c ≠ "0"%char.
Proof.
  intros Hn. unfold pretty, pretty_nat, pretty, pretty_N.
  destruct (decide (N.of_nat n = 0%N)); [lia|].
  apply pretty_N_go_head. lia.
Qed.

Lemma repeatChar_inj m : ∀ n c a resta b restb,
  c ≠ a → c ≠ b →
  repeatChar m c +:+ String a resta = repeatChar n c +:+ String b restb →
  String a resta = String b restb.
Proof.
  induction m as [|m IH]; intros [|n] c a resta b restb Ha Hb; simpl.
  - auto.
  - intros [= -> _]. contradiction.
  - intros [= <- _]. contradiction.
  - intros [= H]. eapply IH; eauto.
Qed.

Lemma formatReportId_inj (m n : nat) :
  (0 < m)%nat → (0 < n)%nat → formatReportId m = formatReportId n → m = n.
Proof.
  intros Hm Hn. unfold formatReportId, padStart. simpl. intros [= H].
  destruct (pretty_nat_head m Hm) as (a & resta & Ha & Hna).
  destruct (pretty_nat_head n Hn) as (b & restb & Hb & Hnb).
  apply (inj pretty). rewrite Ha, Hb in *.
  eapply repeatChar_inj; [| |exact H]; congruence.
Qed.

Lemma createNewReport_reports req reportId user s :
  ∃ r, reports (snd (createNewReport req reportId user s)) = reports s ++ [r]
       ∧ Report.reportId r = Some reportId.
Proof.
  unfold createNewReport. unfold_handler.
  destruct user as [[u t]|]; simpl; eauto.
Qed.

Lemma eventGate_reports req reportId user s :
  match eventGate req reportId user s with
  | (Next _, s') => s' = s
  | (_, s') => grew reportId s s'
  end.
Proof.
  unfold eventGate.
  destruct (Body.event (Request.body req)) as [eventId|]; [|reflexivity].
  destruct (truthy eventId); [|reflexivity].
  unfold bind at 1 2, query, prop.
  destruct (Event_findOne eventId s) as [event|]; simpl; [|left; reflexivity].
  destruct (String.eqb (Event.type event) "Admin"); [|reflexivity].
  unfold bind at 1 2, write.
  destruct (createNewReport_reports req reportId user
    (Expense_updateMany (Body.expenses (Request.body req)) "mapped" s))
    as (r & Hr & Hlabel).
  destruct (createNewReport _ _ _ _) as [[r'|r'|e] s']; simpl in *;
    right; exists r; auto.
Qed.

Lemma policyChecks_reports startOfMonth endOfMonth req reportId exps user s :
  grew reportId s
    (snd (tryCatch
            (policyChecks startOfMonth endOfMonth req reportId exps user) s)).
Proof.
  unfold policyChecks. unfold tryCatch, bind at 1 2 3 4 5 6, lift, query.
  destruct (aggregate exps []) as [ts|r|e]; simpl; try (left; reflexivity).
  destruct (checkCategories user ts) as [[]|r|e]; simpl;
    try (left; reflexivity).
  destruct (Report_findOne_overlap _ s); simpl; [left; reflexivity|].
  destruct (tierOf user "totalAmount") as [tier|r|e]; simpl;
    try (left; reflexivity).
  destruct (_ >? _); simpl; [left; reflexivity|].
  unfold bind, write.
  destruct (createNewReport_reports req reportId user
    (Expense_updateMany (Body.expenses (Request.body req)) "mapped" s))
    as (r & Hr & Hlabel).
  destruct (createNewReport _ _ _ _) as [[r'|r'|e] s']; simpl in *;
    right; exists r; auto.
Qed.

Lemma createReport_reports createReportSchema startOfMonth endOfMonth req s :
  grew (formatReportId (length (reports s) + 1)) s
       (snd (createReport createReportSchema startOfMonth endOfMonth req s)).
Proof.
  unfold createReport, createReport_body.
  destruct (createReportSchema (Request.body req)); [left; reflexivity|].
  destruct (Body.expenses (Request.body req)) as [|id ids] eqn:Hids;
    [left; reflexivity|].
  unfold tryCatch at 1, bind at 1 2 3 4, query, Report_countDocuments. simpl.
  pose proof (eventGate_reports req
    (formatReportId (length (reports s) + 1))
    (User_findOne_populate (Request.userId req) s) s) as Hgate.
  destruct (eventGate _ _ _ s) as [[[]|r|e] s']; simpl; try exact Hgate.
  subst s'.
  pose proof (policyChecks_reports startOfMonth endOfMonth req
    (formatReportId (length (reports s) + 1))
    (Expense_find (id :: ids) s)
    (User_findOne_populate (Request.userId req) s) s) as H.
  unfold tryCatch in H.
  destruct (policyChecks _ _ _ _ _ _ s) as [[r|r|e] s'']; exact H.
Qed.

Lemma updateReport_length id body s :
  length (reports (snd (updateReport id body s))) = length (reports s).
Proof.
  rewrite updateReport_cases.
  destruct (truthy id); [|reflexivity]. simpl.
  destruct (castFailure (castable s) "Report" [id]); [reflexivity|].
  destruct (Report_findById id s) as [report|]; [|reflexivity].
  destruct (castFailure (castable s) "Expense" _); [reflexivity|].
  unfold withReports. cbn [snd reports]. rewrite length_updateFirst.
  unfold diffed. destruct (0 <? length _)%nat; reflexivity.
Qed.

Lemma increasing_labels_NoDup numbers :
  StronglySorted Nat.lt numbers → Forall (λ n, (0 < n)%nat) numbers →
  List.NoDup (map (λ n, Some (formatReportId n)) numbers).
Proof.
  induction 1 as [|a l Hsorted IH Hall]; intros Hpos; simpl; constructor.
  - intros Hin. apply in_map_iff in Hin as (b & Heq & Hb).
    assert (Heq' : formatReportId b = formatReportId a) by congruence.
    pose proof (proj1 (List.Forall_forall _ _) Hall b Hb) as Hlt.
    apply formatReportId_inj in Heq'; [unfold Nat.lt in Hlt; lia| |].
    + exact (proj1 (List.Forall_forall _ _) (List.Forall_inv_tail Hpos) b Hb).
    + exact (List.Forall_inv Hpos).
  - apply IH. exact (List.Forall_inv_tail Hpos).
Qed.

Section SequenceFacts.

Variable createReportSchema : Body.t → option string.
Variables startOfMonth endOfMonth : Z → Z.

(** The creations of a sequence assign increasing numbers, each above the
    number of reports the sequence started from. *)
Lemma createdLabels_increasing ops : ∀ s,
  ∃ numbers,
    createdLabels createReportSchema startOfMonth endOfMonth ops s
    = map (λ n, Some (formatReportId n)) numbers
    ∧ StronglySorted Nat.lt numbers
    ∧ Forall (λ n, (length (reports s) < n)%nat) numbers.
Proof.
  induction ops as [|o ops IH]; intros s.
  - exists []. repeat split; constructor.
  - simpl createdLabels.
    destruct (IH (step createReportSchema startOfMonth endOfMonth o s))
      as (numbers & Hlabels & Hsorted & Hall).
    rewrite Hlabels. destruct o as [req|id body].
    + simpl in *.
      destruct (createReport_reports createReportSchema startOfMonth
                  endOfMonth req s) as [Hsame|(r & Hgrew & Hlabel)].
      * rewrite Hsame in *. rewrite skipn_all. exists numbers.
        repeat split; assumption.
      * rewrite Hgrew in *. rewrite skipn_app, skipn_all, Nat.sub_diag.
        simpl. rewrite Hlabel.
        exists ((length (reports s) + 1)%nat :: numbers).
        rewrite length_app in Hall. simpl in Hall.
        split; [reflexivity|]. split.
        -- constructor; [exact Hsorted|]. exact Hall.
        -- constructor; [lia|].
           eapply List.Forall_impl; [|exact Hall]. simpl. intros n Hn. lia.
    + simpl in *. rewrite updateReport_length in Hall.
      exists numbers. repeat split; assumption.
Qed.

End SequenceFacts.

(** C7, counterexample. Starting from one report without a label, the
    backfill gives it [Rep#002] (one report exists) and adds no document, so
    the report created next is numbered from the same count and is given
    [Rep#002] as well. *)
Lemma label_uniqueness_counterexample :
  ¬ labelsUniqueAsSpecified (λ _, None) (λ _, 0) (λ _, 10)
      LegacyScenario.ops LegacyScenario.store.
Proof.
  unfold labelsUniqueAsSpecified. intros H.
  assert (Hlabels :
    labels (run (λ _, None) (λ _, 0) (λ _, 10)
                LegacyScenario.ops LegacyScenario.store)
    = ["Rep#002"; "Rep#002"]) by reflexivity.
  rewrite Hlabels in H. apply NoDup_cons_iff in H as [Hin _].
  apply Hin. left. reflexivity.
Qed.

(** C7, amended. Every label the system assigns has the form [Rep#<N>] with
    [N] one plus the number of report documents at that time, zero-padded to
    three digits: a createReport call inserts at most one report, labelled
    so, and an updateReport call on a stored report without a label, with a
    patch whose expense ids cast, gives it that label and adds no document;
    a report created when two reports exist
    is labelled [Rep#003]; and labels of different positive numbers differ.
    Across any sequence of createReport and updateReport calls the labels
    given to the reports that the creations insert are those of strictly
    increasing numbers and are pairwise different.  Nothing is promised about
    a backfilled label against the others. *)
Theorem report_labels :
  (∀ (createReportSchema : Body.t → option string)
     (startOfMonth endOfMonth : Z → Z) req s,
     grew (formatReportId (length (reports s) + 1)) s
          (snd (createReport createReportSchema startOfMonth endOfMonth req s)))
  ∧ (∀ id body s report,
       truthy id = true →
       Report_findById id s = Some report →
       Report.reportId report = None →
       (∀ x, In x (default [] (Patch.expenses body)) → castable s x = true) →
       ∃ updated,
         fst (updateReport id body s) = ReportUpdated (Some updated)
         ∧ Report.reportId updated
           = Some (formatReportId (length (reports s) + 1))
         ∧ Report_findById id (snd (updateReport id body s)) = Some updated
         ∧ length (reports (snd (updateReport id body s)))
           = length (reports s))
  ∧ (∀ (createReportSchema : Body.t → option string)
       (startOfMonth endOfMonth : Z → Z) req s r,
       length (reports s) = 2%nat →
       reports (snd (createReport createReportSchema startOfMonth endOfMonth
                                  req s))
       = reports s ++ [r] →
       Report.reportId r = Some "Rep#003")
  ∧ (∀ m n : nat, (0 < m)%nat → (0 < n)%nat →
       formatReportId m = formatReportId n → m = n)
  ∧ (∀ (createReportSchema : Body.t → option string)
       (startOfMonth endOfMonth : Z → Z) ops s,
       ∃ numbers,
         createdLabels createReportSchema startOfMonth endOfMonth ops s
         = map (λ n, Some (formatReportId n)) numbers
         ∧ StronglySorted Nat.lt numbers
         ∧ Forall (λ n, (length (reports s) < n)%nat) numbers
         ∧ List.NoDup
             (createdLabels createReportSchema startOfMonth endOfMonth ops s)).
Proof.
  split; [exact createReport_reports|].
  split; [|split; [|split; [exact formatReportId_inj|]]].
  - intros id body s report Hid Hfind Hlabel Hcast.
    pose proof (updateReport_length id body s) as Hlen.
    revert Hlen. rewrite (updateReport_found _ _ _ _ Hid Hfind).
    rewrite castFailure_None.
    2:{ intros x Hx. apply Hcast. unfold onlyInRequest in Hx.
        apply filter_In in Hx as [Hx _]. exact Hx. }
    cbn [negb fst snd]. intros Hlen.
    eexists. split; [reflexivity|]. split; [|split; [|exact Hlen]].
    + unfold backfilled. rewrite Hlabel. reflexivity.
    + unfold Report_findById, withReports. cbn [reports].
      apply find_updateFirst_same; [reflexivity|].
      unfold diffed. destruct (0 <? length _)%nat; exact Hfind.
  - intros schema som eom req s r Hlen Hgrew.
    destruct (createReport_reports schema som eom req s)
      as [Hsame|(r' & Hgrew' & Hlabel)].
    + rewrite Hsame in Hgrew. apply (f_equal (@length _)) in Hgrew.
      rewrite length_app in Hgrew. simpl in Hgrew. lia.
    + rewrite Hgrew' in Hgrew. apply app_inj_tail in Hgrew as [_ ->].
      rewrite Hlabel, Hlen. reflexivity.
  - intros schema som eom ops s.
    destruct (createdLabels_increasing schema som eom ops s)
      as (numbers & Hlabels & Hsorted & Hall).
    exists numbers. split; [exact Hlabels|]. split; [exact Hsorted|].
    split; [exact Hall|]. rewrite Hlabels.
    apply increasing_labels_NoDup; [exact Hsorted|].
    eapply List.Forall_impl; [|exact Hall]. simpl. intros n Hn. lia.
Qed.

Lemma report_labels_witness :
  ∃ updated,
    fst (updateReport "rep0" LegacyScenario.emptyPatch LegacyScenario.store)
    = ReportUpdated (Some updated)
    ∧ Report.reportId updated
      = Some (formatReportId (length (reports LegacyScenario.store) + 1))
    ∧ Report_findById "rep0"
        (snd (updateReport "rep0" LegacyScenario.emptyPatch
                           LegacyScenario.store))
      = Some updated
    ∧ length (reports (snd (updateReport "rep0" LegacyScenario.emptyPatch
                                         LegacyScenario.store)))
      = length (reports LegacyScenario.store).
Proof.
  apply (proj1 (proj2 report_labels) "rep0" LegacyScenario.emptyPatch
           LegacyScenario.store
           (Report.mk "rep0" None "staff1" (Some "event1") [] "Offsite"
                      "drafted" 5 [] None)).
  - reflexivity.
  - reflexivity.
  - reflexivity.
  - intros x [].
Defined.

(** * Further properties of the controller *)

Ltac unfold_act :=
  unfold caught, andThen, reading, writing, stop, raise, go, field in *.

(** ** reimburseReport *)

(** The answer and the store of every reimbursement, by cases on its
    guards. *)
Lemma reimburseReport_cases dflt req s :
  reimburseReport dflt req s =
  if negb (truthy (Reimbursement.id req))
  then (respond 400 "Approval ID is required", s)
  else match castFailure (castable s) "Report" [Reimbursement.id req] with
       | Some e => (respond 500 ("Internal Server Error " +:+ e), s)
       | None =>
           match Report_findById (Reimbursement.id req) s with
           | None => (respond 400 "Report not found", s)
           | Some report =>
               (respond 200 "Reimbursed successfully",
                Notification_create
                  (Notification.mk (Report._id report) (Report.user report)
                                   "reimbursed")
                  (withReports
                     (updateFirst (Reimbursement.id req) reimburse_update)
                     (if amountGiven (Reimbursement.amount req)
                      then withDeductions
                             (λ ds, ds ++ [bankDeduction dflt req report]) s
                      else s)))
           end
       end.
Proof.
  unfold reimburseReport, reimburseReport_body.
  destruct (truthy (Reimbursement.id req)); [|reflexivity]. simpl.
  unfold caught, andThen at 1, casting.
  destruct (castFailure (castable s) "Report" [Reimbursement.id req]);
    [reflexivity|].
  unfold go, andThen at 1, reading.
  destruct (Report_findById (Reimbursement.id req) s) as [report|] eqn:Hfind;
    [|reflexivity].
  unfold Report_update. unfold_act.
  destruct (amountGiven (Reimbursement.amount req)); simpl;
    unfold Report_findById in *; simpl; rewrite Hfind; reflexivity.
Qed.

(** The same for a reimbursement whose route names a stored report. *)
Lemma reimburseReport_stored dflt req s report :
  truthy (Reimbursement.id req) = true →
  Report_findById (Reimbursement.id req) s = Some report →
  reimburseReport dflt req s =
  (respond 200 "Reimbursed successfully",
   Notification_create
     (Notification.mk (Report._id report) (Report.user report) "reimbursed")
     (withReports
        (updateFirst (Reimbursement.id req) reimburse_update)
        (if amountGiven (Reimbursement.amount req)
         then withDeductions (λ ds, ds ++ [bankDeduction dflt req report]) s
         else s))).
Proof.
  intros Hid Hfind.
  rewrite reimburseReport_cases, Hid, (castFailure_found _ _ _ _ Hfind), Hfind.
  reflexivity.
Qed.

(** X1. A reimbursement that names a stored report goes through whatever
    the status of the report is: the report becomes reimbursed, no other
    report and no expense changes, the owner is notified, and a bank
    deduction of the amount is recorded exactly when the amount is above
    zero. *)
Theorem reimburseReport_any_status (dflt : bool) req s report :
  truthy (Reimbursement.id req) = true →
  Report_findById (Reimbursement.id req) s = Some report →
  let result := reimburseReport dflt req s in
  fst result = respond 200 "Reimbursed successfully"
  ∧ Report_findById (Reimbursement.id req) (snd result)
    = Some (reimburse_update report)
  ∧ (∀ id', id' ≠ Reimbursement.id req →
       Report_findById id' (snd result) = Report_findById id' s)
  ∧ expenses (snd result) = expenses s
  ∧ notifications (snd result)
    = notifications s
      ++ [Notification.mk (Report._id report) (Report.user report)
                          "reimbursed"]
  ∧ deductions (snd result)
    = deductions s
      ++ (if amountGiven (Reimbursement.amount req)
          then [bankDeduction dflt req report] else []).
Proof.
  intros Hid Hfind result. unfold result.
  rewrite (reimburseReport_stored _ _ _ _ Hid Hfind). cbn [negb fst snd].
  split; [reflexivity|].
  destruct (amountGiven (Reimbursement.amount req)); simpl;
    unfold Report_findById in *; simpl.
  - repeat split.
    + apply find_updateFirst_same; [reflexivity|exact Hfind].
    + intros id' Hne. apply find_updateFirst_other; [reflexivity|exact Hne].
  - rewrite app_nil_r. repeat split.
    + apply find_updateFirst_same; [reflexivity|exact Hfind].
    + intros id' Hne. apply find_updateFirst_other; [reflexivity|exact Hne].
Qed.

Lemma reimburseReport_any_status_witness :
  let result :=
    reimburseReport true
      (Reimbursement.mk "rep1" "paid" (Some 40) "finance1" 7 "ded1")
      ApprovalScenario.store in
  fst result = respond 200 "Reimbursed successfully"
  ∧ Report_findById "rep1" (snd result)
    = Some (reimburse_update ApprovalScenario.report)
  ∧ (∀ id', id' ≠ "rep1" →
       Report_findById id' (snd result)
       = Report_findById id' ApprovalScenario.store)
  ∧ expenses (snd result) = expenses ApprovalScenario.store
  ∧ notifications (snd result)
    = notifications ApprovalScenario.store
      ++ [Notification.mk "rep1" "staff1" "reimbursed"]
  ∧ deductions (snd result)
    = deductions ApprovalScenario.store
      ++ [Deduction.mk "ded1" "staff1" 40 "finance1" 7 "rep1" "bank" true].
Proof.
  apply (reimburseReport_any_status true
           (Reimbursement.mk "rep1" "paid" (Some 40) "finance1" 7 "ded1")
           ApprovalScenario.store ApprovalScenario.report).
  - reflexivity.
  - reflexivity.
Defined.



(** What a reimbursement that finds its report leaves for the next one. *)
Lemma reimburseReport_found (dflt : bool) req s report :
  truthy (Reimbursement.id req) = true →
  Report_findById (Reimbursement.id req) s = Some report →
  fst (reimburseReport dflt req s)
  = respond 200 "Reimbursed successfully"
  ∧ Report_findById (Reimbursement.id req)
      (snd (reimburseReport dflt req s))
    = Some (reimburse_update report)
  ∧ deductions (snd (reimburseReport dflt req s))
    = deductions s
      ++ (if amountGiven (Reimbursement.amount req)
          then [bankDeduction dflt req report] else []).
Proof.
  intros Hid Hfind.
  rewrite (reimburseReport_stored _ _ _ _ Hid Hfind). cbn [negb fst snd].
  split; [reflexivity|].
  destruct (amountGiven (Reimbursement.amount req)); simpl;
    unfold Report_findById in *; simpl.
  - split; [|reflexivity].
    apply find_updateFirst_same; [reflexivity|exact Hfind].
  - rewrite app_nil_r. split; [|reflexivity].
    apply find_updateFirst_same; [reflexivity|exact Hfind].
Qed.

(** X3. Nothing guards against reimbursing twice: a second reimbursement of
    the same report goes through like the first, and with amounts above zero
    both bank deductions are on record. *)
Theorem reimburseReport_twice (dflt : bool) req1 req2 s report :
  truthy (Reimbursement.id req1) = true →
  Reimbursement.id req2 = Reimbursement.id req1 →
  Report_findById (Reimbursement.id req1) s = Some report →
  amountGiven (Reimbursement.amount req1) = true →
  amountGiven (Reimbursement.amount req2) = true →
  let first := reimburseReport dflt req1 s in
  let second := reimburseReport dflt req2 (snd first) in
  fst first = respond 200 "Reimbursed successfully"
  ∧ fst second = respond 200 "Reimbursed successfully"
  ∧ deductions (snd second)
    = deductions s
      ++ [bankDeduction dflt req1 report;
          bankDeduction dflt req2 (reimburse_update report)].
Proof.
  intros Hid Hsame Hfind Ha1 Ha2 first second.
  destruct (reimburseReport_found dflt req1 s report Hid Hfind)
    as (Hr1 & Hfind1 & Hd1).
  fold first in Hr1, Hfind1, Hd1. rewrite Ha1 in Hd1.
  rewrite <- Hsame in Hid, Hfind1.
  destruct (reimburseReport_found dflt req2 (snd first)
              (reimburse_update report) Hid Hfind1)
    as (Hr2 & _ & Hd2).
  fold second in Hr2, Hd2. rewrite Ha2, Hd1, <- app_assoc in Hd2.
  auto.
Qed.

Lemma reimburseReport_twice_witness :
  let first :=
    reimburseReport true
      (Reimbursement.mk "rep1" "paid" (Some 40) "finance1" 7 "ded1")
      ApprovalScenario.store in
  let second :=
    reimburseReport true
      (Reimbursement.mk "rep1" "again" (Some 25) "finance1" 8 "ded2")
      (snd first) in
  fst first = respond 200 "Reimbursed successfully"
  ∧ fst second = respond 200 "Reimbursed successfully"
  ∧ deductions (snd second)
    = deductions ApprovalScenario.store
      ++ [Deduction.mk "ded1" "staff1" 40 "finance1" 7 "rep1" "bank" true;
          Deduction.mk "ded2" "staff1" 25 "finance1" 8 "rep1" "bank" true].
Proof.
  apply (reimburseReport_twice true
           (Reimbursement.mk "rep1" "paid" (Some 40) "finance1" 7 "ded1")
           (Reimbursement.mk "rep1" "again" (Some 25) "finance1" 8 "ded2")
           ApprovalScenario.store ApprovalScenario.report).
  - reflexivity.
  - reflexivity.
  - reflexivity.
  - reflexivity.
  - reflexivity.
Defined.

(** The wallet reads the users, the transactions and the wallet deductions
    of the month, and nothing else. *)
Lemma getWallet_reads utcStartOfMonth utcEndOfMonth deductByName userId now
    s s' :
  users s' = users s →
  transactions s' = transactions s →
  Deduction_find (utcStartOfMonth now) (utcEndOfMonth now) userId s'
  = Deduction_find (utcStartOfMonth now) (utcEndOfMonth now) userId s →
  fst (getWallet utcStartOfMonth utcEndOfMonth deductByName userId now s')
  = fst (getWallet utcStartOfMonth utcEndOfMonth deductByName userId now s).
Proof.
  intros Husers Htx Hded. rewrite !getWallet_cases.
  unfold User_findById. rewrite Husers.
  destruct (find _ (users s)) as [user|]; [|reflexivity].
  cbv zeta. rewrite Hded. unfold transaction_find. rewrite Htx.
  destruct (debitEntries deductByName _); [|reflexivity].
  destruct (User.tier user); reflexivity.
Qed.

(** X4. A reimbursement never moves a wallet: its deduction has mode
    [bank], which the wallet does not count, so every user's wallet reads
    the same before and after it. *)
Theorem reimburseReport_keeps_wallet
    (utcStartOfMonth utcEndOfMonth : Z → Z)
    (deductByName : string → option string) (dflt : bool) req s userId now :
  fst (getWallet utcStartOfMonth utcEndOfMonth deductByName userId now
         (snd (reimburseReport dflt req s)))
  = fst (getWallet utcStartOfMonth utcEndOfMonth deductByName userId now s).
Proof.
  apply getWallet_reads; rewrite reimburseReport_cases;
    destruct (truthy (Reimbursement.id req)); simpl; try reflexivity;
    destruct (castFailure (castable s) "Report" [Reimbursement.id req]);
    try reflexivity;
    destruct (Report_findById (Reimbursement.id req) s); simpl;
    try reflexivity;
    destruct (amountGiven (Reimbursement.amount req)); simpl;
    try reflexivity.
  unfold Deduction_find. simpl. rewrite List.filter_app. simpl.
  rewrite !andb_false_r. simpl. rewrite app_nil_r. reflexivity.
Qed.

(** ** getCategory *)

Lemma lowerChar_upperChar c : lowerChar (upperChar c) = lowerChar c.
Proof. destruct c as [[] [] [] [] [] [] [] []]; reflexivity. Qed.

Lemma toLowerCase_capitalize title :
  toLowerCase (capitalize title) = toLowerCase title.
Proof.
  destruct title as [|c rest]; simpl; [reflexivity|].
  rewrite lowerChar_upperChar. reflexivity.
Qed.

Lemma asciiOnly_capitalize title :
  asciiOnly title = true → asciiOnly (capitalize title) = true.
Proof.
  destruct title as [|c rest]; simpl; [reflexivity|].
  intros H. apply andb_prop in H as [Hc Hrest]. rewrite Hrest, andb_true_r.
  revert Hc. destruct c as [[] [] [] [] [] [] [] []]; vm_compute; congruence.
Qed.

Lemma findCategory_Some cats title c :
  findCategory cats title = Some c →
  In c cats ∧ toLowerCase (Category.title c) = toLowerCase title.
Proof.
  unfold findCategory. intros H. apply find_some in H as [Hin Heq].
  apply String.eqb_eq in Heq. auto.
Qed.

Lemma findCategory_offered cats c :
  In c cats →
  ∃ c', findCategory cats (capitalize (Category.title c)) = Some c'.
Proof.
  intros Hin.
  destruct (findCategory cats (capitalize (Category.title c))) as [c'|] eqn:H;
    [eauto|].
  unfold findCategory in H. pose proof (find_none _ _ H c Hin) as Hc.
  simpl in Hc. rewrite toLowerCase_capitalize, String.eqb_refl in Hc.
  discriminate.
Qed.

Lemma NoDup_map_eq {A B} (f : A → B) (l : list A) a b :
  List.NoDup (map f l) → In a l → In b l → f a = f b → a = b.
Proof.
  induction l as [|x l IH]; simpl; [tauto|].
  intros Hnd [->|Ha] [->|Hb] Heq; try reflexivity.
  - apply NoDup_cons_iff in Hnd as [Hnot _]. exfalso. apply Hnot.
    rewrite Heq. apply in_map. exact Hb.
  - apply NoDup_cons_iff in Hnd as [Hnot _]. exfalso. apply Hnot.
    rewrite <- Heq. apply in_map. exact Ha.
  - apply NoDup_cons_iff in Hnd as [_ Hnd]. auto.
Qed.

(** The answer of getCategory by cases on the user and the tier. *)
Lemma getCategory_cases userId s :
  getCategory userId s =
  match User_findOne_populate userId s with
  | None => (respond 404 "User not found", s)
  | Some (_, None) =>
      (respond 500
         "Internal Server Error Cannot read properties of null (reading 'categories')",
       s)
  | Some (_, Some tier) =>
      (respondWith 200 "Categories found"
         (map (λ item, capitalize (Category.title item))
              (List.filter (λ item, Category.status item)
                           (Tier.categories tier))),
       s)
  end.
Proof.
  unfold getCategory, getCategory_body. unfold_act.
  destruct (User_findOne_populate userId s) as [[u [tier|]]|]; reflexivity.
Qed.

(** X5. getCategory reads and never writes.  An unknown user is answered
    404 and a user whose tier does not resolve 500; otherwise the titles on
    offer are exactly the capitalised titles of the enabled categories of the
    user's tier, one for each of them: a disabled category is offered under
    no title of its own. *)
Theorem getCategory_offers userId s :
  snd (getCategory userId s) = s
  ∧ (User_findOne_populate userId s = None →
     fst (getCategory userId s) = respond 404 "User not found")
  ∧ (∀ u, User_findOne_populate userId s = Some (u, None) →
     Reply.code (fst (getCategory userId s)) = 500)
  ∧ (∀ u tier, User_findOne_populate userId s = Some (u, Some tier) →
     ∃ titles,
       fst (getCategory userId s) = respondWith 200 "Categories found" titles
       ∧ length titles
         = length (List.filter (λ c, Category.status c) (Tier.categories tier))
       ∧ ∀ title, In title titles ↔
           ∃ c, In c (Tier.categories tier) ∧ Category.status c = true
                ∧ title = capitalize (Category.title c)).
Proof.
  rewrite getCategory_cases.
  destruct (User_findOne_populate userId s) as [[u [tier|]]|]; simpl.
  - split; [reflexivity|]. split; [discriminate|].
    split; [intros u'; discriminate|].
    intros u' tier' [= <- <-]. eexists. split; [reflexivity|].
    split; [apply length_map|]. intros title. rewrite in_map_iff. split.
    + intros (c & <- & Hin). apply filter_In in Hin as [Hin Hst]. eauto.
    + intros (c & Hin & Hst & ->). exists c. split; [reflexivity|].
      apply filter_In. auto.
  - split; [reflexivity|]. split; [discriminate|].
    split; [intros u' _; reflexivity|]. intros u' tier'. discriminate.
  - split; [reflexivity|]. split; [reflexivity|].
    split; [intros u'; discriminate|]. intros u' tier'. discriminate.
Qed.

Lemma getCategory_offers_witness :
  ∃ titles,
    fst (getCategory "staff1" TravelScenario.store)
    = respondWith 200 "Categories found" titles
    ∧ length titles
      = length (List.filter (λ c, Category.status c)
                            (Tier.categories TravelScenario.tier))
    ∧ ∀ title, In title titles ↔
        ∃ c, In c (Tier.categories TravelScenario.tier)
             ∧ Category.status c = true
             ∧ title = capitalize (Category.title c).
Proof.
  apply (proj2 (proj2 (proj2 (getCategory_offers "staff1"
                                TravelScenario.store)))
           TravelScenario.user TravelScenario.tier).
  reflexivity.
Defined.

(** X6. For a tier whose titles are written in ASCII characters, where the
    letter case of the model is that of JavaScript: every title that
    getCategory offers is one that createReport's category check finds in
    the tier; and when the tier's titles differ pairwise up to letter case,
    the category found is the enabled one the title was made from, so a
    numeric total filed under an offered title passes the check whenever it
    is within that category's cap. *)
Theorem getCategory_titles_accepted userId s u tier :
  User_findOne_populate userId s = Some (u, Some tier) →
  (∀ c, In c (Tier.categories tier) → asciiOnly (Category.title c) = true) →
  ∃ titles,
    fst (getCategory userId s) = respondWith 200 "Categories found" titles
    ∧ (∀ title, In title titles →
       asciiOnly title = true
       ∧ ∃ c, findCategory (Tier.categories tier) title = Some c)
    ∧ (List.NoDup (map (λ c, toLowerCase (Category.title c))
                       (Tier.categories tier)) →
       ∀ title, In title titles →
       ∃ c, findCategory (Tier.categories tier) title = Some c
            ∧ Category.status c = true
            ∧ title = capitalize (Category.title c)
            ∧ ∀ total, total ≤ Category.maxAmount c →
                checkCategories (Some (u, Some tier)) [(title, Num total)]
                = Next tt).
Proof.
  intros Huser Hascii. rewrite getCategory_cases, Huser. simpl.
  eexists. split; [reflexivity|]. split.
  - intros title Hin. apply in_map_iff in Hin as (c & <- & Hin).
    apply filter_In in Hin as [Hin _]. split.
    + apply asciiOnly_capitalize, Hascii, Hin.
    + apply findCategory_offered. exact Hin.
  - intros Hnodup title Hin. apply in_map_iff in Hin as (c & <- & Hin).
    apply filter_In in Hin as [Hin Hst].
    destruct (findCategory_offered _ _ Hin) as [c' Hfind].
    pose proof (findCategory_Some _ _ _ Hfind) as [Hin' Hlow].
    rewrite toLowerCase_capitalize in Hlow.
    assert (c' = c) as ->.
    { eapply (NoDup_map_eq (λ c, toLowerCase (Category.title c)));
        eassumption. }
    exists c. repeat split; try assumption.
    intros total Hle. simpl. rewrite Hfind, Hst. simpl.
    destruct (Z.gtb_spec total (Category.maxAmount c)); [lia|reflexivity].
Qed.

Lemma getCategory_titles_accepted_witness :
  ∃ titles,
    fst (getCategory "staff1" TravelScenario.store)
    = respondWith 200 "Categories found" titles
    ∧ (∀ title, In title titles →
       asciiOnly title = true
       ∧ ∃ c, findCategory (Tier.categories TravelScenario.tier) title = Some c)
    ∧ (List.NoDup (map (λ c, toLowerCase (Category.title c))
                       (Tier.categories TravelScenario.tier)) →
       ∀ title, In title titles →
       ∃ c, findCategory (Tier.categories TravelScenario.tier) title = Some c
            ∧ Category.status c = true
            ∧ title = capitalize (Category.title c)
            ∧ ∀ total, total ≤ Category.maxAmount c →
                checkCategories
                  (Some (TravelScenario.user, Some TravelScenario.tier))
                  [(title, Num total)]
                = Next tt).
Proof.
  apply (getCategory_titles_accepted "staff1" TravelScenario.store
           TravelScenario.user TravelScenario.tier).
  - reflexivity.
  - intros c [<-|[]]. reflexivity.
Defined.

(** ** createEvent and updateEvent *)

Lemma find_app_None {A} (f : A → bool) (l : list A) x :
  find f l = None → find f (l ++ [x]) = if f x then Some x else None.
Proof.
  induction l as [|y l IH]; simpl; [reflexivity|].
  destruct (f y); [discriminate|exact IH].
Qed.


(** X7. An event made by createEvent has type [User] whatever the body
    says, so a report attached to it goes through the event gate without the
    Admin shortcut and its eligibility checks run; a body that the schema
    turns down is answered 400 and inserts nothing. *)
Theorem createEvent_no_bypass :
  (∀ (EventBody : Type) (createUserEventSchema : EventBody → option string)
     body userId newId s,
     createUserEventSchema body = None →
     truthy newId = true →
     Event_findOne newId s = None →
     let result :=
       createEvent EventBody createUserEventSchema body userId newId s in
     fst result
     = respondWith 200 "Event created successfully..!" (Event.mk newId "User")
     ∧ events (snd result) = events s ++ [Event.mk newId "User"]
     ∧ ∀ req, Body.event (Request.body req) = Some newId →
         adminBypass req (snd result) = false
         ∧ eventMissing req (snd result) = false)
  ∧ (∀ (EventBody : Type) (createUserEventSchema : EventBody → option string)
       body userId newId s details,
       createUserEventSchema body = Some details →
       createEvent EventBody createUserEventSchema body userId newId s
       = (respond 400 ("Invalid input: " +:+ details), s)).
Proof.
  split.
  - intros EventBody schema body userId newId s Hschema Hid Hfresh result.
    unfold result, createEvent, createEvent_body. rewrite Hschema.
    unfold_act. simpl. split; [reflexivity|]. split; [reflexivity|].
    intros req Hevent. unfold adminBypass, eventMissing, Event_findOne in *.
    rewrite Hevent, Hid. simpl.
    rewrite (find_app_None _ _ _ Hfresh). simpl.
    rewrite String.eqb_refl. split; reflexivity.
  - intros EventBody schema body userId newId s details Hschema.
    unfold createEvent, createEvent_body. rewrite Hschema. reflexivity.
Qed.

Lemma createEvent_no_bypass_witness :
  let result :=
    createEvent unit (λ _, None) tt "staff1" "event1" TravelScenario.store in
  fst result
  = respondWith 200 "Event created successfully..!" (Event.mk "event1" "User")
  ∧ events (snd result)
    = events TravelScenario.store ++ [Event.mk "event1" "User"]
  ∧ ∀ req, Body.event (Request.body req) = Some "event1" →
      adminBypass req (snd result) = false
      ∧ eventMissing req (snd result) = false.
Proof.
  apply (proj1 createEvent_no_bypass unit (λ _, None) tt "staff1" "event1"
           TravelScenario.store).
  - reflexivity.
  - reflexivity.
  - reflexivity.
Defined.

Lemma castable_event id s e :
  In e (events s) → Event._id e = id → castable s id = true.
Proof.
  intros Hin <-. unfold castable. apply orb_true_intro. left.
  apply includes_In. unfold objectIds. rewrite !in_app_iff.
  do 3 right. left. apply in_map. exact Hin.
Qed.




(** ** The Admin shortcut of createReport *)






(** ** createtransaction *)

Lemma sumWhere_app {A} (P : A → bool) (f : A → Z) (l : list A) x :
  sumWhere P f (l ++ [x]) = sumWhere P f l + (if P x then f x else 0).
Proof.
  unfold sumWhere. induction l as [|y l IH]; simpl.
  - destruct (P x); lia.
  - rewrite IH. destruct (P y); lia.
Qed.




(** ** What a decision writes *)

Lemma expenses_decided_approve req report s :
  String.eqb (Decision.action req) "approve" = true →
  expenses (decided req report s)
  = map (λ e,
           if inIds (Decision.expenses req) (Expense._id e)
           then Expense.setStatus "approved" e else e)
        (expenses s).
Proof. intros Hact. unfold decided, noted. rewrite Hact. reflexivity. Qed.

Lemma notifications_decided req report s :
  notifications (decided req report s)
  = notifications s
    ++ [Notification.mk (Report._id report) (Report.user report)
          (if String.eqb (Decision.action req) "approve"
           then "approved" else "rejected")].
Proof.
  unfold decided, noted. destruct (String.eqb (Decision.action req) "approve");
    reflexivity.
Qed.

(** X12. An approve decision on a pending report whose id list and stored
    expense list are free of repetitions and hold the same ids is accepted:
    the report becomes approved with the deciding approver and the reason
    appended to its history, every expense of the report becomes approved,
    every other expense is left as it was, and the report's owner is
    notified. *)
Theorem updateApproval_approve_outcome req s report :
  Decision.action req = "approve" →
  truthy (Decision.id req) = true →
  Report_findById (Decision.id req) s = Some report →
  Report.status report = "pending" →
  Decision.expenses req ≠ [] →
  List.NoDup (Decision.expenses req) →
  List.NoDup (Report.expenses report) →
  sameSet (Decision.expenses req) (Report.expenses report) →
  let result := updateApproval req s in
  fst result = ApprovalDone "approved"
  ∧ Report_findById (Decision.id req) (snd result)
    = Some (decide_update "approved" (Decision.userId req)
                          (Decision.reason req) report)
  ∧ notifications (snd result)
    = notifications s
      ++ [Notification.mk (Report._id report) (Report.user report) "approved"]
  ∧ (∀ e, In e (expenses (snd result)) →
       In (Expense._id e) (Report.expenses report) →
       Expense.status e = "approved")
  ∧ (∀ e, In e (expenses s) →
       ¬ In (Expense._id e) (Report.expenses report) →
       In e (expenses (snd result))).
Proof.
  intros Hact Hid Hfind Hst Hne Hnd Hnd' Hsame result.
  assert (Happ : String.eqb (Decision.action req) "approve" = true)
    by (rewrite Hact; reflexivity).
  assert (Hguard : mismatch req report = false).
  { unfold mismatch. rewrite Happ. simpl. apply orb_false_intro.
    - apply negb_false_iff, Nat.eqb_eq. apply Nat.le_antisymm.
      + apply NoDup_incl_length; [exact Hnd'|]. intros x Hx. apply Hsame, Hx.
      + apply NoDup_incl_length; [exact Hnd|]. intros x Hx. apply Hsame, Hx.
    - apply negb_false_iff, forallb_forall. intros x Hx.
      apply includes_In, Hsame, Hx. }
  unfold result. rewrite (updateApproval_found _ _ _ Hid Hfind), Hst. simpl.
  destruct (Nat.eqb_spec (length (Decision.expenses req)) 0) as [Hz|_].
  { apply length_zero_iff_nil in Hz. contradiction. }
  rewrite Hguard, Happ.
  rewrite (castFailure_references _ _ _ _ _ Hfind
             (mismatch_incl _ _ Happ Hguard)).
  cbn [fst snd].
  split; [reflexivity|]. split; [|split; [|split]].
  - unfold Report_findById. rewrite reports_decided, Happ.
    apply find_updateFirst_same; [reflexivity|exact Hfind].
  - rewrite notifications_decided, Happ. reflexivity.
  - intros e He Hin. rewrite (expenses_decided_approve _ _ _ Happ) in He.
    apply in_map_iff in He as (e0 & <- & _).
    assert (Hlisted : inIds (Decision.expenses req) (Expense._id e0) = true).
    { apply includes_In, Hsame.
      destruct (inIds (Decision.expenses req) (Expense._id e0));
        exact Hin. }
    rewrite Hlisted. reflexivity.
  - intros e He Hout. rewrite (expenses_decided_approve _ _ _ Happ).
    apply in_map_iff. exists e. split; [|exact He].
    assert (Hn : inIds (Decision.expenses req) (Expense._id e) = false).
    { apply includes_not_In. intros Hin. apply Hout, Hsame, Hin. }
    rewrite Hn. reflexivity.
Qed.

Lemma updateApproval_approve_outcome_witness :
  let result :=
    updateApproval (ApprovalScenario.decision "approve" ["exp2"; "exp1"])
                   ApprovalScenario.store in
  fst result = ApprovalDone "approved"
  ∧ Report_findById "rep1" (snd result)
    = Some (decide_update "approved" "approver1" "fine"
                          ApprovalScenario.report)
  ∧ notifications (snd result)
    = notifications ApprovalScenario.store
      ++ [Notification.mk "rep1" "staff1" "approved"]
  ∧ (∀ e, In e (expenses (snd result)) →
       In (Expense._id e) (Report.expenses ApprovalScenario.report) →
       Expense.status e = "approved")
  ∧ (∀ e, In e (expenses ApprovalScenario.store) →
       ¬ In (Expense._id e) (Report.expenses ApprovalScenario.report) →
       In e (expenses (snd result))).
Proof.
  apply (updateApproval_approve_outcome
           (ApprovalScenario.decision "approve" ["exp2"; "exp1"])
           ApprovalScenario.store ApprovalScenario.report).
  - reflexivity.
  - reflexivity.
  - reflexivity.
  - reflexivity.
  - discriminate.
  - repeat (constructor; [simpl; intuition discriminate|]). constructor.
  - repeat (constructor; [simpl; intuition discriminate|]). constructor.
  - intros x. simpl. tauto.
Defined.

(** X13. Every action other than [approve] is a rejection, and a rejection
    does not look at what the report holds: on a pending report with a
    non-empty id list the report becomes rejected and its owner is notified.
    When every listed id casts, every stored expense whose id is listed
    becomes rejected, whether or not it is an expense of that report.  When a
    listed id is malformed, the cast throws after the report is written: the
    answer is an internal error, the report stays rejected and no expense has
    changed. *)
Theorem updateApproval_rejects_listed req s report :
  Decision.action req ≠ "approve" →
  truthy (Decision.id req) = true →
  Report_findById (Decision.id req) s = Some report →
  Report.status report = "pending" →
  Decision.expenses req ≠ [] →
  let result := updateApproval req s in
  Report_findById (Decision.id req) (snd result)
  = Some (decide_update "rejected" (Decision.userId req)
                        (Decision.reason req) report)
  ∧ notifications (snd result)
    = notifications s
      ++ [Notification.mk (Report._id report) (Report.user report) "rejected"]
  ∧ ((∀ x, In x (Decision.expenses req) → castable s x = true) →
     fst result = ApprovalDone "rejected"
     ∧ ∀ e, In e (expenses (snd result)) →
         In (Expense._id e) (Decision.expenses req) →
         Expense.status e = "rejected")
  ∧ (∀ x, In x (Decision.expenses req) → malformed s x = true →
     (∃ e, fst result = InternalError e)
     ∧ expenses (snd result) = expenses s).
Proof.
  intros Hact Hid Hfind Hst Hne result.
  assert (Happ : String.eqb (Decision.action req) "approve" = false)
    by (apply String.eqb_neq; exact Hact).
  assert (Hresult :
    result
    = match castFailure (castable s) "Expense" (Decision.expenses req) with
      | Some e => (InternalError e, noted req report s)
      | None => (ApprovalDone "rejected", decided req report s)
      end).
  { unfold result. rewrite (updateApproval_found _ _ _ Hid Hfind), Hst.
    destruct (Nat.eqb_spec (length (Decision.expenses req)) 0) as [Hz|_].
    { apply length_zero_iff_nil in Hz. contradiction. }
    unfold mismatch. rewrite Happ. reflexivity. }
  assert (Hreports :
    reports (snd result)
    = updateFirst (Decision.id req)
        (decide_update "rejected" (Decision.userId req) (Decision.reason req))
        (reports s)).
  { rewrite Hresult. destruct (castFailure _ _ _); cbn [snd].
    - rewrite reports_noted, Happ. reflexivity.
    - rewrite reports_decided, Happ. reflexivity. }
  split; [|split; [|split]].
  - unfold Report_findById. rewrite Hreports.
    apply find_updateFirst_same; [reflexivity|exact Hfind].
  - rewrite Hresult. destruct (castFailure _ _ _); cbn [snd].
    + unfold noted. rewrite Happ. reflexivity.
    + rewrite notifications_decided, Happ. reflexivity.
  - intros Hcast. rewrite Hresult, (castFailure_None _ _ _ Hcast).
    cbn [fst snd]. split; [reflexivity|].
    intros e He Hin. rewrite (expenses_decided_reject _ _ _ Happ) in He.
    apply in_map_iff in He as (e0 & <- & _). revert Hin.
    destruct (inIds (Decision.expenses req) (Expense._id e0)) eqn:Hsup;
      [reflexivity|].
    intros Hin. exfalso.
    assert (Hid0 : ∀ (b : bool) st,
      Expense._id (if b then Expense.setStatus st e0 else e0)
      = Expense._id e0) by (intros [] ?; reflexivity).
    rewrite Hid0 in Hin. apply includes_In in Hin.
    unfold inIds in Hsup. congruence.
  - intros x Hx Hbad. apply andb_prop in Hbad as [Hbad _].
    apply negb_true_iff in Hbad.
    destruct (castFailure_Some (castable s) "Expense" _ x Hx Hbad) as [e He].
    rewrite Hresult, He. cbn [fst snd]. split; [eauto|reflexivity].
Qed.

(** A decision with the action "decline" that lists an expense of no
    report. *)
Lemma updateApproval_rejects_listed_witness :
  let store :=
    withExpenses
      (λ es, es ++ [Expense.mk "exp9" "staff2" "Hotel" "Lodging" 300 "mapped"])
      ApprovalScenario.store in
  let req := ApprovalScenario.decision "decline" ["exp9"] in
  let result := updateApproval req store in
  Report_findById "rep1" (snd result)
  = Some (decide_update "rejected" "approver1" "fine" ApprovalScenario.report)
  ∧ notifications (snd result)
    = notifications store ++ [Notification.mk "rep1" "staff1" "rejected"]
  ∧ ((∀ x, In x ["exp9"] → castable store x = true) →
     fst result = ApprovalDone "rejected"
     ∧ ∀ e, In e (expenses (snd result)) →
         In (Expense._id e) ["exp9"] → Expense.status e = "rejected")
  ∧ (∀ x, In x ["exp9"] → malformed store x = true →
     (∃ e, fst result = InternalError e)
     ∧ expenses (snd result) = expenses store).
Proof.
  apply (updateApproval_rejects_listed
           (ApprovalScenario.decision "decline" ["exp9"])
           (withExpenses
              (λ es, es ++ [Expense.mk "exp9" "staff2" "Hotel" "Lodging" 300
                                       "mapped"])
              ApprovalScenario.store)
           ApprovalScenario.report).
  - discriminate.
  - reflexivity.
  - reflexivity.
  - reflexivity.
  - discriminate.
Defined.

(** ** What updateReport writes *)



(** ** getReport *)

Section ReportFacts.

Variable eventName : Event.t → string.
Variable staffs : Event.t → list string.
Variable statusOf : Event.t → string.
Variable formatDate : Z → string.

Lemma getReport_fetched q s s' found :
  truthy (ReportQuery.id q) = true →
  castable s (ReportQuery.id q) = true →
  fetchReport eventName staffs q s = (Go found, s') →
  getReport eventName staffs statusOf formatDate q s
  = (match found with
     | None =>
         respond 404 (ReportQuery.id q +:+ " "
                      +:+ shown (ReportQuery.isEvent q)
                      +:+ " Report not found")
     | Some (report, exps) =>
         respondWith 200 "Report found"
                     (viewOf statusOf formatDate report exps s')
     end, s').
Proof.
  intros Hid Hcast Hfetch. unfold getReport, getReport_body.
  rewrite Hid. simpl. unfold casting.
  rewrite (castFailure_castable _ _ _ Hcast).
  unfold caught, andThen at 1, go, andThen at 1. rewrite Hfetch.
  destruct found as [[report exps]|]; [|reflexivity].
  unfold viewOf. unfold_act.
  destruct (Report.event report); reflexivity.
Qed.

Lemma fetchReport_event_found q s flag found :
  ReportQuery.isEvent q = Some flag → truthy flag = true →
  Report_findOne_event (ReportQuery.id q) (ReportQuery.userId q) s
  = Some found →
  fetchReport eventName staffs q s = (Go (Some found), s).
Proof.
  intros Hflag Htruthy Hfound. unfold fetchReport.
  rewrite Hflag, Htruthy. unfold_act. rewrite Hfound. reflexivity.
Qed.

Lemma fetchReport_event_draft q s flag event :
  ReportQuery.isEvent q = Some flag → truthy flag = true →
  Report_findOne_event (ReportQuery.id q) (ReportQuery.userId q) s = None →
  Event_findOne_staff staffs (ReportQuery.id q) (ReportQuery.userId q) s
  = Some event →
  fetchReport eventName staffs q s
  = (Go (Some (eventDraft eventName q event, [])),
     Report_create (eventDraft eventName q event) s).
Proof.
  intros Hflag Htruthy Hnone Hevent. unfold fetchReport.
  rewrite Hflag, Htruthy. unfold_act. rewrite Hnone, Hevent. reflexivity.
Qed.


(** X15. Asked for an event for which the caller has no report yet, and of
    whose staff the caller is, getReport inserts one report for the pair: a
    draft without a label and without expenses that carries the event's name,
    and answers with it.  Asked again for the same event by the same caller,
    it inserts nothing and answers with that same report. *)
Theorem getReport_event_draft_once q q' s flag flag' event :
  truthy (ReportQuery.id q) = true →
  ReportQuery.isEvent q = Some flag → truthy flag = true →
  Report_findOne_event (ReportQuery.id q) (ReportQuery.userId q) s = None →
  Event_findOne_staff staffs (ReportQuery.id q) (ReportQuery.userId q) s
  = Some event →
  ReportQuery.id q' = ReportQuery.id q →
  ReportQuery.userId q' = ReportQuery.userId q →
  ReportQuery.isEvent q' = Some flag' → truthy flag' = true →
  let draft := eventDraft eventName q event in
  let first := getReport eventName staffs statusOf formatDate q s in
  let second :=
    getReport eventName staffs statusOf formatDate q' (snd first) in
  reports (snd first) = reports s ++ [draft]
  ∧ Report.reportId draft = None
  ∧ fst first
    = respondWith 200 "Report found"
        (viewOf statusOf formatDate draft [] (snd first))
  ∧ snd second = snd first
  ∧ fst second = fst first.
Proof.
  intros Hid Hflag Htruthy Hnone Hevent Hid' Huser' Hflag' Htruthy'
    draft first second.
  assert (Hstored : In event (events s) ∧ Event._id event = ReportQuery.id q).
  { unfold Event_findOne_staff in Hevent.
    apply find_some in Hevent as [Hin Heq].
    apply andb_prop in Heq as [Heq _]. apply String.eqb_eq in Heq. auto. }
  destruct Hstored as [Hin Heq].
  assert (Hfirst :
    first
    = (respondWith 200 "Report found"
         (viewOf statusOf formatDate draft [] (Report_create draft s)),
       Report_create draft s)).
  { unfold first.
    erewrite getReport_fetched;
      [|exact Hid|exact (castable_event _ _ _ Hin Heq)
       |eapply fetchReport_event_draft; eassumption].
    reflexivity. }
  assert (Hfound :
    Report_findOne_event (ReportQuery.id q') (ReportQuery.userId q')
                         (Report_create draft s)
    = Some (draft, [])).
  { rewrite Hid', Huser'. unfold Report_findOne_event in *. simpl.
    destruct (find _ (reports s)) as [r|] eqn:Hfind; [discriminate|].
    rewrite (find_app_None _ _ _ Hfind). simpl.
    rewrite !String.eqb_refl. reflexivity. }
  assert (Hsecond : second = first).
  { unfold second. rewrite Hfirst. simpl.
    erewrite getReport_fetched;
      [|rewrite Hid'; exact Hid
       |rewrite Hid'; exact (castable_event _ (Report_create draft s) _ Hin Heq)
       |eapply fetchReport_event_found; eassumption].
    reflexivity. }
  rewrite Hsecond, Hfirst. simpl. repeat split; reflexivity.
Qed.

(** X16. Asked for an event that is not stored, or of whose staff the
    caller is not, when the caller has no report for it, getReport ends in an
    internal error and inserts nothing: the name is read off the missing
    event before the report is made. *)
Theorem getReport_event_unknown q s flag :
  truthy (ReportQuery.id q) = true →
  ReportQuery.isEvent q = Some flag → truthy flag = true →
  Report_findOne_event (ReportQuery.id q) (ReportQuery.userId q) s = None →
  Event_findOne_staff staffs (ReportQuery.id q) (ReportQuery.userId q) s
  = None →
  Reply.code (fst (getReport eventName staffs statusOf formatDate q s)) = 500
  ∧ snd (getReport eventName staffs statusOf formatDate q s) = s.
Proof.
  intros Hid Hflag Htruthy Hnone Hevent.
  unfold getReport, getReport_body, fetchReport.
  rewrite Hid, Hflag, Htruthy. unfold casting.
  destruct (castFailure (castable s) "Report" [ReportQuery.id q]);
    unfold_act; simpl; [split; reflexivity|].
  rewrite Hnone, Hevent. split; reflexivity.
Qed.



End ReportFacts.

(** A store with an event and no report, and the caller's first and second
    look at the event's report. *)
Lemma getReport_event_draft_once_witness :
  let store := withEvents (λ _, [Event.mk "event1" "User"]) TravelScenario.store in
  let q := ReportQuery.mk "event1" (Some "true") "staff1" 7 "rep1" in
  let q' := ReportQuery.mk "event1" (Some "1") "staff1" 9 "rep2" in
  let draft := eventDraft (λ _, "Offsite") q (Event.mk "event1" "User") in
  let first :=
    getReport (λ _, "Offsite") (λ _, ["staff1"]) (λ _, "progress")
              (λ _, "Jan 01 2025") q store in
  let second :=
    getReport (λ _, "Offsite") (λ _, ["staff1"]) (λ _, "progress")
              (λ _, "Jan 01 2025") q' (snd first) in
  reports (snd first) = reports store ++ [draft]
  ∧ Report.reportId draft = None
  ∧ fst first
    = respondWith 200 "Report found"
        (viewOf (λ _, "progress") (λ _, "Jan 01 2025") draft [] (snd first))
  ∧ snd second = snd first
  ∧ fst second = fst first.
Proof.
  apply (getReport_event_draft_once (λ _, "Offsite") (λ _, ["staff1"])
           (λ _, "progress") (λ _, "Jan 01 2025")
           (ReportQuery.mk "event1" (Some "true") "staff1" 7 "rep1")
           (ReportQuery.mk "event1" (Some "1") "staff1" 9 "rep2")
           (withEvents (λ _, [Event.mk "event1" "User"]) TravelScenario.store)
           "true" "1" (Event.mk "event1" "User")).
  - reflexivity.
  - reflexivity.
  - reflexivity.
  - reflexivity.
  - reflexivity.
  - reflexivity.
  - reflexivity.
  - reflexivity.
  - reflexivity.
Defined.

Lemma getReport_event_unknown_witness :
  Reply.code
    (fst (getReport (λ _, "Offsite") (λ _, ["staff2"]) (λ _, "progress")
            (λ _, "Jan 01 2025")
            (ReportQuery.mk "event1" (Some "true") "staff1" 7 "rep1")
            (withEvents (λ _, [Event.mk "event1" "User"])
                        TravelScenario.store)))
  = 500
  ∧ snd (getReport (λ _, "Offsite") (λ _, ["staff2"]) (λ _, "progress")
           (λ _, "Jan 01 2025")
           (ReportQuery.mk "event1" (Some "true") "staff1" 7 "rep1")
           (withEvents (λ _, [Event.mk "event1" "User"])
                       TravelScenario.store))
    = withEvents (λ _, [Event.mk "event1" "User"]) TravelScenario.store.
Proof.
  apply (getReport_event_unknown (λ _, "Offsite") (λ _, ["staff2"])
           (λ _, "progress") (λ _, "Jan 01 2025")
           (ReportQuery.mk "event1" (Some "true") "staff1" 7 "rep1")
           (withEvents (λ _, [Event.mk "event1" "User"]) TravelScenario.store)
           "true").
  - reflexivity.
  - reflexivity.
  - reflexivity.
  - reflexivity.
  - reflexivity.
Defined.


(** ** getExpense *)




(** ** sendOtp, verifyUser and mpinHandler *)

(** A saved document is the one its email finds afterwards. *)
Lemma Account_findOne_save email accounts user user' :
  Account_findOne email accounts = Some user →
  Account.email user' = email →
  Account._id user' = Account._id user →
  Account_findOne email (Account_save user' accounts) = Some user'.
Proof.
  unfold Account_findOne. intros Hfind Hemail Hid.
  induction accounts as [|a rest IH]; simpl in *; [discriminate|].
  destruct (String.eqb (Account.email a) email) eqn:Ha.
  - injection Hfind as ->. rewrite Hid, String.eqb_refl. simpl.
    rewrite Hemail, String.eqb_refl. reflexivity.
  - destruct (String.eqb (Account._id a) (Account._id user')); simpl.
    + rewrite Hemail, String.eqb_refl. reflexivity.
    + rewrite Ha. apply IH. exact Hfind.
Qed.

(** X19. A one-time password is good for one verification.  After sendOtp
    has stored the number it drew for a stored user (the mail went out),
    verifyUser with another number is turned down with "Invalid OTP" and
    changes nothing; with that number it marks the user verified and active
    and clears the stored number; and from then on verifyUser is turned down
    for every number, the used one included, and changes nothing. *)
Theorem otp_single_use email otp mailStatus accounts user :
  truthy email = true →
  otp ≠ 0 →
  mailStatus ≠ "failure" →
  Account_findOne email accounts = Some user →
  let sent := sendOtp email otp mailStatus accounts in
  let checked := verifyUser otp email (snd sent) in
  fst sent = respond 200 "OTP sent successfully"
  ∧ (∀ other, other ≠ otp → other ≠ 0 →
       verifyUser other email (snd sent)
       = (respond 400 "Invalid OTP", snd sent))
  ∧ fst checked = respond 200 "User verified successfully"
  ∧ Account_findOne email (snd checked)
    = Some (Account.verified (Account.setOtp (Some otp) user))
  ∧ (∀ again,
       Reply.code (fst (verifyUser again email (snd checked))) = 400
       ∧ snd (verifyUser again email (snd checked)) = snd checked).
Proof.
  intros Hemail Hotp Hmail Hfind sent checked.
  assert (Hstatus : String.eqb mailStatus "failure" = false)
    by (apply String.eqb_neq; exact Hmail).
  assert (Hsent :
    sent = (respond 200 "OTP sent successfully",
            Account_save (Account.setOtp (Some otp) user) accounts)).
  { unfold sent, sendOtp, sendOtp_body. rewrite Hemail. cbn [negb]. unfold_act.
    rewrite Hfind, Hstatus. reflexivity. }
  assert (Hfind1 :
    Account_findOne email (snd sent)
    = Some (Account.setOtp (Some otp) user)).
  { rewrite Hsent. simpl. eapply Account_findOne_save; [exact Hfind| |].
    - apply find_some in Hfind as [_ Heq]. apply String.eqb_eq in Heq.
      exact Heq.
    - reflexivity. }
  assert (Htruthy : ∀ n, n ≠ 0 → truthyNum n = true).
  { intros n Hn. unfold truthyNum. apply negb_true_iff, Z.eqb_neq. exact Hn. }
  assert (Hchecked :
    checked
    = (respond 200 "User verified successfully",
       Account_save (Account.verified (Account.setOtp (Some otp) user))
                    (snd sent))).
  { unfold checked, verifyUser, verifyUser_body.
    rewrite (Htruthy otp Hotp), Hemail. cbn [negb]. unfold_act. rewrite Hfind1. simpl.
    rewrite Z.eqb_refl. reflexivity. }
  assert (Hfind2 :
    Account_findOne email (snd checked)
    = Some (Account.verified (Account.setOtp (Some otp) user))).
  { rewrite Hchecked. simpl. eapply Account_findOne_save; [exact Hfind1| |].
    - apply find_some in Hfind as [_ Heq]. apply String.eqb_eq in Heq.
      exact Heq.
    - reflexivity. }
  split; [rewrite Hsent; reflexivity|]. split.
  { intros other Hother Hnz. unfold verifyUser, verifyUser_body.
    rewrite (Htruthy other Hnz), Hemail. cbn [negb]. unfold_act. rewrite Hfind1. simpl.
    assert (Hne : (otp =? other) = false) by (apply Z.eqb_neq; congruence).
    rewrite Hne. reflexivity. }
  split; [rewrite Hchecked; reflexivity|]. split; [exact Hfind2|].
  intros again. unfold verifyUser, verifyUser_body.
  destruct (truthyNum again); cbn [negb]; [|split; reflexivity].
  rewrite Hemail. cbn [negb]. unfold_act. rewrite Hfind2. simpl. split; reflexivity.
Qed.

Lemma otp_single_use_witness :
  let accounts :=
    [Account.mk "u1" "ann@corp.test" "Ann" "E1" "staff" None false false None] in
  let sent := sendOtp "ann@corp.test" 4821 "success" accounts in
  let checked := verifyUser 4821 "ann@corp.test" (snd sent) in
  fst sent = respond 200 "OTP sent successfully"
  ∧ (∀ other, other ≠ 4821 → other ≠ 0 →
       verifyUser other "ann@corp.test" (snd sent)
       = (respond 400 "Invalid OTP", snd sent))
  ∧ fst checked = respond 200 "User verified successfully"
  ∧ Account_findOne "ann@corp.test" (snd checked)
    = Some (Account.mk "u1" "ann@corp.test" "Ann" "E1" "staff" None true true
                       None)
  ∧ (∀ again,
       Reply.code (fst (verifyUser again "ann@corp.test" (snd checked))) = 400
       ∧ snd (verifyUser again "ann@corp.test" (snd checked)) = snd checked).
Proof.
  apply (otp_single_use "ann@corp.test" 4821 "success"
           [Account.mk "u1" "ann@corp.test" "Ann" "E1" "staff" None false
                       false None]
           (Account.mk "u1" "ann@corp.test" "Ann" "E1" "staff" None false
                       false None)).
  - reflexivity.
  - lia.
  - discriminate.
  - reflexivity.
Defined.

(** X20. sendOtp stores nothing unless the mail went out: when the mail
    helper reports a failure, or the email is empty or belongs to no user,
    the answer is an error and every user document is as before, a number
    stored earlier included. *)
Theorem sendOtp_failure_keeps email otp mailStatus accounts :
  (truthy email = false ∨ Account_findOne email accounts = None
   ∨ mailStatus = "failure") →
  snd (sendOtp email otp mailStatus accounts) = accounts
  ∧ Reply.code (fst (sendOtp email otp mailStatus accounts)) ≠ 200.
Proof.
  intros H. unfold sendOtp, sendOtp_body.
  destruct (truthy email) eqn:Hemail; simpl; [|split; [reflexivity|discriminate]].
  unfold_act.
  destruct (Account_findOne email accounts) as [user|] eqn:Hfind;
    [|split; [reflexivity|discriminate]].
  destruct H as [H|[H|H]]; try discriminate.
  rewrite H. simpl. split; [reflexivity|discriminate].
Qed.

Lemma sendOtp_failure_keeps_witness :
  snd (sendOtp "ann@corp.test" 4821 "failure"
         [Account.mk "u1" "ann@corp.test" "Ann" "E1" "staff" (Some 1111)
                     false false None])
  = [Account.mk "u1" "ann@corp.test" "Ann" "E1" "staff" (Some 1111)
                false false None]
  ∧ Reply.code
      (fst (sendOtp "ann@corp.test" 4821 "failure"
              [Account.mk "u1" "ann@corp.test" "Ann" "E1" "staff" (Some 1111)
                          false false None]))
    ≠ 200.
Proof.
  apply (sendOtp_failure_keeps "ann@corp.test" 4821 "failure").
  right. right. reflexivity.
Defined.

(** X21. mpinHandler sets an MPIN only for a user who has none, and it never
    replaces one: for a user with a stored MPIN the documents are left as
    they are, the answer is 401 when the helper rejects the pair and
    otherwise the login with the token made for the user.  When the helper
    accepts an MPIN against its own hash, which must not be empty, the first
    call by a user without an MPIN stores the hash and the second call with
    the same MPIN logs in. *)
Theorem mpinHandler_set_once :
  (∀ (hashPassword : string → string)
     (comparePasswords : string → string → bool)
     (generateToken : string → string → string)
     email mpin accounts user stored,
     truthy email = true → truthy mpin = true →
     Account_findOne email accounts = Some user →
     storedMpin user = Some stored →
     let result :=
       mpinHandler hashPassword comparePasswords generateToken email mpin
                   accounts in
     snd result = accounts
     ∧ (comparePasswords mpin stored = false →
        fst result = respond 401 "Invalid MPIN")
     ∧ (comparePasswords mpin stored = true →
        fst result
        = respondWith 200 "Login successfull..!"
            (Login.mk (Account._id user)
               (generateToken (Account._id user) (Account.userType user))
               (Account.userType user) (Account.name user)
               (Account.employeeId user))))
  ∧ (∀ (hashPassword : string → string)
       (comparePasswords : string → string → bool)
       (generateToken : string → string → string)
       email mpin accounts user,
       truthy email = true → truthy mpin = true →
       Account_findOne email accounts = Some user →
       storedMpin user = None →
       truthy (hashPassword mpin) = true →
       comparePasswords mpin (hashPassword mpin) = true →
       let first :=
         mpinHandler hashPassword comparePasswords generateToken email mpin
                     accounts in
       let second :=
         mpinHandler hashPassword comparePasswords generateToken email mpin
                     (snd first) in
       fst first = respond 200 "User MPIN added successfully..!"
       ∧ Account_findOne email (snd first)
         = Some (Account.setMpin (hashPassword mpin) user)
       ∧ Reply.code (fst second) = 200
       ∧ Reply.text (fst second) = "Login successfull..!"
       ∧ snd second = snd first).
Proof.
  split.
  - intros hashPassword comparePasswords generateToken email mpin accounts
      user stored Hemail Hmpin Hfind Hstored result.
    unfold result, mpinHandler, mpinHandler_body.
    rewrite Hemail, Hmpin. cbn [negb]. unfold_act. rewrite Hfind, Hstored. simpl.
    destruct (comparePasswords mpin stored); simpl.
    + split; [reflexivity|]. split; [discriminate|reflexivity].
    + split; [reflexivity|]. split; [reflexivity|discriminate].
  - intros hashPassword comparePasswords generateToken email mpin accounts
      user Hemail Hmpin Hfind Hnone Hhash Hcompare first second.
    assert (Hfirst :
      first
      = (respond 200 "User MPIN added successfully..!",
         Account_save (Account.setMpin (hashPassword mpin) user) accounts)).
    { unfold first, mpinHandler, mpinHandler_body.
      rewrite Hemail, Hmpin. cbn [negb]. unfold_act. rewrite Hfind, Hnone. reflexivity. }
    assert (Hfind1 :
      Account_findOne email (snd first)
      = Some (Account.setMpin (hashPassword mpin) user)).
    { rewrite Hfirst. simpl. eapply Account_findOne_save; [exact Hfind| |].
      - apply find_some in Hfind as [_ Heq]. apply String.eqb_eq in Heq.
        exact Heq.
      - reflexivity. }
    split; [rewrite Hfirst; reflexivity|]. split; [exact Hfind1|].
    unfold second, mpinHandler, mpinHandler_body.
    rewrite Hemail, Hmpin. cbn [negb]. unfold_act. rewrite Hfind1.
    unfold storedMpin. simpl. rewrite Hhash, Hcompare. simpl.
    repeat split; reflexivity.
Qed.

Lemma mpinHandler_set_once_witness :
  let accounts :=
    [Account.mk "u1" "ann@corp.test" "Ann" "E1" "staff" None true true None] in
  let first :=
    mpinHandler (λ m, "#" +:+ m) (λ m h, String.eqb ("#" +:+ m) h)
                (λ id type, id +:+ "." +:+ type) "ann@corp.test" "2468"
                accounts in
  let second :=
    mpinHandler (λ m, "#" +:+ m) (λ m h, String.eqb ("#" +:+ m) h)
                (λ id type, id +:+ "." +:+ type) "ann@corp.test" "2468"
                (snd first) in
  fst first = respond 200 "User MPIN added successfully..!"
  ∧ Account_findOne "ann@corp.test" (snd first)
    = Some (Account.mk "u1" "ann@corp.test" "Ann" "E1" "staff" None true true
                       (Some "#2468"))
  ∧ Reply.code (fst second) = 200
  ∧ Reply.text (fst second) = "Login successfull..!"
  ∧ snd second = snd first.
Proof.
  apply (proj2 mpinHandler_set_once (λ m, "#" +:+ m)
           (λ m h, String.eqb ("#" +:+ m) h)
           (λ id type, id +:+ "." +:+ type) "ann@corp.test" "2468"
           [Account.mk "u1" "ann@corp.test" "Ann" "E1" "staff" None true true
                       None]
           (Account.mk "u1" "ann@corp.test" "Ann" "E1" "staff" None true true
                       None)).
  - reflexivity.
  - reflexivity.
  - reflexivity.
  - reflexivity.
  - reflexivity.
  - reflexivity.
Defined.
